(** * RiskMetric, bronze layer: the synthetic transaction generator

    A shallow embedding of [generator.py].  The generator is a batch
    program that draws from four entropy sources (Python's [random],
    [numpy.random], Faker and the operating system behind [uuid.uuid4]);
    the embedding threads those sources through a state-and-exception
    monad, so that every function below is an executable function of the
    tapes it reads.

    Idealisations, stated once:
    - Python floats are modelled by rationals ([Q]); [round(x, n)] is
      round-half-to-even on the exact value.
    - A naive [datetime] is the number of seconds since 1970-01-01 00:00:00
      ([Z]); a [timedelta] is a number of seconds.
    - Each call to a generator primitive consumes one cell of the matching
      tape and maps it into the primitive's range, so every tape is a
      possible run.  [random.random()] is a multiple of 2^-53 in [0, 1). *)

From Stdlib Require Import ZArith QArith Qround List String Ascii Bool.
From Stdlib Require Import Lia Lqa Permutation Sorted DecimalString DecimalNat OrdersEx.
Import ListNotations.

Open Scope string_scope.
Open Scope list_scope.

(** ** Exceptions, results and the generator monad *)

Inductive Exn : Type :=
| IndexError   (* indexing or choosing from an empty / too short sequence *)
| ValueError   (* pandas / numpy argument validation *)
| KeyError.    (* a column that an empty DataFrame does not have *)

Inductive Result (A : Type) : Type :=
| Ok (a : A)
| Raise (e : Exn).

Arguments Ok {A} a.
Arguments Raise {A} e.

(** The process-wide entropy: one tape and one cursor per source.  The
    first three are seeded at import time ([random.seed(42)],
    [np.random.seed(42)], [Faker.seed(42)]); the last one is the operating
    system's and is not seeded. *)
Record World : Type := mkWorld {
  mt : nat -> Z;       mt_pos : nat;   (* random (Mersenne Twister) *)
  np : nat -> Q;       np_pos : nat;   (* numpy.random *)
  fk : nat -> string;  fk_pos : nat;   (* Faker *)
  os : nat -> string;  os_pos : nat    (* os.urandom, behind uuid4 *)
}.

Definition M (A : Type) : Type := World -> Result (A * World).

Definition ret {A} (a : A) : M A := fun w => Ok (a, w).

Definition bind {A B} (m : M A) (f : A -> M B) : M B :=
  fun w => match m w with
           | Ok (a, w') => f a w'
           | Raise e => Raise e
           end.

Definition raise {A} (e : Exn) : M A := fun _ => Raise e.

Declare Scope gen_scope.
Delimit Scope gen_scope with gen.
Notation "x <- c1 ;; c2" := (bind c1 (fun x => c2))
  (at level 100, c1 at next level, right associativity) : gen_scope.
Notation "' pat <- c1 ;; c2" := (bind c1 (fun x => match x with pat => c2 end))
  (at level 100, pat pattern, c1 at next level, right associativity) : gen_scope.
Open Scope gen_scope.

(** [for x in xs: body(x)] where the body appends to one output list. *)
Fixpoint for_each {A B} (xs : list A) (body : A -> M (list B)) : M (list B) :=
  match xs with
  | [] => ret []
  | x :: xs' =>
      out <- body x ;;
      rest <- for_each xs' body ;;
      ret (out ++ rest)
  end.

(** [range(n)] for a Python int [n]: empty when [n <= 0]. *)
Definition range (n : Z) : list nat := seq 0 (Z.to_nat n).

(** [len(x)] as a Python int. *)
Definition len {A} (x : list A) : Z := Z.of_nat (List.length x).

(** ** Numbers *)

(** Round-half-to-even of a rational to an integer. *)
Definition round_half_even (x : Q) : Z :=
  let f := Qfloor x in
  match Qcompare (x - inject_Z f) (1 # 2) with
  | Lt => f
  | Gt => (f + 1)%Z
  | Eq => if Z.even f then f else (f + 1)%Z
  end.

(** [round(x, ndigits)]. *)
Definition py_round (x : Q) (ndigits : nat) : Q :=
  Qmake (round_half_even (x * inject_Z (10 ^ Z.of_nat ndigits)))
        (Z.to_pos (10 ^ Z.of_nat ndigits)).

(** [max(a, b)]: Python keeps the first argument unless the second is
    strictly greater. *)
Definition py_max (a b : Q) : Q :=
  match Qcompare a b with Lt => b | _ => a end.

(** ** Dates *)

(** Days from 1970-01-01 to the civil date [y]-[m]-[d] (proleptic
    Gregorian calendar), as [datetime.toordinal] differences compute it. *)
Definition days_from_civil (y m d : Z) : Z :=
  let y' := (if m <=? 2 then y - 1 else y)%Z in
  let era := (y' / 400)%Z in
  let yoe := (y' - era * 400)%Z in
  let mp := ((m + 9) mod 12)%Z in
  let doy := ((153 * mp + 2) / 5 + d - 1)%Z in
  let doe := (yoe * 365 + yoe / 4 - yoe / 100 + doy)%Z in
  (era * 146097 + doe - 719468)%Z.

Definition datetime (y m d : Z) : Z := (86400 * days_from_civil y m d)%Z.

Definition timedelta_days (d : Z) : Z := (86400 * d)%Z.
Definition timedelta_minutes (m : Z) : Z := (60 * m)%Z.
Definition timedelta_seconds (s : Z) : Z := s.

(** ** Strings *)

Definition decimal (n : nat) : string := NilZero.string_of_uint (Nat.to_uint n).

Fixpoint zeros (k : nat) : string :=
  match k with
  | O => EmptyString
  | S k' => String "0"%char (zeros k')
  end.

(** The format spec [{i:06d}] for a non-negative [i]: at least six
    characters, padded with zeros on the left. *)
Definition fmt_06d (i : nat) : string :=
  let s := decimal i in
  String.append (zeros (6 - String.length s)) s.

(** ** Lists as Python lists *)

Fixpoint set_nth {A} (i : nat) (a : A) (x : list A) : list A :=
  match x, i with
  | [], _ => []
  | _ :: t, O => a :: t
  | h :: t, S i' => h :: set_nth i' a t
  end.

(** [x[i], x[j] = x[j], x[i]] for indices in range. *)
Definition swap {A} (x : list A) (i j : nat) : list A :=
  match nth_error x i, nth_error x j with
  | Some a, Some b => set_nth j a (set_nth i b x)
  | _, _ => x
  end.

(** [seq[i]] for a non-negative index. *)
Definition index {A} (x : list A) (i : nat) : M A :=
  match nth_error x i with
  | Some a => ret a
  | None => raise IndexError
  end.

(** ** The entropy primitives *)

Definition next_mt : M Z :=
  fun w => Ok (mt w (mt_pos w),
               mkWorld (mt w) (S (mt_pos w)) (np w) (np_pos w)
                       (fk w) (fk_pos w) (os w) (os_pos w)).

Definition next_np : M Q :=
  fun w => Ok (np w (np_pos w),
               mkWorld (mt w) (mt_pos w) (np w) (S (np_pos w))
                       (fk w) (fk_pos w) (os w) (os_pos w)).

(** [fake.company()] *)
Definition fake_company : M string :=
  fun w => Ok (fk w (fk_pos w),
               mkWorld (mt w) (mt_pos w) (np w) (np_pos w)
                       (fk w) (S (fk_pos w)) (os w) (os_pos w)).

(** [str(uuid.uuid4())] *)
Definition uuid4 : M string :=
  fun w => Ok (os w (os_pos w),
               mkWorld (mt w) (mt_pos w) (np w) (np_pos w)
                       (fk w) (fk_pos w) (os w) (S (os_pos w))).

(** [random.random()]: a 53-bit fraction. *)
Definition random_random : M Q :=
  r <- next_mt ;;
  ret (Qmake (r mod 2 ^ 53) (2 ^ 53)).

(** [random.uniform(a, b)] is [a + (b - a) * random()]. *)
Definition random_uniform (a b : Q) : M Q :=
  u <- random_random ;;
  ret (a + (b - a) * u)%Q.

(** [random._randbelow(n)] for [n > 0]. *)
Definition randbelow (n : nat) : M nat :=
  r <- next_mt ;;
  ret (Z.to_nat (r mod Z.of_nat n)).

(** [random.randint(a, b)], both ends included. *)
Definition random_randint (a b : Z) : M Z :=
  if (b <? a)%Z then raise ValueError
  else r <- next_mt ;; ret (a + r mod (b - a + 1))%Z.

(** [random.choice(seq)] *)
Definition random_choice {A} (seq : list A) : M A :=
  match seq with
  | [] => raise IndexError
  | _ :: _ => i <- randbelow (List.length seq) ;; index seq i
  end.

(** The Fisher-Yates loop shared by [random.shuffle] and numpy's
    permutation: [for i in reversed(range(1, len(x))): j = below(i + 1);
    x[i], x[j] = x[j], x[i]]; the argument [i] is the current index. *)
Fixpoint fisher_yates {A} (below : nat -> M nat) (i : nat) (x : list A)
  : M (list A) :=
  match i with
  | O => ret x
  | S i' =>
      j <- below (S i) ;;
      fisher_yates below i' (swap x i j)
  end.

(** [random.shuffle(x)], returning the list it leaves in [x]. *)
Definition random_shuffle {A} (x : list A) : M (list A) :=
  fisher_yates randbelow (List.length x - 1) x.

(** numpy's bounded integer draw. *)
Definition np_randbelow (n : nat) : M nat :=
  q <- next_np ;;
  ret (Z.to_nat (Qfloor q mod Z.of_nat n)).

(** [np.random.normal(loc, scale)]: [loc + scale * z] for a standard
    normal draw [z]; a negative scale is refused. *)
Definition np_random_normal (loc scale : Q) : M Q :=
  match Qcompare scale 0 with
  | Lt => raise ValueError
  | _ => z <- next_np ;; ret (loc + scale * z)%Q
  end.

(** [frame.iloc[idx]] for a list of row positions. *)
Definition iloc {A} (frame : list A) (idx : list nat) : M (list A) :=
  for_each idx (fun j => row <- index frame j ;; ret [row]).

(** [frame.sample(n=n, replace=replace)]: pandas validates [n], then asks
    numpy for row positions: [n] independent draws with replacement, or the
    first [n] entries of a random permutation without. *)
Definition sample {A} (frame : list A) (n : Z) (replace : bool) : M (list A) :=
  if (n <? 0)%Z then raise ValueError
  else if replace then
    if ((len frame =? 0)%Z && (0 <? n)%Z)%bool then raise ValueError
    else
      idx <- for_each (range n)
               (fun _ => j <- np_randbelow (List.length frame) ;; ret [j]) ;;
      iloc frame idx
  else
    if (len frame <? n)%Z then raise ValueError
    else
      perm <- fisher_yates np_randbelow (List.length frame - 1)
                (seq 0 (List.length frame)) ;;
      iloc frame (firstn (Z.to_nat n) perm).

(** ** Data model *)

Module City.
Record t : Type := mk {
  city : string; country : string; lat : Q; lon : Q }.
End City.

Module User.
Record t : Type := mk {
  user_id : string;
  home_city : string;
  home_country : string;
  home_lat : Q;
  home_lon : Q;
  avg_amount : Q;
  std_amount : Q }.
End User.

Module Txn.
Record t : Type := mk {
  transaction_id : string;
  user_id : string;
  timestamp : Z;
  amount : Q;
  merchant_name : string;
  merchant_category : string;
  city : string;
  country : string;
  latitude : Q;
  longitude : Q;
  is_fraud : bool;
  fraud_type : option string }.
End Txn.

(** The module-level constants of [generator.py], gathered so that the
    configuration surface can be varied. *)
Record Config : Type := mkConfig {
  CITIES : list City.t;
  DISTANT_PAIRS : list (nat * nat);
  MERCHANT_CATEGORIES : list string;
  NUM_USERS : Z;
  NUM_TRANSACTIONS : Z;
  FRAUD_IMPOSSIBLE_TRAVEL : Z;
  FRAUD_VELOCITY_SPIKE_USERS : Z;
  FRAUD_BEHAVIORAL_DRIFT : Z }.

Definition cities : list City.t :=
  [ City.mk "New York" "US" 40.7128 (-74.0060);
    City.mk "London" "GB" 51.5074 (-0.1278);
    City.mk "Tokyo" "JP" 35.6762 139.6503;
    City.mk "Sydney" "AU" (-33.8688) 151.2093;
    City.mk "São Paulo" "BR" (-23.5505) (-46.6333);
    City.mk "Mumbai" "IN" 19.0760 72.8777;
    City.mk "Dubai" "AE" 25.2048 55.2708;
    City.mk "Singapore" "SG" 1.3521 103.8198;
    City.mk "Toronto" "CA" 43.6532 (-79.3832);
    City.mk "Berlin" "DE" 52.5200 13.4050;
    City.mk "Paris" "FR" 48.8566 2.3522;
    City.mk "Lagos" "NG" 6.5244 3.3792;
    City.mk "Mexico City" "MX" 19.4326 (-99.1332);
    City.mk "Seoul" "KR" 37.5665 126.9780;
    City.mk "Chicago" "US" 41.8781 (-87.6298);
    City.mk "Los Angeles" "US" 34.0522 (-118.2437);
    City.mk "Shanghai" "CN" 31.2304 121.4737;
    City.mk "Moscow" "RU" 55.7558 37.6173;
    City.mk "Cairo" "EG" 30.0444 31.2357;
    City.mk "Istanbul" "TR" 41.0082 28.9784 ].

Definition distant_pairs : list (nat * nat) :=
  [ (0, 1); (0, 2); (1, 3); (2, 4); (5, 6); (7, 3); (0, 15); (1, 16) ]%nat.

Definition merchant_categories : list string :=
  [ "Grocery"; "Restaurant"; "Gas Station"; "Online Shopping";
    "Electronics"; "Travel"; "Entertainment"; "Healthcare";
    "Utilities"; "Clothing"; "Hotel"; "ATM Withdrawal";
    "Wire Transfer"; "Subscription"; "Insurance" ].

(** The configuration the program ships with. *)
Definition shipped : Config :=
  mkConfig cities distant_pairs merchant_categories
           5000 1050000 2500 500 3000.

(** ** The generating components *)

(** [generate_user_profiles(n_users)] *)
Definition generate_user_profiles (cfg : Config) (n_users : Z)
  : M (list User.t) :=
  for_each (range n_users) (fun i =>
    home <- random_choice (CITIES cfg) ;;
    u1 <- random_uniform 20 500 ;;
    let avg_spend := py_round u1 2 in
    u2 <- random_uniform 0.15 0.40 ;;
    let std_spend := py_round (avg_spend * u2) 2 in
    ret [ {| User.user_id := String.append "USR-" (fmt_06d i);
             User.home_city := City.city home;
             User.home_country := City.country home;
             User.home_lat := City.lat home;
             User.home_lon := City.lon home;
             User.avg_amount := avg_spend;
             User.std_amount := std_spend |} ]).

Definition start_date : Z := datetime 2025 1 1.
Definition end_date : Z := datetime 2025 12 31.

(** [generate_legitimate_transactions(users, n_txns)] *)
Definition generate_legitimate_transactions (cfg : Config)
  (users : list User.t) (n_txns : Z) : M (list Txn.t) :=
  let delta_seconds := (end_date - start_date)%Z in
  for_each (range n_txns) (fun _ =>
    rows <- sample users 1 false ;;
    user <- index rows 0 ;;
    j_lat <- random_uniform (-0.5) 0.5 ;;
    let jitter_lat := (User.home_lat user + j_lat)%Q in
    j_lon <- random_uniform (-0.5) 0.5 ;;
    let jitter_lon := (User.home_lon user + j_lon)%Q in
    x <- np_random_normal (User.avg_amount user) (User.std_amount user) ;;
    let amount := py_max 0.50 (py_round x 2) in
    s <- random_randint 0 delta_seconds ;;
    let ts := (start_date + timedelta_seconds s)%Z in
    tid <- uuid4 ;;
    merchant <- fake_company ;;
    category <- random_choice (MERCHANT_CATEGORIES cfg) ;;
    ret [ {| Txn.transaction_id := tid;
             Txn.user_id := User.user_id user;
             Txn.timestamp := ts;
             Txn.amount := amount;
             Txn.merchant_name := merchant;
             Txn.merchant_category := category;
             Txn.city := User.home_city user;
             Txn.country := User.home_country user;
             Txn.latitude := py_round jitter_lat 6;
             Txn.longitude := py_round jitter_lon 6;
             Txn.is_fraud := false;
             Txn.fraud_type := None |} ]).

(** [enumerate(xs)] *)
Definition enumerate {A} (xs : list A) : list (Z * A) :=
  combine (map Z.of_nat (seq 0 (List.length xs))) xs.

(** [inject_impossible_travel(users, n_pairs)] *)
Definition inject_impossible_travel (cfg : Config)
  (users : list User.t) (n_pairs : Z) : M (list Txn.t) :=
  sampled_users <- sample users (Z.min n_pairs (len users)) true ;;
  for_each sampled_users (fun user =>
    pair <- random_choice (DISTANT_PAIRS cfg) ;;
    city_a <- index (CITIES cfg) (fst pair) ;;
    city_b <- index (CITIES cfg) (snd pair) ;;
    s <- random_randint 0 (timedelta_days 364) ;;
    let base_ts := (datetime 2025 1 1 + timedelta_seconds s)%Z in
    gap_minutes <- random_randint 2 10 ;;
    for_each (enumerate [city_a; city_b]) (fun '(idx, city) =>
      let ts := (base_ts + timedelta_minutes (idx * gap_minutes))%Z in
      tid <- uuid4 ;;
      amt <- random_uniform 10 2000 ;;
      merchant <- fake_company ;;
      category <- random_choice (MERCHANT_CATEGORIES cfg) ;;
      d_lat <- random_uniform (-0.01) 0.01 ;;
      d_lon <- random_uniform (-0.01) 0.01 ;;
      ret [ {| Txn.transaction_id := tid;
               Txn.user_id := User.user_id user;
               Txn.timestamp := ts;
               Txn.amount := py_round amt 2;
               Txn.merchant_name := merchant;
               Txn.merchant_category := category;
               Txn.city := City.city city;
               Txn.country := City.country city;
               Txn.latitude := py_round (City.lat city + d_lat) 6;
               Txn.longitude := py_round (City.lon city + d_lon) 6;
               Txn.is_fraud := true;
               Txn.fraud_type := Some "impossible_travel" |} ])).

(** [inject_velocity_spikes(users, n_users)] *)
Definition inject_velocity_spikes (cfg : Config)
  (users : list User.t) (n_users : Z) : M (list Txn.t) :=
  sampled_users <- sample users (Z.min n_users (len users)) false ;;
  for_each sampled_users (fun user =>
    s <- random_randint 0 (timedelta_days 364) ;;
    let base_ts := (datetime 2025 1 1 + timedelta_seconds s)%Z in
    n_micro <- random_randint 10 20 ;;
    city_info <- random_choice (CITIES cfg) ;;
    for_each (range n_micro) (fun i =>
      off <- random_randint 0 55 ;;
      let ts := (base_ts + timedelta_seconds off)%Z in
      tid <- uuid4 ;;
      amt <- random_uniform 0.01 2.00 ;;
      merchant <- fake_company ;;
      d_lat <- random_uniform (-0.01) 0.01 ;;
      d_lon <- random_uniform (-0.01) 0.01 ;;
      ret [ {| Txn.transaction_id := tid;
               Txn.user_id := User.user_id user;
               Txn.timestamp := ts;
               Txn.amount := py_round amt 2;
               Txn.merchant_name := merchant;
               Txn.merchant_category := "Online Shopping";
               Txn.city := City.city city_info;
               Txn.country := City.country city_info;
               Txn.latitude := py_round (City.lat city_info + d_lat) 6;
               Txn.longitude := py_round (City.lon city_info + d_lon) 6;
               Txn.is_fraud := true;
               Txn.fraud_type := Some "velocity_spike" |} ])).

(** [inject_behavioral_drift(users, n_txns)] *)
Definition inject_behavioral_drift (cfg : Config)
  (users : list User.t) (n_txns : Z) : M (list Txn.t) :=
  sampled_users <- sample users (Z.min n_txns (len users)) true ;;
  for_each sampled_users (fun user =>
    sigma_multiplier <- random_uniform 3.5 8.0 ;;
    let drift_amount :=
      py_round (User.avg_amount user
                + sigma_multiplier * User.std_amount user)%Q 2 in
    let drift_amount := py_max drift_amount 500.0 in
    s <- random_randint 0 (timedelta_days 364) ;;
    let ts := (datetime 2025 1 1 + timedelta_seconds s)%Z in
    tid <- uuid4 ;;
    merchant <- fake_company ;;
    category <- random_choice
                  ["Wire Transfer"; "Electronics"; "Travel"; "Online Shopping"] ;;
    d_lat <- random_uniform (-0.3) 0.3 ;;
    d_lon <- random_uniform (-0.3) 0.3 ;;
    ret [ {| Txn.transaction_id := tid;
             Txn.user_id := User.user_id user;
             Txn.timestamp := ts;
             Txn.amount := drift_amount;
             Txn.merchant_name := merchant;
             Txn.merchant_category := category;
             Txn.city := User.home_city user;
             Txn.country := User.home_country user;
             Txn.latitude := py_round (User.home_lat user + d_lat) 6;
             Txn.longitude := py_round (User.home_lon user + d_lon) 6;
             Txn.is_fraud := true;
             Txn.fraud_type := Some "behavioral_drift" |} ]).

(** ** The assembler *)

(** The sort key of [df.sort_values(["user_id", "timestamp"])]. *)
Definition sort_key (r : Txn.t) : string * Z :=
  (Txn.user_id r, Txn.timestamp r).

(** Keys compare lexicographically: strings by code point, timestamps
    numerically. *)
Definition key_leb (k1 k2 : string * Z) : bool :=
  match String.compare (fst k1) (fst k2) with
  | Lt => true
  | Eq => (snd k1 <=? snd k2)%Z
  | Gt => false
  end.

Fixpoint insert_row (r : Txn.t) (rows : list Txn.t) : list Txn.t :=
  match rows with
  | [] => [r]
  | h :: t =>
      if key_leb (sort_key r) (sort_key h) then r :: rows
      else h :: insert_row r t
  end.

(** [df.sort_values(["user_id", "timestamp"]).reset_index(drop=True)].
    With several sort columns pandas sorts through a lexicographic
    indexer, which is stable: rows with equal keys keep their relative
    order.  A stable insertion sort computes the same rows. *)
Definition sort_values (rows : list Txn.t) : list Txn.t :=
  fold_right insert_row [] rows.

(** Lines 240-246 of [main]: concatenate, shuffle, build the frame, sort.
    [df["timestamp"]] needs the column, which a frame built from an empty
    list of records does not have. *)
Definition assemble (legit impossible velocity drift : list Txn.t)
  : M (list Txn.t) :=
  let all_txns := legit ++ impossible ++ velocity ++ drift in
  all_txns <- random_shuffle all_txns ;;
  match all_txns with
  | [] => raise KeyError
  | _ :: _ => ret (sort_values all_txns)
  end.

(** What [main] writes: the user profiles and the sorted frame. *)
Definition main (cfg : Config) : M (list User.t * list Txn.t) :=
  users <- generate_user_profiles cfg (NUM_USERS cfg) ;;
  legit <- generate_legitimate_transactions cfg users (NUM_TRANSACTIONS cfg) ;;
  impossible <- inject_impossible_travel cfg users (FRAUD_IMPOSSIBLE_TRAVEL cfg) ;;
  velocity <- inject_velocity_spikes cfg users (FRAUD_VELOCITY_SPIKE_USERS cfg) ;;
  drift <- inject_behavioral_drift cfg users (FRAUD_BEHAVIORAL_DRIFT cfg) ;;
  df <- assemble legit impossible velocity drift ;;
  ret (users, df).

(** * Specification vocabulary *)

(** [returns m w P]: started in world [w], the program [m] terminates
    without raising and its value and final world satisfy [P]. *)
Definition returns {A} (m : M A) (w : World) (P : A -> World -> Prop) : Prop :=
  match m w with
  | Ok (a, w') => P a w'
  | Raise _ => False
  end.

(** [rows] are the rows of [frame] at positions [idx], in that order. *)
Definition picks {A} (frame : list A) (idx : list nat) (rows : list A) : Prop :=
  Forall2 (fun j row => nth_error frame j = Some row) idx rows.

(** ** Configurations *)

(** The catalogs are usable: none is empty and every distant pair indexes
    two cities. *)
Definition catalogs_ok (cfg : Config) : bool :=
  negb (Nat.eqb (List.length (CITIES cfg)) 0)
  && negb (Nat.eqb (List.length (DISTANT_PAIRS cfg)) 0)
  && negb (Nat.eqb (List.length (MERCHANT_CATEGORIES cfg)) 0)
  && forallb (fun p => Nat.ltb (fst p) (List.length (CITIES cfg))
                       && Nat.ltb (snd p) (List.length (CITIES cfg)))
             (DISTANT_PAIRS cfg).

(** Every target count, the population size included, is positive. *)
Definition counts_ok (cfg : Config) : bool :=
  (0 <? NUM_USERS cfg)%Z && (0 <? NUM_TRANSACTIONS cfg)%Z
  && (0 <? FRAUD_IMPOSSIBLE_TRAVEL cfg)%Z
  && (0 <? FRAUD_VELOCITY_SPIKE_USERS cfg)%Z
  && (0 <? FRAUD_BEHAVIORAL_DRIFT cfg)%Z.

Definition valid_config (cfg : Config) : bool :=
  catalogs_ok cfg && counts_ok cfg.

(** ** User profiles *)

(** What the profile generator establishes for the profile at position
    [i]: its identifier, a home taken from the catalog, and the ranges of
    the two spend parameters after rounding to cents. *)
Definition profile_at (cfg : Config) (i : nat) (u : User.t) : Prop :=
  User.user_id u = String.append "USR-" (fmt_06d i)
  /\ In (City.mk (User.home_city u) (User.home_country u)
                 (User.home_lat u) (User.home_lon u)) (CITIES cfg)
  /\ (20 <= User.avg_amount u <= 500)%Q
  /\ (3 <= User.std_amount u <= 200)%Q
  /\ (0.15 * User.avg_amount u - 0.005 <= User.std_amount u)%Q
  /\ (User.std_amount u <= 0.40 * User.avg_amount u + 0.005)%Q.

(** Reading a decimal numeral back, leading zeros allowed. *)
Definition parse_decimal (s : string) : option nat :=
  option_map Nat.of_uint (NilEmpty.uint_of_string s).

(** ** Concrete runs *)

(** A tape that plays the given cells and then repeats [d]. *)
Definition tape_of {A} (cells : list A) (d : A) : nat -> A :=
  fun i => nth i cells d.

(** A world whose [random] and numpy tapes play the given cells (then
    zeros), with a one-company Faker and counting identifiers. *)
Definition world_of (mt_cells : list Z) (np_cells : list Q) : World :=
  mkWorld (tape_of mt_cells 0%Z) 0 (tape_of np_cells 0%Q) 0
          (fun _ => "Acme Ltd") 0 (fun i => decimal i) 0.

(** ** Records of the four generating components *)

(** A record the legitimate sampler emits for [user]. *)
Definition legit_record (cfg : Config) (user : User.t) (r : Txn.t) : Prop :=
  Txn.user_id r = User.user_id user
  /\ (0.50 <= Txn.amount r)%Q
  /\ (start_date <= Txn.timestamp r <= end_date)%Z
  /\ In (Txn.merchant_category r) (MERCHANT_CATEGORIES cfg)
  /\ Txn.city r = User.home_city user
  /\ Txn.country r = User.home_country user
  /\ Txn.is_fraud r = false
  /\ Txn.fraud_type r = None.

(** One of the two records of an impossible-travel pair: [user] seen in
    [place] at time [ts]. *)
Definition travel_record (user : User.t) (place : City.t) (ts : Z) (r : Txn.t)
  : Prop :=
  Txn.user_id r = User.user_id user
  /\ Txn.timestamp r = ts
  /\ (10 <= Txn.amount r <= 2000)%Q
  /\ Txn.city r = City.city place
  /\ Txn.country r = City.country place
  /\ Txn.is_fraud r = true
  /\ Txn.fraud_type r = Some "impossible_travel".

(** The output of one impossible-travel trial for [user]. *)
Definition travel_pair (cfg : Config) (user : User.t) (out : list Txn.t) : Prop :=
  exists pair city_a city_b base_ts gap_minutes r1 r2,
    out = [r1; r2]
    /\ In pair (DISTANT_PAIRS cfg)
    /\ nth_error (CITIES cfg) (fst pair) = Some city_a
    /\ nth_error (CITIES cfg) (snd pair) = Some city_b
    /\ (2 <= gap_minutes <= 10)%Z
    /\ (datetime 2025 1 1 <= base_ts <= datetime 2025 1 1 + timedelta_days 364)%Z
    /\ travel_record user city_a base_ts r1
    /\ travel_record user city_b (base_ts + 60 * gap_minutes)%Z r2.

(** A record of a velocity burst of [user] around [base_ts]. *)
Definition burst_record (user : User.t) (place : City.t) (base_ts : Z) (r : Txn.t)
  : Prop :=
  Txn.user_id r = User.user_id user
  /\ (0 <= Txn.timestamp r - base_ts <= 55)%Z
  /\ (0.01 <= Txn.amount r <= 2.00)%Q
  /\ Txn.merchant_category r = "Online Shopping"
  /\ Txn.city r = City.city place
  /\ Txn.is_fraud r = true
  /\ Txn.fraud_type r = Some "velocity_spike".

(** The output of the velocity-spike injector for one selected [user]. *)
Definition velocity_burst (cfg : Config) (user : User.t) (out : list Txn.t) : Prop :=
  exists base_ts place,
    In place (CITIES cfg)
    /\ (datetime 2025 1 1 <= base_ts <= datetime 2025 1 1 + timedelta_days 364)%Z
    /\ (10 <= List.length out <= 20)%nat
    /\ Forall (burst_record user place base_ts) out.

(** A record the behavioral-drift injector emits for [user]. *)
Definition drift_record (user : User.t) (r : Txn.t) : Prop :=
  exists sigma_multiplier,
    (3.5 <= sigma_multiplier <= 8.0)%Q
    /\ Txn.user_id r = User.user_id user
    /\ Txn.amount r =
         py_max (py_round (User.avg_amount user
                           + sigma_multiplier * User.std_amount user)%Q 2) 500.0
    /\ (datetime 2025 1 1 <= Txn.timestamp r
        <= datetime 2025 1 1 + timedelta_days 364)%Z
    /\ Txn.city r = User.home_city user
    /\ Txn.country r = User.home_country user
    /\ Txn.is_fraud r = true
    /\ Txn.fraud_type r = Some "behavioral_drift".

(** [rows] were taken from [frame] at positions [idx], and [outs] holds,
    row by row, what a loop over [rows] appended. *)
Definition per_row {A B} (P : A -> list B -> Prop)
  (frame : list A) (idx : list nat) (outs : list (list B)) : Prop :=
  Forall2 (fun j out => exists row, nth_error frame j = Some row /\ P row out)
          idx outs.

(** A run whose tapes are long and varied: linear congruential cells. *)
Definition demo_world : World :=
  mkWorld
    (fun i => ((Z.of_nat i + 1) * 6364136223846793005 + 1442695040888963407)
                mod 2 ^ 64)%Z 0
    (fun i => Qmake ((((Z.of_nat i + 1) * 2862933555777941757 + 3037000493)
                        mod 2 ^ 32) - 2 ^ 31) (2 ^ 30)) 0
    (fun _ => "Acme Ltd") 0
    (fun i => decimal i) 0.

(** [demo_world] after the given numbers of draws from each source. *)
Definition demo_world_at (n_mt n_np n_fk n_os : nat) : World :=
  mkWorld (mt demo_world) n_mt (np demo_world) n_np
          (fk demo_world) n_fk (os demo_world) n_os.

(** The three profiles [generate_user_profiles] builds from [demo_world]. *)
Definition demo_users : list User.t :=
  [ User.mk "USR-000000" "Mexico City" "MX" 19.4326 (-99.1332) 160.85 58.49;
    User.mk "USR-000001" "Lagos" "NG" 6.5244 3.3792 488.77 139.01;
    User.mk "USR-000002" "Paris" "FR" 48.8566 2.3522 336.69 69.09 ].

(** ** The record invariant *)

(** The three recognised archetype tags. *)
Definition archetypes : list string :=
  [ "impossible_travel"; "velocity_spike"; "behavioral_drift" ].

(** Amount at or above one cent; fraud flag set exactly when the tag is
    one of the archetypes; no tag on a record that is not fraud. *)
Definition record_ok (r : Txn.t) : Prop :=
  (0.01 <= Txn.amount r)%Q
  /\ (Txn.is_fraud r = true <->
      exists tag, Txn.fraud_type r = Some tag /\ In tag archetypes)
  /\ (Txn.is_fraud r = false -> Txn.fraud_type r = None).

(** ** Order of the output frame *)

(** [a] may stand before [b] in a frame sorted by (user_id, timestamp). *)
Definition key_le (k1 k2 : string * Z) : Prop := key_leb k1 k2 = true.

Definition row_le (a b : Txn.t) : Prop := key_le (sort_key a) (sort_key b).

(** The burst [inject_velocity_spikes] emits for one user of [demo_users]
    from [demo_world] once the profiles are drawn. *)
Definition demo_burst : list Txn.t :=
  Eval vm_compute in
    match inject_velocity_spikes shipped demo_users 1 (demo_world_at 9 0 0 0) with
    | Ok (out, _) => out
    | Raise _ => []
    end.

(** ** A whole run *)

(** What a run of [main] produced: the profiles, the four streams and the
    frame assembled from them. *)
Definition run_of (cfg : Config) (users : list User.t) (df : list Txn.t)
  (legit impossible velocity drift : list Txn.t) : Prop :=
  Forall2 (profile_at cfg) (range (NUM_USERS cfg)) users
  /\ (List.length legit = Z.to_nat (NUM_TRANSACTIONS cfg)
      /\ Forall (fun r => exists user, In user users /\ legit_record cfg user r)
                legit)
  /\ (exists idx trials,
         List.length idx
         = Z.to_nat (Z.min (FRAUD_IMPOSSIBLE_TRAVEL cfg) (len users))
         /\ impossible = List.concat trials
         /\ per_row (travel_pair cfg) users idx trials)
  /\ (exists idx bursts,
         List.length idx
         = Z.to_nat (Z.min (FRAUD_VELOCITY_SPIKE_USERS cfg) (len users))
         /\ NoDup idx
         /\ velocity = List.concat bursts
         /\ per_row (velocity_burst cfg) users idx bursts)
  /\ (exists idx,
         List.length idx
         = Z.to_nat (Z.min (FRAUD_BEHAVIORAL_DRIFT cfg) (len users))
         /\ Forall2 (fun j r => exists user,
                         nth_error users j = Some user /\ drift_record user r)
                    idx drift)
  /\ Permutation (legit ++ impossible ++ velocity ++ drift) df
  /\ StronglySorted row_le df.

(** Configurations that separate the claimed record counts from the
    actual ones: one user, more travel pairs than users. *)
Definition one_user_config : Config :=
  mkConfig cities distant_pairs merchant_categories 1 1 20 1 1.

(** A configuration with zero fraud targets. *)
Definition no_fraud_config : Config :=
  mkConfig cities distant_pairs merchant_categories 1 1 0 0 0.

(** A small valid configuration. *)
Definition small_config : Config :=
  mkConfig cities distant_pairs merchant_categories 3 4 2 2 2.

(** Configurations outside the valid ones: no cities; no users. *)
Definition no_city_config : Config :=
  mkConfig [] distant_pairs merchant_categories 3 4 2 2 2.

Definition no_user_config : Config :=
  mkConfig cities distant_pairs merchant_categories 0 4 2 2 2.

(** ** Two runs from the same seeds *)

(** The process state after the three [seed(...)] calls at import time:
    each seeded generator is some function of its seed, and the operating
    system's entropy is whatever it is. *)
Definition boot (mersenne : Z -> nat -> Z) (legacy : Z -> nat -> Q)
  (faker : Z -> nat -> string) (seed : Z) (entropy : nat -> string) : World :=
  mkWorld (mersenne seed) 0 (legacy seed) 0 (faker seed) 0 entropy 0.

(** Two worlds that agree on everything the seeds determine. *)
Definition same_seeds (w1 w2 : World) : Prop :=
  mt w1 = mt w2 /\ mt_pos w1 = mt_pos w2
  /\ np w1 = np w2 /\ np_pos w1 = np_pos w2
  /\ fk w1 = fk w2 /\ fk_pos w1 = fk_pos w2.

(** A record with its transaction identifier blanked. *)
Definition anonymise (r : Txn.t) : Txn.t :=
  Txn.mk "" (Txn.user_id r) (Txn.timestamp r) (Txn.amount r)
         (Txn.merchant_name r) (Txn.merchant_category r)
         (Txn.city r) (Txn.country r) (Txn.latitude r) (Txn.longitude r)
         (Txn.is_fraud r) (Txn.fraud_type r).

(** Two record lists that are equal, in order, up to identifiers. *)
Definition same_rows (l1 l2 : list Txn.t) : Prop :=
  map anonymise l1 = map anonymise l2.

(** The (user, timestamp, amount, archetype) view of a record. *)
Definition tuple_of (r : Txn.t) : string * Z * Q * option string :=
  (Txn.user_id r, Txn.timestamp r, Txn.amount r, Txn.fraud_type r).

Definition fraud_count (df : list Txn.t) : nat :=
  List.length (filter Txn.is_fraud df).

(** Two runs of one program agree: started in worlds with the same seeds
    they raise the same exception, or both return, with related values, in
    worlds that still have the same seeds. *)
Definition agree {A} (R : A -> A -> Prop) (m1 m2 : M A) : Prop :=
  forall w1 w2, same_seeds w1 w2 ->
    match m1 w1, m2 w2 with
    | Ok (a1, w1'), Ok (a2, w2') => R a1 a2 /\ same_seeds w1' w2'
    | Raise e1, Raise e2 => e1 = e2
    | _, _ => False
    end.

(** ** Details of the emitted records *)

(** An amount with at most two decimals. *)
Definition whole_cents (q : Q) : Prop :=
  exists cents : Z, (q == inject_Z cents * (1 # 100))%Q.

(** [r] lies within [radius] degrees of ([lat], [lon]) on both axes, up
    to the rounding of its coordinates to six decimals. *)
Definition located_near (lat lon radius : Q) (r : Txn.t) : Prop :=
  (lat - radius - (1 # 2000000) <= Txn.latitude r)%Q
  /\ (Txn.latitude r <= lat + radius + (1 # 2000000))%Q
  /\ (lon - radius - (1 # 2000000) <= Txn.longitude r)%Q
  /\ (Txn.longitude r <= lon + radius + (1 # 2000000))%Q.

(** [r] is stamped with the city and country of [place] and lies within
    [radius] of its coordinates. *)
Definition placed_in (place : City.t) (radius : Q) (r : Txn.t) : Prop :=
  Txn.city r = City.city place
  /\ Txn.country r = City.country place
  /\ located_near (City.lat place) (City.lon place) radius r.

(** [r] is stamped with the home of [user] and lies within [radius] of it. *)
Definition placed_at_home (user : User.t) (radius : Q) (r : Txn.t) : Prop :=
  Txn.user_id r = User.user_id user
  /\ Txn.city r = User.home_city user
  /\ Txn.country r = User.home_country user
  /\ located_near (User.home_lat user) (User.home_lon user) radius r.

(** The identifier of the profile at position [j] of a population. *)
Definition user_id_at (users : list User.t) (j : nat) : string :=
  match nth_error users j with
  | Some u => User.user_id u
  | None => ""
  end.

(** One velocity burst in detail: 10 to 20 records, all of the user [id],
    all stamped with one and the same city of the catalog and within 0.01
    degrees of it, each with the category Online Shopping, an amount
    between 0.01 and 2.00 in whole cents and a timestamp between
    2025-01-01 00:00:00 and 2025-12-31 00:00:55. *)
Definition burst_in_detail (cfg : Config) (id : string) (burst : list Txn.t)
  : Prop :=
  (10 <= List.length burst <= 20)%nat
  /\ exists place,
       In place (CITIES cfg)
       /\ Forall (fun r =>
                    Txn.user_id r = id
                    /\ placed_in place 0.01 r
                    /\ Txn.merchant_category r = "Online Shopping"
                    /\ (0.01 <= Txn.amount r <= 2.00)%Q
                    /\ whole_cents (Txn.amount r)
                    /\ (datetime 2025 1 1 <= Txn.timestamp r
                        <= datetime 2025 12 31 + 55)%Z)
                 burst.

(** The categories the drift injector chooses from. *)
Definition drift_categories : list string :=
  [ "Wire Transfer"; "Electronics"; "Travel"; "Online Shopping" ].

(** ** Partial correctness and the identifier tape *)

(** [ensures m w P]: if [m] returns from [w], its value and final world
    satisfy [P]. *)
Definition ensures {A} (m : M A) (w : World) (P : A -> World -> Prop) : Prop :=
  match m w with
  | Ok (a, w') => P a w'
  | Raise _ => True
  end.

(** [m] never reads the operating system's entropy. *)
Definition keeps_os {A} (m : M A) : Prop :=
  forall w, ensures m w (fun _ w' => os w' = os w /\ os_pos w' = os_pos w).

(** [m] builds one record whose identifier is [tid], without reading the
    operating system's entropy. *)
Definition builds (tid : string) (m : M (list Txn.t)) : Prop :=
  forall w, ensures m w (fun out w' =>
    os w' = os w /\ os_pos w' = os_pos w
    /\ exists r, out = [r] /\ Txn.transaction_id r = tid).

(** The identifiers of [out] are the next cells of the tape, in order,
    and the cursor has moved past them. *)
Definition ids_drawn (tape : nat -> string) (pos : nat)
  (out : list Txn.t) (w' : World) : Prop :=
  os w' = tape
  /\ os_pos w' = (pos + List.length out)%nat
  /\ map Txn.transaction_id out = map tape (seq pos (List.length out)).

(** [m] draws exactly one identifier per record it emits. *)
Definition draws_ids (m : M (list Txn.t)) : Prop :=
  forall w, ensures m w (ids_drawn (os w) (os_pos w)).

(** Number of rows of a frame that carry the archetype tag [tag]
    ([None] for legitimate rows). *)
Definition tag_eqb (t1 t2 : option string) : bool :=
  match t1, t2 with
  | None, None => true
  | Some a, Some b => String.eqb a b
  | _, _ => false
  end.

Definition count_tag (tag : option string) (df : list Txn.t) : nat :=
  List.length (filter (fun r => tag_eqb (Txn.fraud_type r) tag) df).

(** Configurations with one empty catalog each. *)
Definition no_pair_config : Config :=
  mkConfig cities [] merchant_categories 3 4 2 2 2.

Definition no_category_config : Config :=
  mkConfig cities distant_pairs [] 3 4 2 2 2.


(** A population of one profile whose standard deviation is negative. *)
Definition negative_std_users : list User.t :=
  [ User.mk "USR-000000" "Paris" "FR" 48.8566 2.3522 100 (-1) ].
(** * Reasoning about generator programs *)

Section Returns.
Context {A B : Type}.

Lemma returns_ret (a : A) w (P : A -> World -> Prop) :
  P a w -> returns (ret a) w P.
Proof. exact (fun H => H). Qed.

Lemma returns_bind (m : M A) (f : A -> M B) w (P : B -> World -> Prop) :
  returns m w (fun a w' => returns (f a) w' P) -> returns (bind m f) w P.
Proof.
  unfold returns, bind. destruct (m w) as [[a w']|e]; auto.
Qed.

Lemma returns_weaken (m : M A) w (P P' : A -> World -> Prop) :
  returns m w P -> (forall a w', P a w' -> P' a w') -> returns m w P'.
Proof.
  unfold returns. destruct (m w) as [[a w']|e]; auto.
Qed.

Lemma returns_ex (m : M A) w (P : A -> World -> Prop) :
  returns m w P <-> exists a w', m w = Ok (a, w') /\ P a w'.
Proof.
  unfold returns. split.
  - destruct (m w) as [[a w']|e]; [eauto | tauto].
  - intros (a & w' & -> & H). exact H.
Qed.

End Returns.

(** One statement of a program: peel the [bind], apply the specification
    of its first command, and name what it returned. *)
Tactic Notation "run_with" open_constr(L) :=
  apply returns_bind; eapply returns_weaken; [ eapply L | cbv beta ].

Lemma returns_for_each {A B} (P : A -> list B -> Prop) (body : A -> M (list B)) :
  forall xs w,
    (forall x w', In x xs -> returns (body x) w' (fun out _ => P x out)) ->
    returns (for_each xs body) w
            (fun out _ => exists outs, out = List.concat outs /\ Forall2 P xs outs).
Proof.
  induction xs as [|x xs IH]; intros w Hbody; simpl.
  - apply returns_ret. exists []. split; [reflexivity | constructor].
  - run_with Hbody; [now left|]. intros out w1 Hout.
    run_with IH; [intros; apply Hbody; now right|].
    intros rest w2 (outs & -> & Hall).
    apply returns_ret. exists (out :: outs). split; [reflexivity|].
    now constructor.
Qed.

(** ** Specifications of the entropy primitives *)

Lemma returns_next_mt w : returns next_mt w (fun _ _ => True).
Proof. exact I. Qed.

Lemma returns_next_np w : returns next_np w (fun _ _ => True).
Proof. exact I. Qed.

Lemma returns_uuid4 w : returns uuid4 w (fun _ _ => True).
Proof. exact I. Qed.

Lemma returns_fake_company w : returns fake_company w (fun _ _ => True).
Proof. exact I. Qed.

Lemma returns_random_random w :
  returns random_random w (fun u _ => 0 <= u /\ u < 1)%Q.
Proof.
  unfold random_random. run_with returns_next_mt. intros r w' _.
  apply returns_ret.
  assert (H : (0 <= r mod 2 ^ 53 < 2 ^ 53)%Z) by (apply Z.mod_pos_bound; lia).
  unfold Qle, Qlt; simpl Qnum; simpl Qden.
  change (Z.pos (2 ^ 53)) with (2 ^ 53)%Z. lia.
Qed.

Lemma returns_random_uniform (a b : Q) w :
  returns (random_uniform a b) w
          (fun u _ => exists f, 0 <= f /\ f < 1 /\ u = a + (b - a) * f)%Q.
Proof.
  unfold random_uniform. run_with returns_random_random.
  intros f w' [H0 H1]. apply returns_ret. eauto.
Qed.

Lemma returns_randbelow n w :
  (0 < n)%nat -> returns (randbelow n) w (fun j _ => (j < n)%nat).
Proof.
  intros Hn. unfold randbelow. run_with returns_next_mt. intros r w' _.
  apply returns_ret.
  assert (H : (0 <= r mod Z.of_nat n < Z.of_nat n)%Z)
    by (apply Z.mod_pos_bound; lia).
  lia.
Qed.

Lemma returns_np_randbelow n w :
  (0 < n)%nat -> returns (np_randbelow n) w (fun j _ => (j < n)%nat).
Proof.
  intros Hn. unfold np_randbelow. run_with returns_next_np. intros q w' _.
  apply returns_ret.
  assert (H : (0 <= Qfloor q mod Z.of_nat n < Z.of_nat n)%Z)
    by (apply Z.mod_pos_bound; lia).
  lia.
Qed.

Lemma returns_random_randint (a b : Z) w :
  (a <= b)%Z -> returns (random_randint a b) w (fun r _ => a <= r <= b)%Z.
Proof.
  intros Hab. unfold random_randint.
  destruct (b <? a)%Z eqn:E; [apply Z.ltb_lt in E; lia|].
  run_with returns_next_mt. intros r w' _. apply returns_ret.
  assert (H : (0 <= r mod (b - a + 1) < b - a + 1)%Z)
    by (apply Z.mod_pos_bound; lia).
  lia.
Qed.

Lemma returns_index {A} (x : list A) i w :
  (i < List.length x)%nat ->
  returns (index x i) w (fun a w' => nth_error x i = Some a /\ w' = w).
Proof.
  intros Hi. unfold index.
  destruct (nth_error x i) as [a|] eqn:E.
  - apply returns_ret. auto.
  - apply nth_error_None in E. lia.
Qed.

Lemma returns_random_choice {A} (seq : list A) w :
  seq <> [] -> returns (random_choice seq) w (fun a _ => In a seq).
Proof.
  intros Hne. unfold random_choice.
  destruct seq as [|h t] eqn:E; [congruence|]. rewrite <- E.
  assert (Hlen : (0 < List.length seq)%nat) by (subst seq; simpl; lia).
  run_with returns_randbelow; [exact Hlen|]. intros j w1 Hj.
  eapply returns_weaken; [apply returns_index; exact Hj|].
  intros a w2 [Ha _]. eapply nth_error_In; eauto.
Qed.

Lemma returns_np_random_normal (loc scale : Q) w :
  (0 <= scale)%Q -> returns (np_random_normal loc scale) w (fun _ _ => True).
Proof.
  intros Hs. unfold np_random_normal.
  destruct (Qcompare scale 0) eqn:E.
  - run_with returns_next_np. intros; now apply returns_ret.
  - apply Qlt_alt in E. lra.
  - run_with returns_next_np. intros; now apply returns_ret.
Qed.

(** ** Rounding *)

Lemma round_half_even_near (x : Q) :
  (inject_Z (round_half_even x) - (1 # 2) <= x
   /\ x <= inject_Z (round_half_even x) + (1 # 2))%Q.
Proof.
  unfold round_half_even.
  pose proof (Qfloor_le x) as Hlo. pose proof (Qlt_floor x) as Hhi.
  rewrite inject_Z_plus in Hhi. change (inject_Z 1) with 1%Q in Hhi.
  destruct (Qcompare (x - inject_Z (Qfloor x)) (1 # 2)) eqn:E.
  - apply Qeq_alt in E.
    destruct (Z.even (Qfloor x)); [|rewrite inject_Z_plus; change (inject_Z 1) with 1%Q];
      split; lra.
  - apply Qlt_alt in E. split; lra.
  - apply Qgt_alt in E. rewrite inject_Z_plus; change (inject_Z 1) with 1%Q.
    split; lra.
Qed.

(** Rounding never crosses an integer. *)
Lemma round_half_even_ge (x : Q) (k : Z) :
  (inject_Z k <= x)%Q -> (k <= round_half_even x)%Z.
Proof.
  intros Hk. destruct (round_half_even_near x) as [_ Hup].
  assert (H : (inject_Z (k - 1) < inject_Z (round_half_even x))%Q).
  { assert (E : (inject_Z (k - 1) == inject_Z k - 1)%Q)
      by (unfold Qeq, Qminus, Qplus, inject_Z; simpl; lia).
    rewrite E. lra. }
  rewrite <- Zlt_Qlt in H. lia.
Qed.

Lemma round_half_even_le (x : Q) (k : Z) :
  (x <= inject_Z k)%Q -> (round_half_even x <= k)%Z.
Proof.
  intros Hk. destruct (round_half_even_near x) as [Hlo _].
  assert (H : (inject_Z (round_half_even x) < inject_Z (k + 1))%Q).
  { rewrite inject_Z_plus. change (inject_Z 1) with 1%Q. lra. }
  rewrite <- Zlt_Qlt in H. lia.
Qed.

Lemma Qmake_100 (n : Z) : (n # 100 == inject_Z n * (1 # 100))%Q.
Proof. unfold Qeq, inject_Z, Qmult; simpl. lia. Qed.

Lemma py_round_2_eq (x : Q) :
  (py_round x 2 == inject_Z (round_half_even (x * 100)) * (1 # 100))%Q.
Proof. unfold py_round. apply Qmake_100. Qed.

(** [round(x, 2)] is within half a cent of [x]. *)
Lemma py_round_2_near (x : Q) :
  (x - (1 # 200) <= py_round x 2 /\ py_round x 2 <= x + (1 # 200))%Q.
Proof.
  rewrite py_round_2_eq.
  destruct (round_half_even_near (x * 100)) as [Hlo Hup].
  change (inject_Z (10 ^ Z.of_nat 2)) with 100%Q in *.
  split; lra.
Qed.

(** [round(x, 2)] of a value at or above a whole number of cents stays at
    or above it, and symmetrically. *)
Lemma py_round_2_ge (x : Q) (cents : Z) :
  (inject_Z cents * (1 # 100) <= x)%Q -> (inject_Z cents * (1 # 100) <= py_round x 2)%Q.
Proof.
  intros H. rewrite py_round_2_eq.
  assert (Hc : (cents <= round_half_even (x * 100))%Z)
    by (apply round_half_even_ge; lra).
  rewrite Zle_Qle in Hc. lra.
Qed.

Lemma py_round_2_le (x : Q) (cents : Z) :
  (x <= inject_Z cents * (1 # 100))%Q -> (py_round x 2 <= inject_Z cents * (1 # 100))%Q.
Proof.
  intros H. rewrite py_round_2_eq.
  assert (Hc : (round_half_even (x * 100) <= cents)%Z)
    by (apply round_half_even_le; lra).
  rewrite Zle_Qle in Hc. lra.
Qed.

Lemma py_max_ge_l (a b : Q) : (a <= py_max a b)%Q.
Proof.
  unfold py_max. destruct (Qcompare a b) eqn:E; try lra.
  apply Qlt_alt in E. lra.
Qed.

Lemma py_max_ge_r (a b : Q) : (b <= py_max a b)%Q.
Proof.
  unfold py_max. destruct (Qcompare a b) eqn:E; try lra.
  - apply Qeq_alt in E. lra.
  - apply Qgt_alt in E. lra.
Qed.

(** ** Lists: in-place update, swap and Fisher-Yates *)

Section ListUpdate.
Context {A : Type}.
Implicit Types (x : list A) (a b : A) (i j : nat).

Lemma length_set_nth i a x : List.length (set_nth i a x) = List.length x.
Proof.
  revert i; induction x as [|h t IH]; intros [|i]; simpl; auto.
Qed.

Lemma nth_error_set_nth_same i a x :
  (i < List.length x)%nat -> nth_error (set_nth i a x) i = Some a.
Proof.
  revert i; induction x as [|h t IH]; intros [|i] Hi; simpl in *;
    try lia; auto. apply IH; lia.
Qed.

Lemma nth_error_set_nth_other i j a x :
  i <> j -> nth_error (set_nth i a x) j = nth_error x j.
Proof.
  revert i j; induction x as [|h t IH]; intros [|i] [|j] Hij; simpl;
    try congruence; auto.
Qed.

(** Overwriting the cell that holds [a] with [b] trades one [a] for one
    [b]. *)
Lemma set_nth_trade i a b x :
  nth_error x i = Some a -> Permutation (b :: x) (a :: set_nth i b x).
Proof.
  revert i; induction x as [|h t IH]; intros [|i] Hi; simpl in *;
    try discriminate.
  - injection Hi as ->. apply perm_swap.
  - rewrite perm_swap. rewrite (IH _ Hi). apply perm_swap.
Qed.

Lemma length_swap x i j : List.length (swap x i j) = List.length x.
Proof.
  unfold swap. destruct (nth_error x i), (nth_error x j); auto.
  now rewrite !length_set_nth.
Qed.

Lemma Permutation_swap x i j : Permutation x (swap x i j).
Proof.
  unfold swap.
  destruct (nth_error x i) as [a|] eqn:Ei; [|reflexivity].
  destruct (nth_error x j) as [b|] eqn:Ej; [|reflexivity].
  apply (Permutation_cons_inv (a := b)).
  rewrite (set_nth_trade i a b x Ei).
  apply set_nth_trade.
  destruct (Nat.eq_dec i j) as [->|Hij].
  - apply nth_error_set_nth_same. apply nth_error_Some. congruence.
  - now rewrite nth_error_set_nth_other.
Qed.
End ListUpdate.

Lemma map_set_nth {A B} (f : A -> B) i a (x : list A) :
  map f (set_nth i a x) = set_nth i (f a) (map f x).
Proof.
  revert i; induction x as [|h t IH]; intros [|i]; simpl; auto.
  now rewrite IH.
Qed.

Lemma map_swap {A B} (f : A -> B) (x : list A) i j :
  map f (swap x i j) = swap (map f x) i j.
Proof.
  unfold swap. rewrite !nth_error_map.
  destruct (nth_error x i), (nth_error x j); simpl; auto.
  now rewrite !map_set_nth.
Qed.

Lemma returns_fisher_yates {A} (below : nat -> M nat) :
  (forall n w, (0 < n)%nat -> returns (below n) w (fun _ _ => True)) ->
  forall i (x : list A) w,
    returns (fisher_yates below i x) w (fun y _ => Permutation x y).
Proof.
  intros Hbelow. induction i as [|i IH]; intros x w; simpl.
  - now apply returns_ret.
  - run_with Hbelow; [lia|]. intros j w1 _.
    eapply returns_weaken; [apply IH|]. cbv beta. intros y _ Hy.
    now rewrite <- Hy, <- Permutation_swap.
Qed.

Lemma returns_random_shuffle {A} (x : list A) w :
  returns (random_shuffle x) w (fun y _ => Permutation x y).
Proof.
  apply returns_fisher_yates. intros n w' Hn.
  eapply returns_weaken; [now apply returns_randbelow|]. auto.
Qed.

(** ** Sampling rows of a frame *)

Lemma picks_length {A} (frame : list A) idx rows :
  picks frame idx rows -> List.length rows = List.length idx.
Proof. intros H. symmetry. eapply Forall2_length; eauto. Qed.

Lemma picks_In {A} (frame : list A) idx rows :
  picks frame idx rows -> Forall (fun row => In row frame) rows.
Proof.
  induction 1; constructor; auto. eapply nth_error_In; eauto.
Qed.

(** A loop whose body appends exactly one element. *)
Lemma Forall2_concat_singletons {A B} (P : A -> B -> Prop) xs outs :
  Forall2 (fun x out => exists y, out = [y] /\ P x y) xs outs ->
  Forall2 P xs (List.concat outs).
Proof.
  induction 1 as [|x out xs outs (y & -> & Hy) _ IH]; simpl; auto.
Qed.

Lemma returns_iloc {A} (frame : list A) idx w :
  Forall (fun j => (j < List.length frame)%nat) idx ->
  returns (iloc frame idx) w (fun rows _ => picks frame idx rows).
Proof.
  intros Hidx. unfold iloc.
  eapply returns_weaken.
  - apply (returns_for_each
             (fun j out => exists row, out = [row] /\ nth_error frame j = Some row)).
    intros j w' Hj. rewrite Forall_forall in Hidx.
    run_with (returns_index frame j); [now apply Hidx|].
    intros row w2 [Hrow _]. apply returns_ret. eauto.
  - cbv beta. intros rows _ (outs & -> & Hall).
    now apply Forall2_concat_singletons.
Qed.

Lemma returns_sample_replace {A} (frame : list A) (n : Z) w :
  (0 <= n)%Z -> (frame <> [] \/ n = 0%Z) ->
  returns (sample frame n true) w
          (fun rows _ => exists idx,
               List.length idx = Z.to_nat n /\ picks frame idx rows).
Proof.
  intros Hn Hne. unfold sample.
  destruct (n <? 0)%Z eqn:E; [apply Z.ltb_lt in E; lia|]. clear E.
  destruct ((len frame =? 0)%Z && (0 <? n)%Z)%bool eqn:E.
  { apply andb_prop in E as [E1 E2].
    apply Z.eqb_eq in E1. apply Z.ltb_lt in E2. unfold len in E1.
    destruct Hne as [Hne|]; [|lia]. destruct frame; [congruence|discriminate]. }
  clear E.
  run_with (returns_for_each
              (fun (_ : nat) out => exists j, out = [j] /\ (j < List.length frame)%nat)).
  - intros i w' Hi.
    assert (Hpos : (0 < List.length frame)%nat).
    { destruct Hne as [Hne|Hn0].
      - destruct frame; [congruence|simpl; lia].
      - subst n. inversion Hi. }
    run_with returns_np_randbelow; [exact Hpos|].
    intros j w2 Hj. apply returns_ret. eauto.
  - intros idx w1 (outs & -> & Hall).
    assert (Hidx : Forall2 (fun (_ : nat) j => (j < List.length frame)%nat)
                           (range n) (List.concat outs))
      by now apply Forall2_concat_singletons.
    eapply returns_weaken.
    + apply returns_iloc.
      clear -Hidx. induction Hidx; constructor; auto.
    + cbv beta. intros rows _ Hrows. exists (List.concat outs). split; auto.
      apply Forall2_length in Hidx. rewrite <- Hidx. unfold range.
      apply length_seq.
Qed.

Lemma returns_sample_distinct {A} (frame : list A) (n : Z) w :
  (0 <= n <= len frame)%Z ->
  returns (sample frame n false) w
          (fun rows _ => exists idx,
               List.length idx = Z.to_nat n /\ NoDup idx /\ picks frame idx rows).
Proof.
  intros Hn. unfold sample.
  destruct (n <? 0)%Z eqn:E; [apply Z.ltb_lt in E; lia|]. clear E.
  destruct (len frame <? n)%Z eqn:E; [apply Z.ltb_lt in E; lia|]. clear E.
  run_with (returns_fisher_yates (A := nat) np_randbelow).
  { intros k w' Hk. eapply returns_weaken; [now apply returns_np_randbelow|]. auto. }
  intros perm w1 Hperm.
  assert (Hnd : NoDup perm)
    by (eapply Permutation_NoDup; [exact Hperm | apply seq_NoDup]).
  assert (Hlen : List.length perm = List.length frame)
    by (rewrite <- (Permutation_length Hperm); apply length_seq).
  eapply returns_weaken.
  - apply returns_iloc. apply Forall_forall. intros j Hj.
    assert (Hj' : In j perm).
    { rewrite <- (firstn_skipn (Z.to_nat n) perm). apply in_or_app. now left. }
    apply (Permutation_in _ (Permutation_sym Hperm)) in Hj'.
    apply in_seq in Hj'. lia.
  - cbv beta. intros rows _ Hrows. exists (firstn (Z.to_nat n) perm).
    repeat split; auto.
    + rewrite length_firstn, Hlen. unfold len in Hn. lia.
    + rewrite <- (firstn_skipn (Z.to_nat n) perm) in Hnd.
      now apply NoDup_app_remove_r in Hnd.
Qed.

(** ** User identifiers *)

Lemma decimal_spec (n : nat) :
  decimal n = NilEmpty.string_of_uint (Nat.to_uint n).
Proof.
  unfold decimal, NilZero.string_of_uint.
  destruct (Nat.to_uint n) eqn:E; try reflexivity.
  pose proof (f_equal Nat.of_uint E) as E0.
  rewrite DecimalNat.Unsigned.of_to in E0. simpl in E0.
  subst n. discriminate E.
Qed.

Lemma parse_decimal_zeros (k : nat) (s : string) :
  parse_decimal (String.append (zeros k) s) = parse_decimal s.
Proof.
  induction k as [|k IH]; [reflexivity|].
  unfold parse_decimal in *. simpl.
  destruct (NilEmpty.uint_of_string (String.append (zeros k) s)) as [d|];
    destruct (NilEmpty.uint_of_string s) as [d'|]; simpl in *;
    try discriminate; auto.
Qed.

Lemma parse_fmt_06d (i : nat) : parse_decimal (fmt_06d i) = Some i.
Proof.
  unfold fmt_06d. rewrite parse_decimal_zeros, decimal_spec.
  unfold parse_decimal. rewrite NilEmpty.usu. simpl.
  now rewrite DecimalNat.Unsigned.of_to.
Qed.

Lemma user_id_inj (i j : nat) :
  String.append "USR-" (fmt_06d i) = String.append "USR-" (fmt_06d j) -> i = j.
Proof.
  simpl. intros [= H]. apply (f_equal parse_decimal) in H.
  rewrite !parse_fmt_06d in H. congruence.
Qed.

(** ** The profile generator *)

Lemma py_round_2_ge_q (x : Q) (k : Z) :
  (k # 100 <= x)%Q -> (k # 100 <= py_round x 2)%Q.
Proof. rewrite Qmake_100. apply py_round_2_ge. Qed.

Lemma py_round_2_le_q (x : Q) (k : Z) :
  (x <= k # 100)%Q -> (py_round x 2 <= k # 100)%Q.
Proof. rewrite Qmake_100. apply py_round_2_le. Qed.

Lemma returns_generate_user_profiles cfg n w :
  CITIES cfg <> [] ->
  returns (generate_user_profiles cfg n) w
          (fun users _ => Forall2 (profile_at cfg) (range n) users).
Proof.
  intros Hc. unfold generate_user_profiles.
  eapply returns_weaken.
  - apply (returns_for_each
             (fun i out => exists u, out = [u] /\ profile_at cfg i u)).
    intros i w0 _.
    run_with returns_random_choice; [exact Hc|]. intros home w1 Hhome.
    run_with returns_random_uniform. intros u1 w2 (f1 & Hf1 & Hf1' & ->).
    run_with returns_random_uniform. intros u2 w3 (f2 & Hf2 & Hf2' & ->).
    apply returns_ret. eexists; split; [reflexivity|].
    set (avg := py_round (20 + (500 - 20) * f1) 2).
    assert (Havg : (20 <= avg <= 500)%Q).
    { split.
      - apply (Qle_trans _ (2000 # 100)); [lra|].
        apply py_round_2_ge_q. nra.
      - apply (Qle_trans _ (50000 # 100)); [|lra].
        apply py_round_2_le_q. nra. }
    set (x := (avg * (0.15 + (0.40 - 0.15) * f2))%Q).
    assert (Hx : (0.15 * avg <= x /\ x <= 0.40 * avg)%Q)
      by (unfold x; split; nra).
    destruct (py_round_2_near x) as [Hlo Hup].
    unfold profile_at; simpl. repeat split; try lra.
    + now destruct home.
    + apply (Qle_trans _ (300 # 100)); [lra|].
      apply py_round_2_ge_q. lra.
    + apply (Qle_trans _ (20000 # 100)); [|lra].
      apply py_round_2_le_q. lra.
  - cbv beta. intros users _ (outs & -> & Hall).
    now apply Forall2_concat_singletons.
Qed.

Lemma Forall2_profile_ids cfg xs users :
  Forall2 (profile_at cfg) xs users ->
  map User.user_id users = map (fun i => String.append "USR-" (fmt_06d i)) xs.
Proof.
  induction 1 as [|i u xs users Hu _ IH]; simpl; [reflexivity|].
  destruct Hu as [-> _]. now rewrite IH.
Qed.


Lemma Forall2_Forall_r {A B} (P : A -> B -> Prop) (Q : B -> Prop) xs ys :
  Forall2 P xs ys -> (forall x y, P x y -> Q y) -> Forall Q ys.
Proof. induction 1; intros HPQ; constructor; eauto. Qed.

Lemma profile_ids_NoDup cfg n users :
  Forall2 (profile_at cfg) (range n) users -> NoDup (map User.user_id users).
Proof.
  intros H. rewrite (Forall2_profile_ids _ _ _ H).
  apply Finite.Injective_map_NoDup; [|apply seq_NoDup].
  intros i j. apply user_id_inj.
Qed.





(** ** The four generating components *)

Lemma Forall2_compose {A B C} (R1 : A -> B -> Prop) (R2 : B -> C -> Prop) xs ys zs :
  Forall2 R1 xs ys -> Forall2 R2 ys zs ->
  Forall2 (fun x z => exists y, R1 x y /\ R2 y z) xs zs.
Proof.
  intros H; revert zs. induction H; intros zs Hz; inversion Hz; subst;
    constructor; eauto.
Qed.

Lemma picks_per_row {A B} (P : A -> list B -> Prop) frame idx rows outs :
  picks frame idx rows -> Forall2 P rows outs -> per_row P frame idx outs.
Proof. intros H1 H2. exact (Forall2_compose _ _ _ _ _ H1 H2). Qed.

Lemma per_row_singletons {A B} (P : A -> B -> Prop) frame idx outs :
  per_row (fun row out => exists r, out = [r] /\ P row r) frame idx outs ->
  Forall2 (fun j r => exists row, nth_error frame j = Some row /\ P row r)
          idx (List.concat outs).
Proof.
  intros H. apply Forall2_concat_singletons.
  eapply Forall2_impl; [|exact H]. cbv beta.
  intros j out (row & Hrow & r & -> & Hr). eauto.
Qed.

(** Project the fields of a record literal, and nothing else. *)
Ltac txn_fields :=
  cbn [Txn.transaction_id Txn.user_id Txn.timestamp Txn.amount
       Txn.merchant_name Txn.merchant_category Txn.city Txn.country
       Txn.latitude Txn.longitude Txn.is_fraud Txn.fraud_type].

Lemma window_bounds :
  (start_date = datetime 2025 1 1
   /\ end_date - start_date = timedelta_days 364
   /\ 0 <= end_date - start_date)%Z.
Proof. vm_compute. repeat split; discriminate. Qed.

Lemma returns_generate_legitimate_transactions cfg users n w :
  MERCHANT_CATEGORIES cfg <> [] ->
  users <> [] ->
  Forall (fun u => 0 <= User.std_amount u)%Q users ->
  returns (generate_legitimate_transactions cfg users n) w
          (fun out _ =>
             List.length out = Z.to_nat n
             /\ Forall (fun r => exists user, In user users /\ legit_record cfg user r)
                       out).
Proof.
  intros Hm Hu Hstd. unfold generate_legitimate_transactions.
  eapply returns_weaken.
  - apply (returns_for_each
             (fun (_ : nat) out =>
                exists r user, out = [r] /\ In user users /\ legit_record cfg user r)).
    intros i w0 _.
    apply returns_bind. eapply returns_weaken; [apply returns_sample_distinct|].
    { unfold len. destruct users; [congruence|simpl; lia]. }
    cbv beta. intros rows w1 (idx & Hlen & _ & Hp).
    pose proof (picks_length _ _ _ Hp) as Hl.
    pose proof (picks_In _ _ _ Hp) as Hin.
    destruct rows as [|row rows]; [simpl in Hl; rewrite Hlen in Hl; discriminate|].
    run_with (returns_index (row :: rows) 0); [simpl; lia|].
    intros user w2 [Huser _]. injection Huser as <-.
    assert (Hrow : In row users) by now inversion Hin.
    run_with returns_random_uniform. intros j_lat w3 _.
    run_with returns_random_uniform. intros j_lon w4 _.
    run_with returns_np_random_normal.
    { rewrite Forall_forall in Hstd. now apply Hstd. }
    intros x w5 _.
    pose proof window_bounds as (_ & _ & Hpos).
    run_with returns_random_randint; [exact Hpos|]. intros s w6 Hs.
    run_with returns_uuid4. intros tid w7 _.
    run_with returns_fake_company. intros merchant w8 _.
    run_with returns_random_choice; [exact Hm|]. intros category w9 Hcat.
    apply returns_ret. eexists; exists row. split; [reflexivity|]. split; [exact Hrow|].
    unfold legit_record, timedelta_seconds. txn_fields.
    repeat split; try reflexivity; try assumption; try lia.
    apply py_max_ge_l.
  - cbv beta. intros out _ (outs & -> & Hall).
    assert (H : Forall2 (fun (_ : nat) r =>
                           exists user, In user users /\ legit_record cfg user r)
                        (range n) (List.concat outs)).
    { apply Forall2_concat_singletons. eapply Forall2_impl; [|exact Hall].
      cbv beta. intros _ out (r & user & -> & H1 & H2). eauto. }
    split.
    + apply Forall2_length in H. rewrite <- H. apply length_seq.
    + eapply Forall2_Forall_r; [exact H|]. auto.
Qed.

Lemma uniform_between (a b f : Q) :
  (a <= b -> 0 <= f -> f < 1 -> a <= a + (b - a) * f /\ a + (b - a) * f <= b)%Q.
Proof. intros. split; nra. Qed.

Lemma returns_inject_behavioral_drift cfg users n w :
  (0 <= n)%Z ->
  returns (inject_behavioral_drift cfg users n) w
          (fun out _ =>
             exists idx,
               List.length idx = Z.to_nat (Z.min n (len users))
               /\ Forall2 (fun j r => exists user,
                               nth_error users j = Some user /\ drift_record user r)
                          idx out).
Proof.
  intros Hn. unfold inject_behavioral_drift.
  run_with returns_sample_replace.
  { unfold len. lia. }
  { unfold len. destruct users; [right; simpl; lia | left; discriminate]. }
  intros rows w1 (idx & Hlen & Hp).
  eapply returns_weaken.
  - apply (returns_for_each (fun user out => exists r, out = [r] /\ drift_record user r)).
    intros user w2 _.
    run_with returns_random_uniform. intros m w3 (f & Hf0 & Hf1 & ->).
    run_with returns_random_randint; [vm_compute; discriminate|]. intros s w4 Hs.
    run_with returns_uuid4. intros tid w5 _.
    run_with returns_fake_company. intros merchant w6 _.
    run_with returns_random_choice; [discriminate|]. intros category w7 _.
    run_with returns_random_uniform. intros d_lat w8 _.
    run_with returns_random_uniform. intros d_lon w9 _.
    apply returns_ret. eexists; split; [reflexivity|].
    exists (3.5 + (8.0 - 3.5) * f)%Q. unfold timedelta_seconds. txn_fields.
    repeat split; try reflexivity; try lia;
      apply (uniform_between 3.5 8.0 f); auto; lra.
  - cbv beta. intros out _ (outs & -> & Hall). exists idx. split; [exact Hlen|].
    apply per_row_singletons. eapply picks_per_row; eauto.
Qed.

Lemma returns_inject_velocity_spikes cfg users n w :
  CITIES cfg <> [] ->
  (0 <= n)%Z ->
  returns (inject_velocity_spikes cfg users n) w
          (fun out _ =>
             exists idx bursts,
               List.length idx = Z.to_nat (Z.min n (len users))
               /\ NoDup idx
               /\ out = List.concat bursts
               /\ per_row (velocity_burst cfg) users idx bursts).
Proof.
  intros Hc Hn. unfold inject_velocity_spikes.
  run_with returns_sample_distinct; [unfold len; lia|].
  intros rows w1 (idx & Hlen & Hnd & Hp).
  eapply returns_weaken.
  - apply (returns_for_each (velocity_burst cfg)).
    intros user w2 _.
    run_with returns_random_randint; [vm_compute; discriminate|]. intros s w3 Hs.
    run_with returns_random_randint; [lia|]. intros n_micro w4 Hmicro.
    run_with returns_random_choice; [exact Hc|]. intros city_info w5 Hcity.
    eapply returns_weaken.
    + apply (returns_for_each
               (fun (_ : nat) out =>
                  exists r, out = [r]
                            /\ burst_record user city_info
                                 (datetime 2025 1 1 + timedelta_seconds s)%Z r)).
      intros i w6 _.
      run_with returns_random_randint; [lia|]. intros off w7 Hoff.
      run_with returns_uuid4. intros tid w8 _.
      run_with returns_random_uniform. intros amt w9 (f & Hf0 & Hf1 & ->).
      run_with returns_fake_company. intros merchant w10 _.
      run_with returns_random_uniform. intros d_lat w11 _.
      run_with returns_random_uniform. intros d_lon w12 _.
      apply returns_ret. eexists; split; [reflexivity|].
      unfold burst_record, timedelta_seconds. txn_fields.
      repeat split; try reflexivity; try lia.
      * apply (py_round_2_ge_q _ 1). nra.
      * apply (Qle_trans _ (200 # 100)); [|lra]. apply py_round_2_le_q. nra.
    + cbv beta. intros out _ (outs & -> & Hall).
      assert (H : Forall2 (fun (_ : nat) r =>
                             burst_record user city_info
                               (datetime 2025 1 1 + timedelta_seconds s)%Z r)
                          (range n_micro) (List.concat outs))
        by now apply Forall2_concat_singletons.
      exists (datetime 2025 1 1 + timedelta_seconds s)%Z, city_info.
      split; [exact Hcity|]. split; [unfold timedelta_seconds; lia|]. split.
      * apply Forall2_length in H. rewrite <- H. unfold range.
        rewrite length_seq. lia.
      * eapply Forall2_Forall_r; [exact H|]. auto.
  - cbv beta. intros out _ (bursts & -> & Hall). exists idx, bursts.
    repeat split; auto. eapply picks_per_row; eauto.
Qed.

Lemma catalogs_ok_spec cfg :
  catalogs_ok cfg = true ->
  CITIES cfg <> [] /\ DISTANT_PAIRS cfg <> [] /\ MERCHANT_CATEGORIES cfg <> []
  /\ Forall (fun p => (fst p < List.length (CITIES cfg)
                       /\ snd p < List.length (CITIES cfg))%nat)
            (DISTANT_PAIRS cfg).
Proof.
  unfold catalogs_ok. rewrite !andb_true_iff, !negb_true_iff, !Nat.eqb_neq.
  intros [[[H1 H2] H3] H4].
  repeat split; try (intros E; rewrite E in *; simpl in *; congruence).
  rewrite forallb_forall in H4. apply Forall_forall. intros p Hp.
  specialize (H4 p Hp). rewrite andb_true_iff, !Nat.ltb_lt in H4. exact H4.
Qed.

Lemma returns_inject_impossible_travel cfg users n w :
  catalogs_ok cfg = true ->
  (0 <= n)%Z ->
  returns (inject_impossible_travel cfg users n) w
          (fun out _ =>
             exists idx pairs,
               List.length idx = Z.to_nat (Z.min n (len users))
               /\ out = List.concat pairs
               /\ per_row (travel_pair cfg) users idx pairs).
Proof.
  intros Hok Hn. apply catalogs_ok_spec in Hok as (Hc & Hd & Hm & Hidx).
  unfold inject_impossible_travel.
  run_with returns_sample_replace.
  { unfold len. lia. }
  { unfold len. destruct users; [right; simpl; lia | left; discriminate]. }
  intros rows w1 (idx & Hlen & Hp).
  eapply returns_weaken.
  - apply (returns_for_each (travel_pair cfg)).
    intros user w2 _.
    run_with returns_random_choice; [exact Hd|]. intros pair w3 Hpair.
    rewrite Forall_forall in Hidx. destruct (Hidx pair Hpair) as [Ha Hb].
    run_with (returns_index (CITIES cfg)); [exact Ha|]. intros city_a w4 [Hca _].
    run_with (returns_index (CITIES cfg)); [exact Hb|]. intros city_b w5 [Hcb _].
    run_with returns_random_randint; [vm_compute; discriminate|]. intros s w6 Hs.
    run_with returns_random_randint; [lia|]. intros gap w7 Hgap.
    eapply returns_weaken.
    + apply (returns_for_each
               (fun (ic : Z * City.t) out =>
                  exists r, out = [r]
                            /\ travel_record user (snd ic)
                                 (datetime 2025 1 1 + timedelta_seconds s
                                  + timedelta_minutes (fst ic * gap))%Z r)).
      intros [i city] w8 _.
      run_with returns_uuid4. intros tid w9 _.
      run_with returns_random_uniform. intros amt w10 (f & Hf0 & Hf1 & ->).
      run_with returns_fake_company. intros merchant w11 _.
      run_with returns_random_choice; [exact Hm|]. intros category w12 _.
      run_with returns_random_uniform. intros d_lat w13 _.
      run_with returns_random_uniform. intros d_lon w14 _.
      apply returns_ret. eexists; split; [reflexivity|].
      unfold travel_record. txn_fields. cbn [fst snd].
      repeat split; try reflexivity.
      * apply (Qle_trans _ (1000 # 100)); [lra|]. apply py_round_2_ge_q. nra.
      * apply (Qle_trans _ (200000 # 100)); [|lra]. apply py_round_2_le_q. nra.
    + cbv beta. intros out _ (outs & -> & Hall).
      unfold enumerate in Hall. cbn [List.length seq map combine] in Hall.
      destruct outs as [|o1 outs]; [inversion Hall|].
      apply Forall2_cons_iff in Hall as [(r1 & -> & H1) Hall].
      destruct outs as [|o2 outs]; [inversion Hall|].
      apply Forall2_cons_iff in Hall as [(r2 & -> & H2) Hall].
      destruct outs; [clear Hall | inversion Hall]. cbn [fst snd] in H1, H2.
      change (Z.of_nat 0) with 0%Z in H1. change (Z.of_nat 1) with 1%Z in H2.
      exists pair, city_a, city_b, (datetime 2025 1 1 + timedelta_seconds s)%Z,
        gap, r1, r2.
      unfold timedelta_minutes, timedelta_seconds in *.
      split; [reflexivity|]. split; [exact Hpair|]. split; [exact Hca|].
      split; [exact Hcb|]. split; [exact Hgap|]. split; [lia|]. split.
      * replace (datetime 2025 1 1 + s)%Z
          with (datetime 2025 1 1 + s + 60 * (0 * gap))%Z by lia.
        exact H1.
      * replace (datetime 2025 1 1 + s + 60 * gap)%Z
          with (datetime 2025 1 1 + s + 60 * (1 * gap))%Z by lia.
        exact H2.
  - cbv beta. intros out _ (pairs & -> & Hall). exists idx, pairs.
    repeat split; auto. eapply picks_per_row; eauto.
Qed.

(** ** What the components know about generated profiles *)

Lemma generate_user_profiles_inv cfg n w users w' :
  generate_user_profiles cfg n w = Ok (users, w') ->
  Forall2 (profile_at cfg) (range n) users.
Proof.
  intros Hrun. destruct (CITIES cfg) as [|c cs] eqn:E.
  - unfold generate_user_profiles in Hrun. rewrite E in Hrun.
    destruct (range n) as [|i rest]; cbn in Hrun.
    + injection Hrun as <- _. constructor.
    + discriminate.
  - assert (Hc : CITIES cfg <> []) by (rewrite E; discriminate).
    pose proof (returns_generate_user_profiles cfg n w Hc) as H.
    unfold returns in H. now rewrite Hrun in H.
Qed.

Lemma NoDup_map_inj {A B} (f : A -> B) (l : list A) a b :
  NoDup (map f l) -> In a l -> In b l -> f a = f b -> a = b.
Proof.
  induction l as [|h t IH]; simpl; intros Hnd Ha Hb Hab; [tauto|].
  inversion Hnd as [|? ? Hnotin Hnd']; subst.
  destruct Ha as [->|Ha], Hb as [->|Hb]; auto.
  - exfalso. apply Hnotin. rewrite Hab. now apply in_map.
  - exfalso. apply Hnotin. rewrite <- Hab. now apply in_map.
Qed.

Lemma generated_profile_bounds cfg n users u :
  Forall2 (profile_at cfg) (range n) users -> In u users ->
  (20 <= User.avg_amount u <= 500 /\ 3 <= User.std_amount u <= 200)%Q.
Proof.
  intros Hall Hu.
  assert (H : Forall (fun u => 20 <= User.avg_amount u <= 500
                               /\ 3 <= User.std_amount u <= 200)%Q users).
  { eapply Forall2_Forall_r; [exact Hall|]. cbv beta.
    intros i v (_ & _ & Havg & Hstd & _). auto. }
  rewrite Forall_forall in H. auto.
Qed.

(** ** Behavioral drift *)

(** The drift amount clears three standard deviations as soon as the
    standard deviation exceeds one cent. *)
Lemma drift_amount_lower_bound (avg std m : Q) :
  (1 # 100 < std)%Q -> (3.5 <= m)%Q ->
  (avg + 3 * std < py_max (py_round (avg + m * std) 2) 500.0)%Q.
Proof.
  intros Hstd Hm.
  pose proof (py_max_ge_l (py_round (avg + m * std) 2) 500.0) as Hmax.
  destruct (py_round_2_near (avg + m * std)) as [Hlo _].
  apply (Qlt_le_trans _ (avg + m * std - (1 # 200))); [nra | lra].
Qed.

(** C1: every record the drift injector emits carries an amount strictly
    above mean + 3 x standard deviation of the user it was emitted for,
    for every population the profile generator can produce and every draw
    of the multiplier in [3.5, 8.0]. *)
Theorem behavioral_drift_exceeds_three_sigma
  (cfg : Config) (n_users n_txns : Z) (w0 w1 w : World) (users : list User.t) :
  generate_user_profiles cfg n_users w0 = Ok (users, w1) ->
  (0 <= n_txns)%Z ->
  exists out w',
    inject_behavioral_drift cfg users n_txns w = Ok (out, w')
    /\ Forall (fun r =>
                 Txn.fraud_type r = Some "behavioral_drift"
                 /\ (exists user, In user users
                                  /\ User.user_id user = Txn.user_id r)
                 /\ (forall user, In user users ->
                       User.user_id user = Txn.user_id r ->
                       (User.avg_amount user + 3 * User.std_amount user
                        < Txn.amount r)%Q))
              out.
Proof.
  intros Hgen Hn. apply generate_user_profiles_inv in Hgen.
  destruct (proj1 (returns_ex _ _ _)
                  (returns_inject_behavioral_drift cfg users n_txns w Hn))
    as (out & w' & Hrun & idx & _ & Hall).
  exists out, w'. split; [exact Hrun|].
  eapply Forall2_Forall_r; [exact Hall|]. cbv beta.
  intros j r (user & Huser & m & Hm & Hid & Hamt & _ & _ & _ & _ & Hty).
  apply nth_error_In in Huser.
  split; [exact Hty|]. split; [exists user; auto|].
  intros u Hu Huid.
  assert (u = user) as ->.
  { apply (NoDup_map_inj User.user_id users); auto.
    - eapply profile_ids_NoDup; eauto.
    - congruence. }
  rewrite Hamt.
  destruct (generated_profile_bounds _ _ _ _ Hgen Huser) as [_ [Hstd _]].
  apply drift_amount_lower_bound; lra.
Qed.

Lemma behavioral_drift_exceeds_three_sigma_witness :
  exists out w',
    inject_behavioral_drift shipped demo_users 2 (demo_world_at 9 0 0 0) = Ok (out, w')
    /\ Forall (fun r =>
                 Txn.fraud_type r = Some "behavioral_drift"
                 /\ (exists user, In user demo_users
                                  /\ User.user_id user = Txn.user_id r)
                 /\ (forall user, In user demo_users ->
                       User.user_id user = Txn.user_id r ->
                       (User.avg_amount user + 3 * User.std_amount user
                        < Txn.amount r)%Q))
              out.
Proof.
  apply (behavioral_drift_exceeds_three_sigma
           shipped 3 2 demo_world (demo_world_at 9 0 0 0)).
  - reflexivity.
  - lia.
Defined.

(** ** Velocity spikes *)

(** C5: the velocity-spike injector selects min(n_users, len(users))
    pairwise distinct positions of the population and emits exactly one
    burst for each of them; a burst has 10 to 20 records, all with the
    selected user's identifier, each at an offset of 0 to 55 seconds from
    the burst's base timestamp, so that any two records of a burst are less
    than 60 seconds apart. *)
Theorem velocity_burst_in_one_minute
  (cfg : Config) (users : list User.t) (n_users : Z) (w : World) :
  CITIES cfg <> [] ->
  (0 <= n_users)%Z ->
  exists out w',
    inject_velocity_spikes cfg users n_users w = Ok (out, w')
    /\ exists idx bursts,
         out = List.concat bursts
         /\ List.length idx = Z.to_nat (Z.min n_users (len users))
         /\ NoDup idx
         /\ Forall2
              (fun j burst =>
                 exists user base_ts,
                   nth_error users j = Some user
                   /\ (10 <= List.length burst <= 20)%nat
                   /\ Forall (fun r =>
                                Txn.user_id r = User.user_id user
                                /\ (0 <= Txn.timestamp r - base_ts <= 55)%Z
                                /\ Txn.is_fraud r = true
                                /\ Txn.fraud_type r = Some "velocity_spike")
                             burst
                   /\ (forall r1 r2, In r1 burst -> In r2 burst ->
                         (Z.abs (Txn.timestamp r1 - Txn.timestamp r2) < 60)%Z))
              idx bursts.
Proof.
  intros Hc Hn.
  destruct (proj1 (returns_ex _ _ _)
                  (returns_inject_velocity_spikes cfg users n_users w Hc Hn))
    as (out & w' & Hrun & idx & bursts & Hcount & Hnd & -> & Hall).
  exists (List.concat bursts), w'. split; [exact Hrun|].
  exists idx, bursts. split; [reflexivity|]. split; [exact Hcount|].
  split; [exact Hnd|].
  eapply Forall2_impl; [|exact Hall]. cbv beta.
  intros j burst (user & Huser & base & place & _ & _ & Hlen & Hrec).
  exists user, base. split; [exact Huser|]. split; [exact Hlen|]. split.
  - eapply Forall_impl; [|exact Hrec]. cbv beta.
    intros r (Hid & Hoff & _ & _ & _ & Hf & Hty). auto.
  - rewrite Forall_forall in Hrec. intros r1 r2 H1 H2.
    destruct (Hrec r1 H1) as (_ & Ho1 & _), (Hrec r2 H2) as (_ & Ho2 & _).
    lia.
Qed.

Lemma velocity_burst_in_one_minute_witness :
  exists out w',
    inject_velocity_spikes shipped demo_users 2 (demo_world_at 9 0 0 0) = Ok (out, w')
    /\ exists idx bursts,
         out = List.concat bursts
         /\ List.length idx = Z.to_nat (Z.min 2 (len demo_users))
         /\ NoDup idx
         /\ Forall2
              (fun j burst =>
                 exists user base_ts,
                   nth_error demo_users j = Some user
                   /\ (10 <= List.length burst <= 20)%nat
                   /\ Forall (fun r =>
                                Txn.user_id r = User.user_id user
                                /\ (0 <= Txn.timestamp r - base_ts <= 55)%Z
                                /\ Txn.is_fraud r = true
                                /\ Txn.fraud_type r = Some "velocity_spike")
                             burst
                   /\ (forall r1 r2, In r1 burst -> In r2 burst ->
                         (Z.abs (Txn.timestamp r1 - Txn.timestamp r2) < 60)%Z))
              idx bursts.
Proof.
  apply (velocity_burst_in_one_minute shipped demo_users 2 (demo_world_at 9 0 0 0)).
  - discriminate.
  - lia.
Defined.

(** ** Impossible travel *)

(** C6, as amended: the impossible-travel injector runs min(P, N) trials,
    one per user sampled with replacement from the N profiles, and so P
    trials whenever P <= N; each trial picks a pair from the distant-pair
    catalog and emits exactly two records for that user, the first in the
    pair's first city and the second in its second city, both flagged as
    fraud with archetype impossible_travel, the second timestamp being the
    first plus a gap of 2 to 10 minutes. *)
Theorem impossible_travel_trial
  (cfg : Config) (users : list User.t) (n_pairs : Z) (w : World) :
  catalogs_ok cfg = true ->
  (0 <= n_pairs)%Z ->
  exists out w',
    inject_impossible_travel cfg users n_pairs w = Ok (out, w')
    /\ exists idx trials,
         out = List.concat trials
         /\ List.length idx = Z.to_nat (Z.min n_pairs (len users))
         /\ Forall2
              (fun j trial =>
                 exists user pair city_a city_b gap_minutes r1 r2,
                   nth_error users j = Some user
                   /\ In pair (DISTANT_PAIRS cfg)
                   /\ nth_error (CITIES cfg) (fst pair) = Some city_a
                   /\ nth_error (CITIES cfg) (snd pair) = Some city_b
                   /\ trial = [r1; r2]
                   /\ Txn.user_id r1 = User.user_id user
                   /\ Txn.user_id r2 = User.user_id user
                   /\ Txn.city r1 = City.city city_a
                   /\ Txn.city r2 = City.city city_b
                   /\ Txn.is_fraud r1 = true /\ Txn.is_fraud r2 = true
                   /\ Txn.fraud_type r1 = Some "impossible_travel"
                   /\ Txn.fraud_type r2 = Some "impossible_travel"
                   /\ (2 <= gap_minutes <= 10)%Z
                   /\ Txn.timestamp r2
                      = (Txn.timestamp r1 + timedelta_minutes gap_minutes)%Z
                   /\ (Txn.timestamp r2 - Txn.timestamp r1 <= 600)%Z)
              idx trials.
Proof.
  intros Hok Hn.
  destruct (proj1 (returns_ex _ _ _)
                  (returns_inject_impossible_travel cfg users n_pairs w Hok Hn))
    as (out & w' & Hrun & idx & trials & Hlen & -> & Hall).
  exists (List.concat trials), w'. split; [exact Hrun|].
  exists idx, trials. split; [reflexivity|]. split; [exact Hlen|].
  eapply Forall2_impl; [|exact Hall]. cbv beta.
  intros j trial (user & Huser & pair & ca & cb & base & gap & r1 & r2
                  & -> & Hpair & Hca & Hcb & Hgap & _ & H1 & H2).
  destruct H1 as (Hid1 & Hts1 & _ & Hc1 & _ & Hf1 & Hty1).
  destruct H2 as (Hid2 & Hts2 & _ & Hc2 & _ & Hf2 & Hty2).
  exists user, pair, ca, cb, gap, r1, r2.
  unfold timedelta_minutes. repeat split; auto; lia.
Qed.

Lemma impossible_travel_trial_witness :
  exists out w',
    inject_impossible_travel shipped demo_users 2 (demo_world_at 9 0 0 0) = Ok (out, w')
    /\ exists idx trials,
         out = List.concat trials
         /\ List.length idx = Z.to_nat (Z.min 2 (len demo_users))
         /\ Forall2
              (fun j trial =>
                 exists user pair city_a city_b gap_minutes r1 r2,
                   nth_error demo_users j = Some user
                   /\ In pair (DISTANT_PAIRS shipped)
                   /\ nth_error (CITIES shipped) (fst pair) = Some city_a
                   /\ nth_error (CITIES shipped) (snd pair) = Some city_b
                   /\ trial = [r1; r2]
                   /\ Txn.user_id r1 = User.user_id user
                   /\ Txn.user_id r2 = User.user_id user
                   /\ Txn.city r1 = City.city city_a
                   /\ Txn.city r2 = City.city city_b
                   /\ Txn.is_fraud r1 = true /\ Txn.is_fraud r2 = true
                   /\ Txn.fraud_type r1 = Some "impossible_travel"
                   /\ Txn.fraud_type r2 = Some "impossible_travel"
                   /\ (2 <= gap_minutes <= 10)%Z
                   /\ Txn.timestamp r2
                      = (Txn.timestamp r1 + timedelta_minutes gap_minutes)%Z
                   /\ (Txn.timestamp r2 - Txn.timestamp r1 <= 600)%Z)
              idx trials.
Proof.
  apply (impossible_travel_trial shipped demo_users 2 (demo_world_at 9 0 0 0)).
  - reflexivity.
  - lia.
Defined.

(** C6, as stated, fails when the target exceeds the population: with one
    profile and P = 20 the sample size is min(20, 1) = 1, so the injector
    runs a single trial and emits the 2 records of one pair, not the 40
    records of 20 trials. *)
Lemma impossible_travel_trials_capped_by_population :
  catalogs_ok shipped = true
  /\ Z.min 20 (len (firstn 1 demo_users)) = 1%Z
  /\ returns (inject_impossible_travel shipped (firstn 1 demo_users) 20)
             demo_world
             (fun out _ =>
                map Txn.user_id out = ["USR-000000"; "USR-000000"]
                /\ map Txn.city out = ["Mumbai"; "Dubai"]
                /\ map Txn.timestamp out = [1766972089; 1766972209]%Z
                /\ List.length out <> (2 * 20)%nat).
Proof.
  split; [reflexivity|]. split; [reflexivity|].
  vm_compute. repeat split; try reflexivity. discriminate.
Qed.

(** ** The record invariant and the legitimate window *)

Lemma generated_population_ok cfg n users w w' :
  generate_user_profiles cfg n w = Ok (users, w') ->
  (0 < n)%Z ->
  users <> [] /\ Forall (fun u => 0 <= User.std_amount u)%Q users.
Proof.
  intros Hgen Hn. apply generate_user_profiles_inv in Hgen. split.
  - intros ->. apply Forall2_length in Hgen. unfold range in Hgen.
    rewrite length_seq in Hgen. simpl in Hgen. lia.
  - apply Forall_forall. intros u Hu.
    destruct (generated_profile_bounds _ _ _ _ Hgen Hu) as [_ [H _]]. lra.
Qed.

Lemma record_ok_intro (r : Txn.t) :
  (0.01 <= Txn.amount r)%Q ->
  (Txn.is_fraud r = false /\ Txn.fraud_type r = None)
  \/ (Txn.is_fraud r = true
      /\ exists tag, Txn.fraud_type r = Some tag /\ In tag archetypes) ->
  record_ok r.
Proof.
  intros Hamt [[Hf Hty]|[Hf (tag & Hty & Hin)]]; split; auto.
  - rewrite Hf, Hty. split; [split; [discriminate|]|auto].
    intros (tag & Htag & _). discriminate.
  - rewrite Hf, Hty. split; [split; eauto|discriminate].
Qed.

Lemma Forall_concat {A} (P : A -> Prop) (ls : list (list A)) :
  Forall (Forall P) ls -> Forall P (List.concat ls).
Proof.
  induction 1; simpl; [constructor|]. apply Forall_app. auto.
Qed.

Lemma per_row_Forall {A B} (P : A -> list B -> Prop) (Q : B -> Prop)
      frame idx outs :
  per_row P frame idx outs ->
  (forall row out, P row out -> Forall Q out) ->
  Forall Q (List.concat outs).
Proof.
  intros H HPQ. apply Forall_concat.
  eapply Forall2_Forall_r; [exact H|]. cbv beta.
  intros j out (row & _ & Hout). eauto.
Qed.

(** C7: every record of every generating component has an amount of at
    least one cent (0.50 for legitimate records, 10 for impossible travel,
    0.01 for velocity spikes, 500 for drift), carries the fraud flag exactly
    when its archetype tag is one of the three recognised values, and has
    no tag when the flag is false. *)
Theorem every_record_ok
  (cfg : Config) (n_users n_legit n_pairs n_spikes n_drift : Z)
  (w0 w1 w : World) (users : list User.t) :
  catalogs_ok cfg = true ->
  (0 < n_users)%Z ->
  generate_user_profiles cfg n_users w0 = Ok (users, w1) ->
  (0 <= n_pairs)%Z -> (0 <= n_spikes)%Z -> (0 <= n_drift)%Z ->
  (exists out w',
      generate_legitimate_transactions cfg users n_legit w = Ok (out, w')
      /\ Forall (fun r => record_ok r /\ Txn.is_fraud r = false) out)
  /\ (exists out w',
         inject_impossible_travel cfg users n_pairs w = Ok (out, w')
         /\ Forall (fun r => record_ok r /\ Txn.is_fraud r = true) out)
  /\ (exists out w',
         inject_velocity_spikes cfg users n_spikes w = Ok (out, w')
         /\ Forall (fun r => record_ok r /\ Txn.is_fraud r = true) out)
  /\ (exists out w',
         inject_behavioral_drift cfg users n_drift w = Ok (out, w')
         /\ Forall (fun r => record_ok r /\ Txn.is_fraud r = true) out).
Proof.
  intros Hok Hnu Hgen Hp Hs Hd.
  destruct (catalogs_ok_spec _ Hok) as (Hc & _ & Hm & _).
  destruct (generated_population_ok _ _ _ _ _ Hgen Hnu) as [Hne Hstd].
  split; [|split; [|split]].
  - destruct (proj1 (returns_ex _ _ _)
               (returns_generate_legitimate_transactions cfg users n_legit w
                  Hm Hne Hstd)) as (out & w' & Hrun & _ & Hall).
    exists out, w'. split; [exact Hrun|].
    eapply Forall_impl; [|exact Hall]. cbv beta.
    intros r (user & _ & _ & Hamt & _ & _ & _ & _ & Hf & Hty).
    split; [|exact Hf]. apply record_ok_intro; [lra | now left].
  - destruct (proj1 (returns_ex _ _ _)
               (returns_inject_impossible_travel cfg users n_pairs w Hok Hp))
      as (out & w' & Hrun & idx & trials & _ & -> & Hall).
    exists (List.concat trials), w'. split; [exact Hrun|].
    eapply per_row_Forall; [exact Hall|]. cbv beta.
    intros user trial (pair & ca & cb & base & gap & r1 & r2
                       & -> & _ & _ & _ & _ & _ & H1 & H2).
    assert (Hrec : forall place ts r, travel_record user place ts r ->
                     record_ok r /\ Txn.is_fraud r = true).
    { intros place ts r (_ & _ & Hamt & _ & _ & Hf & Hty).
      split; [|exact Hf]. apply record_ok_intro; [lra|].
      right. split; [exact Hf|]. eexists; split; [exact Hty|]. simpl; auto. }
    repeat constructor; eapply Hrec; eauto.
  - destruct (proj1 (returns_ex _ _ _)
               (returns_inject_velocity_spikes cfg users n_spikes w Hc Hs))
      as (out & w' & Hrun & idx & bursts & _ & _ & -> & Hall).
    exists (List.concat bursts), w'. split; [exact Hrun|].
    eapply per_row_Forall; [exact Hall|]. cbv beta.
    intros user burst (base & place & _ & _ & _ & Hrec).
    eapply Forall_impl; [|exact Hrec]. cbv beta.
    intros r (_ & _ & Hamt & _ & _ & Hf & Hty).
    split; [|exact Hf]. apply record_ok_intro; [lra|].
    right. split; [exact Hf|]. eexists; split; [exact Hty|]. simpl; auto.
  - destruct (proj1 (returns_ex _ _ _)
               (returns_inject_behavioral_drift cfg users n_drift w Hd))
      as (out & w' & Hrun & idx & _ & Hall).
    exists out, w'. split; [exact Hrun|].
    eapply Forall2_Forall_r; [exact Hall|]. cbv beta.
    intros j r (user & _ & m & _ & _ & Hamt & _ & _ & _ & Hf & Hty).
    split; [|exact Hf]. apply record_ok_intro.
    + rewrite Hamt.
      pose proof (py_max_ge_r (py_round (User.avg_amount user
                                         + m * User.std_amount user) 2) 500.0).
      lra.
    + right. split; [exact Hf|]. eexists; split; [exact Hty|]. simpl; auto.
Qed.

Lemma every_record_ok_witness :
  (exists out w',
      generate_legitimate_transactions shipped demo_users 4 (demo_world_at 9 0 0 0)
      = Ok (out, w')
      /\ Forall (fun r => record_ok r /\ Txn.is_fraud r = false) out)
  /\ (exists out w',
         inject_impossible_travel shipped demo_users 2 (demo_world_at 9 0 0 0)
         = Ok (out, w')
         /\ Forall (fun r => record_ok r /\ Txn.is_fraud r = true) out)
  /\ (exists out w',
         inject_velocity_spikes shipped demo_users 2 (demo_world_at 9 0 0 0)
         = Ok (out, w')
         /\ Forall (fun r => record_ok r /\ Txn.is_fraud r = true) out)
  /\ (exists out w',
         inject_behavioral_drift shipped demo_users 2 (demo_world_at 9 0 0 0)
         = Ok (out, w')
         /\ Forall (fun r => record_ok r /\ Txn.is_fraud r = true) out).
Proof.
  apply (every_record_ok shipped 3 4 2 2 2 demo_world (demo_world_at 9 0 0 0)).
  - reflexivity.
  - lia.
  - reflexivity.
  - lia.
  - lia.
  - lia.
Defined.

(** C10, as amended: every record of the legitimate sampler has its
    timestamp inside the closed window from 2025-01-01 00:00:00 to
    2025-12-31 00:00:00, both ends included, whatever offset is drawn; the
    sampler emits exactly the requested number of records. *)
Theorem legitimate_timestamps_in_closed_window
  (cfg : Config) (n_users n_txns : Z) (w0 w1 w : World) (users : list User.t) :
  MERCHANT_CATEGORIES cfg <> [] ->
  (0 < n_users)%Z ->
  generate_user_profiles cfg n_users w0 = Ok (users, w1) ->
  exists out w',
    generate_legitimate_transactions cfg users n_txns w = Ok (out, w')
    /\ List.length out = Z.to_nat n_txns
    /\ Forall (fun r =>
                 (datetime 2025 1 1 <= Txn.timestamp r <= datetime 2025 12 31)%Z)
              out.
Proof.
  intros Hm Hnu Hgen.
  destruct (generated_population_ok _ _ _ _ _ Hgen Hnu) as [Hne Hstd].
  destruct (proj1 (returns_ex _ _ _)
             (returns_generate_legitimate_transactions cfg users n_txns w
                Hm Hne Hstd)) as (out & w' & Hrun & Hlen & Hall).
  exists out, w'. split; [exact Hrun|]. split; [exact Hlen|].
  eapply Forall_impl; [|exact Hall]. cbv beta.
  intros r (user & _ & _ & _ & Hts & _). exact Hts.
Qed.

Lemma legitimate_timestamps_in_closed_window_witness :
  exists out w',
    generate_legitimate_transactions shipped demo_users 4 (demo_world_at 9 0 0 0)
    = Ok (out, w')
    /\ List.length out = Z.to_nat 4
    /\ Forall (fun r =>
                 (datetime 2025 1 1 <= Txn.timestamp r <= datetime 2025 12 31)%Z)
              out.
Proof.
  apply (legitimate_timestamps_in_closed_window
           shipped 3 4 demo_world (demo_world_at 9 0 0 0)).
  - discriminate.
  - lia.
  - reflexivity.
Defined.

(** C10, as stated, fails at both ends: an offset of 0 puts the record on
    the window start, an offset of 31449600 seconds on the window end. *)
Lemma legitimate_timestamp_on_window_ends :
  (exists r w',
      generate_legitimate_transactions shipped demo_users 1
        (world_of [0; 0; 0]%Z []) = Ok ([r], w')
      /\ Txn.timestamp r = datetime 2025 1 1
      /\ ~ (datetime 2025 1 1 < Txn.timestamp r)%Z)
  /\ (exists r w',
         generate_legitimate_transactions shipped demo_users 1
           (world_of [0; 0; 31449600]%Z []) = Ok ([r], w')
         /\ Txn.timestamp r = datetime 2025 12 31
         /\ ~ (Txn.timestamp r < datetime 2025 12 31)%Z).
Proof.
  split; eexists; eexists; (split; [vm_compute; reflexivity|]);
    (split; [vm_compute; reflexivity|]); vm_compute; discriminate.
Qed.

(** ** The sort order *)

Lemma ascii_compare_lt_trans (a b c : ascii) :
  Ascii.compare a b = Lt -> Ascii.compare b c = Lt -> Ascii.compare a c = Lt.
Proof.
  unfold Ascii.compare. rewrite !N.compare_lt_iff. apply N.lt_trans.
Qed.

Lemma string_compare_refl (s : string) : String.compare s s = Eq.
Proof.
  induction s as [|c s IH]; simpl; [reflexivity|].
  unfold Ascii.compare. now rewrite N.compare_refl.
Qed.

Lemma string_compare_lt_trans (a b c : string) :
  String.compare a b = Lt -> String.compare b c = Lt -> String.compare a c = Lt.
Proof.
  revert b c. induction a as [|x a IH]; intros [|y b] [|z c]; simpl;
    try discriminate; auto.
  destruct (Ascii.compare x y) eqn:Exy; try discriminate;
    destruct (Ascii.compare y z) eqn:Eyz; try discriminate; intros H1 H2.
  - apply Ascii.compare_eq_iff in Exy, Eyz. subst.
    unfold Ascii.compare at 1. rewrite N.compare_refl. eauto.
  - apply Ascii.compare_eq_iff in Exy. subst. now rewrite Eyz.
  - apply Ascii.compare_eq_iff in Eyz. subst. now rewrite Exy.
  - now rewrite (ascii_compare_lt_trans _ _ _ Exy Eyz).
Qed.

Lemma key_le_refl k : key_le k k.
Proof.
  unfold key_le, key_leb. rewrite string_compare_refl. apply Z.leb_refl.
Qed.

Lemma key_le_total k1 k2 : key_leb k1 k2 = false -> key_le k2 k1.
Proof.
  unfold key_le, key_leb. rewrite (String.compare_antisym (fst k2) (fst k1)).
  destruct (String.compare (fst k1) (fst k2)); simpl; try discriminate; auto.
  rewrite Z.leb_gt, Z.leb_le. lia.
Qed.

Lemma key_le_trans k1 k2 k3 : key_le k1 k2 -> key_le k2 k3 -> key_le k1 k3.
Proof.
  unfold key_le, key_leb.
  destruct (String.compare (fst k1) (fst k2)) eqn:E12; try discriminate;
    destruct (String.compare (fst k2) (fst k3)) eqn:E23; try discriminate;
    intros H1 H2.
  - apply String.compare_eq_iff in E12, E23. rewrite E12, E23.
    rewrite string_compare_refl. rewrite Z.leb_le in *. lia.
  - apply String.compare_eq_iff in E12. rewrite E12, E23. reflexivity.
  - apply String.compare_eq_iff in E23. rewrite <- E23, E12. reflexivity.
  - now rewrite (string_compare_lt_trans _ _ _ E12 E23).
Qed.

Lemma key_le_antisym k1 k2 : key_le k1 k2 -> key_le k2 k1 -> k1 = k2.
Proof.
  unfold key_le, key_leb. rewrite (String.compare_antisym (fst k2) (fst k1)).
  destruct (String.compare (fst k1) (fst k2)) eqn:E; simpl; try discriminate.
  apply String.compare_eq_iff in E. rewrite !Z.leb_le. intros H1 H2.
  destruct k1, k2; simpl in *. f_equal; [exact E | lia].
Qed.

(** ** The stable insertion sort *)

Lemma Permutation_insert_row r rows : Permutation (r :: rows) (insert_row r rows).
Proof.
  induction rows as [|h t IH]; simpl; [reflexivity|].
  destruct (key_leb (sort_key r) (sort_key h)); [reflexivity|].
  rewrite perm_swap. now apply perm_skip.
Qed.

Lemma Permutation_sort_values rows : Permutation rows (sort_values rows).
Proof.
  induction rows as [|r rows IH]; simpl; [reflexivity|].
  rewrite <- Permutation_insert_row. now apply perm_skip.
Qed.

Lemma StronglySorted_insert_row r rows :
  StronglySorted row_le rows -> StronglySorted row_le (insert_row r rows).
Proof.
  induction 1 as [|h t Hs IH Hh]; simpl.
  - repeat constructor.
  - destruct (key_leb (sort_key r) (sort_key h)) eqn:E.
    + constructor; [now constructor|]. constructor; [exact E|].
      eapply Forall_impl; [|exact Hh]. intros b Hb.
      eapply key_le_trans; [exact E | exact Hb].
    + constructor; [exact IH|].
      apply (Permutation_Forall (Permutation_insert_row r t)).
      constructor; [|exact Hh]. now apply key_le_total.
Qed.

Lemma StronglySorted_sort_values rows : StronglySorted row_le (sort_values rows).
Proof.
  induction rows as [|r rows IH]; simpl; [constructor|].
  now apply StronglySorted_insert_row.
Qed.

(** Sorted key sequences over the same keys are equal. *)
Lemma sorted_keys_unique (l1 l2 : list (string * Z)) :
  StronglySorted key_le l1 -> StronglySorted key_le l2 ->
  Permutation l1 l2 -> l1 = l2.
Proof.
  intros H1. revert l2. induction H1 as [|a l1 Hs IH Ha]; intros l2 H2 Hp.
  - apply Permutation_nil in Hp. now subst.
  - destruct H2 as [|b l2 Hs2 Hb].
    + apply Permutation_sym, Permutation_nil in Hp. discriminate.
    + assert (a = b) as ->.
      { assert (Hab : In a (b :: l2)) by (eapply Permutation_in; [exact Hp | now left]).
        assert (Hba : In b (a :: l1))
          by (eapply Permutation_in; [exact (Permutation_sym Hp) | now left]).
        rewrite Forall_forall in Ha, Hb.
        destruct Hab as [->|Hab]; [reflexivity|].
        destruct Hba as [->|Hba]; [reflexivity|].
        apply key_le_antisym; auto. }
      f_equal. apply IH; [exact Hs2|]. eapply Permutation_cons_inv; eauto.
Qed.

Lemma StronglySorted_map_keys rows :
  StronglySorted row_le rows -> StronglySorted key_le (map sort_key rows).
Proof.
  induction 1 as [|a l Hs IH Ha]; simpl; constructor; auto.
  apply Forall_map. exact Ha.
Qed.

(** Rows with pairwise distinct keys are determined by their keys. *)
Lemma rows_determined_by_distinct_keys (l1 l2 : list Txn.t) :
  Permutation l1 l2 -> map sort_key l1 = map sort_key l2 ->
  NoDup (map sort_key l1) -> l1 = l2.
Proof.
  revert l2. induction l1 as [|a l1 IH]; intros [|b l2] Hp Hk Hnd;
    try discriminate; [reflexivity|].
  assert (Hab : sort_key a = sort_key b) by (simpl in Hk; congruence).
  assert (Hk' : map sort_key l1 = map sort_key l2) by (simpl in Hk; congruence).
  clear Hk. inversion Hnd as [|? ? Hnotin Hnd']; subst.
  assert (a = b) as ->.
  { assert (Hb : In b (a :: l1))
      by (eapply Permutation_in; [exact (Permutation_sym Hp) | now left]).
    destruct Hb as [->|Hb]; [reflexivity|].
    exfalso. apply Hnotin. rewrite Hab. now apply in_map. }
  f_equal. apply IH; auto. eapply Permutation_cons_inv; eauto.
Qed.

Lemma returns_assemble legit impossible velocity drift w :
  legit ++ impossible ++ velocity ++ drift <> [] ->
  returns (assemble legit impossible velocity drift) w
          (fun df _ =>
             exists all_txns,
               Permutation (legit ++ impossible ++ velocity ++ drift) all_txns
               /\ df = sort_values all_txns).
Proof.
  intros Hne. unfold assemble.
  run_with returns_random_shuffle. intros all_txns w1 Hp.
  destruct all_txns as [|r rest].
  - apply Permutation_sym, Permutation_nil in Hp. contradiction.
  - apply returns_ret. eauto.
Qed.

(** C2, as amended: the assembler's output holds exactly the records of
    the concatenated inputs (a permutation: nothing lost, nothing
    duplicated) in ascending (user_id, timestamp) order; the sequence of
    sort keys of the output is the one obtained by sorting without any
    shuffle, and so is the whole output when no two records share a
    (user_id, timestamp) key. *)
Theorem assemble_sorted_permutation
  (legit impossible velocity drift : list Txn.t) (w : World) :
  legit ++ impossible ++ velocity ++ drift <> [] ->
  exists df w',
    assemble legit impossible velocity drift w = Ok (df, w')
    /\ Permutation (legit ++ impossible ++ velocity ++ drift) df
    /\ StronglySorted row_le df
    /\ map sort_key df
       = map sort_key (sort_values (legit ++ impossible ++ velocity ++ drift))
    /\ (NoDup (map sort_key (legit ++ impossible ++ velocity ++ drift)) ->
        df = sort_values (legit ++ impossible ++ velocity ++ drift)).
Proof.
  intros Hne.
  destruct (proj1 (returns_ex _ _ _)
              (returns_assemble legit impossible velocity drift w Hne))
    as (df & w' & Hrun & all_txns & Hp & ->).
  set (input := legit ++ impossible ++ velocity ++ drift) in *.
  assert (Hperm : Permutation input (sort_values all_txns))
    by (rewrite Hp; apply Permutation_sort_values).
  assert (Hkeys : map sort_key (sort_values all_txns)
                  = map sort_key (sort_values input)).
  { apply sorted_keys_unique.
    - apply StronglySorted_map_keys, StronglySorted_sort_values.
    - apply StronglySorted_map_keys, StronglySorted_sort_values.
    - apply Permutation_map. rewrite <- Hperm. apply Permutation_sort_values. }
  exists (sort_values all_txns), w'. split; [exact Hrun|].
  split; [exact Hperm|]. split; [apply StronglySorted_sort_values|].
  split; [exact Hkeys|].
  intros Hnd. apply rows_determined_by_distinct_keys; auto.
  - rewrite <- Hperm. apply Permutation_sort_values.
  - eapply Permutation_NoDup; [|exact Hnd]. now apply Permutation_map.
Qed.

Lemma assemble_sorted_permutation_witness :
  exists df w',
    assemble [] [] demo_burst [] (demo_world_at 64 2 13 13) = Ok (df, w')
    /\ Permutation ([] ++ [] ++ demo_burst ++ []) df
    /\ StronglySorted row_le df
    /\ map sort_key df = map sort_key (sort_values ([] ++ [] ++ demo_burst ++ []))
    /\ (NoDup (map sort_key ([] ++ [] ++ demo_burst ++ [])) ->
        df = sort_values ([] ++ [] ++ demo_burst ++ [])).
Proof.
  apply assemble_sorted_permutation. discriminate.
Defined.

(** C2, as stated, fails: two records of one velocity burst share user and
    timestamp; the shuffle (here reading the [random] tape from cell 73)
    exchanges them and the sort, which only looks at the keys, keeps them
    exchanged, so shuffle-then-sort differs from sorting the unshuffled
    concatenation.  With no input record at all the frame has no timestamp
    column and the assembler raises instead of returning an empty frame. *)
Lemma assemble_order_depends_on_shuffle :
  assemble [] [] [] [] demo_world = Raise KeyError
  /\ inject_velocity_spikes shipped demo_users 1 (demo_world_at 9 0 0 0)
     = Ok (demo_burst, demo_world_at 64 2 13 13)
  /\ exists df w',
       assemble [] [] demo_burst [] (demo_world_at 73 2 13 13) = Ok (df, w')
       /\ map Txn.transaction_id df
          = ["2"; "6"; "3"; "0"; "1"; "12"; "10"; "7"; "11"; "8"; "4"; "9"; "5"]
       /\ map Txn.transaction_id (sort_values ([] ++ [] ++ demo_burst ++ []))
          = ["2"; "6"; "3"; "0"; "1"; "12"; "10"; "7"; "11"; "4"; "8"; "5"; "9"]
       /\ df <> sort_values ([] ++ [] ++ demo_burst ++ []).
Proof.
  split; [reflexivity|]. split; [reflexivity|].
  exists (match assemble [] [] demo_burst [] (demo_world_at 73 2 13 13) with
          | Ok (df, _) => df | Raise _ => [] end).
  exists (demo_world_at 85 2 13 13).
  split; [reflexivity|].
  split; [vm_compute; reflexivity|].
  split; [vm_compute; reflexivity|].
  intros H. apply (f_equal (map Txn.transaction_id)) in H.
  vm_compute in H. discriminate.
Qed.

(** ** The whole pipeline *)

Lemma valid_config_spec cfg :
  valid_config cfg = true ->
  catalogs_ok cfg = true
  /\ (0 < NUM_USERS cfg)%Z /\ (0 < NUM_TRANSACTIONS cfg)%Z
  /\ (0 < FRAUD_IMPOSSIBLE_TRAVEL cfg)%Z
  /\ (0 < FRAUD_VELOCITY_SPIKE_USERS cfg)%Z
  /\ (0 < FRAUD_BEHAVIORAL_DRIFT cfg)%Z.
Proof.
  unfold valid_config, counts_ok. rewrite !andb_true_iff, !Z.ltb_lt. tauto.
Qed.

Lemma returns_main cfg w :
  valid_config cfg = true ->
  returns (main cfg) w
          (fun r _ => exists legit impossible velocity drift,
               run_of cfg (fst r) (snd r) legit impossible velocity drift).
Proof.
  intros Hv. destruct (valid_config_spec _ Hv) as (Hok & Hn & Hm & Hp & Hu & Hd).
  destruct (catalogs_ok_spec _ Hok) as (Hc & _ & Hmc & _).
  unfold main.
  run_with returns_generate_user_profiles; [exact Hc|]. intros users w1 Husers.
  assert (Hne : users <> []).
  { intros ->. apply Forall2_length in Husers. unfold range in Husers.
    rewrite length_seq in Husers. simpl in Husers. lia. }
  assert (Hstd : Forall (fun u => 0 <= User.std_amount u)%Q users).
  { apply Forall_forall. intros u Hu'.
    destruct (generated_profile_bounds _ _ _ _ Husers Hu') as [_ [H _]]. lra. }
  run_with returns_generate_legitimate_transactions; [exact Hmc|exact Hne|exact Hstd|].
  intros legit w2 [Hlen Hlegit].
  run_with returns_inject_impossible_travel; [exact Hok|lia|].
  intros impossible w3 Himp.
  run_with returns_inject_velocity_spikes; [exact Hc|lia|].
  intros velocity w4 Hvel.
  run_with returns_inject_behavioral_drift; [lia|].
  intros drift w5 Hdrift.
  run_with returns_assemble.
  { intros E. apply (f_equal (@List.length _)) in E.
    rewrite length_app, Hlen in E. simpl in E. lia. }
  intros df w6 (all_txns & Hperm & ->).
  apply returns_ret. exists legit, impossible, velocity, drift.
  unfold run_of. cbn [fst snd].
  split; [exact Husers|]. split; [auto|].
  split; [destruct Himp as (idx & trials & ? & ? & ?); eauto|].
  split; [destruct Hvel as (idx & bursts & ? & ? & ? & ?); exists idx, bursts; auto|].
  split; [exact Hdrift|].
  split; [rewrite Hperm; apply Permutation_sort_values|].
  apply StronglySorted_sort_values.
Qed.

(** ** Record counts *)

Lemma length_concat_travel cfg users idx trials :
  per_row (travel_pair cfg) users idx trials ->
  List.length (List.concat trials) = (2 * List.length idx)%nat.
Proof.
  induction 1 as [|j trial idx trials (user & _ & Hpair) _ IH]; simpl; [reflexivity|].
  destruct Hpair as (pair & ca & cb & base & gap & r1 & r2 & -> & _).
  rewrite length_app, IH. simpl. lia.
Qed.

Lemma length_concat_bursts cfg users idx bursts :
  per_row (velocity_burst cfg) users idx bursts ->
  List.length (List.concat bursts) = list_sum (map (@List.length _) bursts)
  /\ List.length (map (@List.length _) bursts) = List.length idx
  /\ Forall (fun b => 10 <= b <= 20)%nat (map (@List.length _) bursts).
Proof.
  induction 1 as [|j burst idx bursts (user & _ & Hb) _ (IH1 & IH2 & IH3)]; simpl.
  - repeat split. constructor.
  - destruct Hb as (base & place & _ & _ & Hlen & _).
    rewrite length_app, IH1, IH2. repeat split. constructor; auto.
Qed.

Lemma run_of_counts cfg users df legit impossible velocity drift :
  (0 < NUM_USERS cfg)%Z ->
  run_of cfg users df legit impossible velocity drift ->
  len users = NUM_USERS cfg
  /\ List.length impossible
     = (2 * Z.to_nat (Z.min (FRAUD_IMPOSSIBLE_TRAVEL cfg) (NUM_USERS cfg)))%nat
  /\ List.length drift
     = Z.to_nat (Z.min (FRAUD_BEHAVIORAL_DRIFT cfg) (NUM_USERS cfg))
  /\ exists burst_sizes,
       List.length burst_sizes
       = Z.to_nat (Z.min (FRAUD_VELOCITY_SPIKE_USERS cfg) (NUM_USERS cfg))
       /\ Forall (fun b => 10 <= b <= 20)%nat burst_sizes
       /\ List.length velocity = list_sum burst_sizes
       /\ List.length df
          = (List.length legit + List.length impossible
             + list_sum burst_sizes + List.length drift)%nat.
Proof.
  intros Hn (Husers & (Hlegit & _) & (ii & trials & Hii & -> & Htr)
             & (vi & bursts & Hvi & _ & -> & Hbu) & (di & Hdi & Hdr) & Hperm & _).
  assert (HN : len users = NUM_USERS cfg).
  { apply Forall2_length in Husers. unfold range in Husers.
    rewrite length_seq in Husers. unfold len. lia. }
  rewrite HN in Hii, Hvi, Hdi.
  destruct (length_concat_bursts _ _ _ _ Hbu) as (Hb1 & Hb2 & Hb3).
  split; [exact HN|]. split.
  { rewrite (length_concat_travel _ _ _ _ Htr). lia. }
  split.
  { apply Forall2_length in Hdr. lia. }
  exists (map (@List.length _) bursts).
  split; [lia|]. split; [exact Hb3|]. split; [exact Hb1|].
  rewrite <- (Permutation_length Hperm), !length_app. lia.
Qed.

(** C4, as amended: each injector samples min(target, N) users of the N
    profiles, so for every valid configuration the output frame has
    exactly M + 2 * min(P, N) + (the sum of min(U, N) burst sizes, each in
    [10, 20]) + min(D, N) records; the impossible-travel injector
    contributes exactly 2 * min(P, N) of them and the drift injector
    exactly min(D, N).  These are 2 * P and D whenever P <= N and
    D <= N. *)
Theorem output_record_count (cfg : Config) (w : World) :
  valid_config cfg = true ->
  exists users df w' burst_sizes,
    main cfg w = Ok ((users, df), w')
    /\ len users = NUM_USERS cfg
    /\ List.length burst_sizes
       = Z.to_nat (Z.min (FRAUD_VELOCITY_SPIKE_USERS cfg) (NUM_USERS cfg))
    /\ Forall (fun b => 10 <= b <= 20)%nat burst_sizes
    /\ len df
       = (NUM_TRANSACTIONS cfg
          + 2 * Z.min (FRAUD_IMPOSSIBLE_TRAVEL cfg) (NUM_USERS cfg)
          + Z.of_nat (list_sum burst_sizes)
          + Z.min (FRAUD_BEHAVIORAL_DRIFT cfg) (NUM_USERS cfg))%Z
    /\ (forall w1, exists out w1',
           inject_impossible_travel cfg users (FRAUD_IMPOSSIBLE_TRAVEL cfg) w1
           = Ok (out, w1')
           /\ len out
              = (2 * Z.min (FRAUD_IMPOSSIBLE_TRAVEL cfg) (NUM_USERS cfg))%Z)
    /\ (forall w1, exists out w1',
           inject_behavioral_drift cfg users (FRAUD_BEHAVIORAL_DRIFT cfg) w1
           = Ok (out, w1')
           /\ len out = Z.min (FRAUD_BEHAVIORAL_DRIFT cfg) (NUM_USERS cfg)).
Proof.
  intros Hv. destruct (valid_config_spec _ Hv) as (Hok & Hn & Hm & Hp & Hu & Hd).
  destruct (proj1 (returns_ex _ _ _) (returns_main cfg w Hv))
    as ([users df] & w' & Hrun & legit & impossible & velocity & drift & Hof).
  cbn [fst snd] in Hof.
  destruct (run_of_counts _ _ _ _ _ _ _ Hn Hof)
    as (HN & Himp & Hdr & sizes & Hs1 & Hs2 & _ & Hdf).
  destruct Hof as (_ & (Hlegit & _) & _).
  exists users, df, w', sizes. split; [exact Hrun|]. split; [exact HN|].
  split; [exact Hs1|]. split; [exact Hs2|]. split.
  { unfold len. rewrite Hdf, Himp, Hdr, Hlegit. lia. }
  split; intros w1.
  - destruct (proj1 (returns_ex _ _ _)
                (returns_inject_impossible_travel cfg users
                   (FRAUD_IMPOSSIBLE_TRAVEL cfg) w1 Hok (Z.lt_le_incl _ _ Hp)))
      as (out & w1' & Hrun1 & idx & trials & Hidx & -> & Htr).
    exists (List.concat trials), w1'. split; [exact Hrun1|].
    unfold len. rewrite (length_concat_travel _ _ _ _ Htr), Hidx.
    fold (len users). rewrite HN. lia.
  - destruct (proj1 (returns_ex _ _ _)
                (returns_inject_behavioral_drift cfg users
                   (FRAUD_BEHAVIORAL_DRIFT cfg) w1 (Z.lt_le_incl _ _ Hd)))
      as (out & w1' & Hrun1 & idx & Hidx & Hall).
    exists out, w1'. split; [exact Hrun1|].
    apply Forall2_length in Hall. unfold len. rewrite <- Hall, Hidx.
    fold (len users). rewrite HN. lia.
Qed.

Lemma output_record_count_witness :
  exists users df w' burst_sizes,
    main small_config demo_world = Ok ((users, df), w')
    /\ len users = NUM_USERS small_config
    /\ List.length burst_sizes
       = Z.to_nat (Z.min (FRAUD_VELOCITY_SPIKE_USERS small_config)
                         (NUM_USERS small_config))
    /\ Forall (fun b => 10 <= b <= 20)%nat burst_sizes
    /\ len df
       = (NUM_TRANSACTIONS small_config
          + 2 * Z.min (FRAUD_IMPOSSIBLE_TRAVEL small_config) (NUM_USERS small_config)
          + Z.of_nat (list_sum burst_sizes)
          + Z.min (FRAUD_BEHAVIORAL_DRIFT small_config) (NUM_USERS small_config))%Z
    /\ (forall w1, exists out w1',
           inject_impossible_travel small_config users
             (FRAUD_IMPOSSIBLE_TRAVEL small_config) w1 = Ok (out, w1')
           /\ len out
              = (2 * Z.min (FRAUD_IMPOSSIBLE_TRAVEL small_config)
                           (NUM_USERS small_config))%Z)
    /\ (forall w1, exists out w1',
           inject_behavioral_drift small_config users
             (FRAUD_BEHAVIORAL_DRIFT small_config) w1 = Ok (out, w1')
           /\ len out = Z.min (FRAUD_BEHAVIORAL_DRIFT small_config)
                              (NUM_USERS small_config)).
Proof.
  apply (output_record_count small_config demo_world). reflexivity.
Defined.

(** C4, as stated, fails when a target exceeds the population: with one
    user and P = 20 pairs requested (M = U = D = 1) the impossible-travel
    injector emits 2 records instead of 40, and the frame has fewer than
    the 1 + 40 + 10 + 1 records the formula gives for the smallest
    possible burst. *)
Lemma record_count_with_more_pairs_than_users :
  valid_config one_user_config = true
  /\ returns (main one_user_config) demo_world
             (fun r _ => len (fst r) = 1%Z
                         /\ (len (snd r) < 1 + 2 * 20 + 10 + 1)%Z)
  /\ returns (inject_impossible_travel one_user_config (firstn 1 demo_users) 20)
             demo_world
             (fun out _ => len out = 2%Z /\ len out <> (2 * 20)%Z).
Proof.
  split; [reflexivity|]. split.
  - vm_compute. split; reflexivity.
  - vm_compute. split; [reflexivity | discriminate].
Qed.

(** ** Configuration errors *)

(** C9, as amended: the program has no validation step.  For every valid
    configuration (non-empty catalogs whose pairs index cities, positive
    population and target counts) the whole run completes without raising.
    An empty city catalog with a positive population makes the profile
    generator raise IndexError at its first profile, and an empty
    population with a positive legitimate target makes the sampler raise
    ValueError at its first draw; in both cases no record exists yet. *)
Theorem configuration_errors (cfg : Config) (w : World) :
  (valid_config cfg = true ->
   exists users df w', main cfg w = Ok ((users, df), w') /\ df <> [])
  /\ (CITIES cfg = [] -> (0 < NUM_USERS cfg)%Z ->
      generate_user_profiles cfg (NUM_USERS cfg) w = Raise IndexError
      /\ main cfg w = Raise IndexError)
  /\ ((NUM_USERS cfg <= 0)%Z -> (0 < NUM_TRANSACTIONS cfg)%Z ->
      generate_user_profiles cfg (NUM_USERS cfg) w = Ok ([], w)
      /\ generate_legitimate_transactions cfg [] (NUM_TRANSACTIONS cfg) w
         = Raise ValueError
      /\ main cfg w = Raise ValueError).
Proof.
  split; [|split].
  - intros Hv. destruct (valid_config_spec _ Hv) as (_ & _ & Hm & _).
    destruct (proj1 (returns_ex _ _ _) (returns_main cfg w Hv))
      as ([users df] & w' & Hrun & legit & impossible & velocity & drift & Hof).
    exists users, df, w'. split; [exact Hrun|].
    destruct Hof as (_ & (Hlen & _) & _ & _ & _ & Hperm & _). cbn [snd] in Hperm.
    intros ->. apply Permutation_length in Hperm.
    rewrite length_app, Hlen in Hperm. simpl in Hperm. lia.
  - intros Hc Hn.
    assert (Hgen : generate_user_profiles cfg (NUM_USERS cfg) w = Raise IndexError).
    { unfold generate_user_profiles, range. rewrite Hc.
      destruct (Z.to_nat (NUM_USERS cfg)) eqn:E; [lia|]. reflexivity. }
    split; [exact Hgen|]. unfold main, bind at 1. now rewrite Hgen.
  - intros Hn Hm.
    assert (Hgen : generate_user_profiles cfg (NUM_USERS cfg) w = Ok ([], w)).
    { unfold generate_user_profiles, range.
      replace (Z.to_nat (NUM_USERS cfg)) with 0%nat by lia. reflexivity. }
    assert (Hleg : forall w1,
               generate_legitimate_transactions cfg [] (NUM_TRANSACTIONS cfg) w1
               = Raise ValueError).
    { intros w1. unfold generate_legitimate_transactions, range.
      destruct (Z.to_nat (NUM_TRANSACTIONS cfg)) eqn:E; [lia|]. reflexivity. }
    split; [exact Hgen|]. split; [apply Hleg|].
    unfold main, bind at 1. rewrite Hgen. unfold bind at 1. now rewrite Hleg.
Qed.

Lemma configuration_errors_witness :
  (exists users df w', main small_config demo_world = Ok ((users, df), w') /\ df <> [])
  /\ (generate_user_profiles no_city_config (NUM_USERS no_city_config) demo_world
      = Raise IndexError
      /\ main no_city_config demo_world = Raise IndexError)
  /\ (generate_user_profiles no_user_config (NUM_USERS no_user_config) demo_world
      = Ok ([], demo_world)
      /\ generate_legitimate_transactions no_user_config []
           (NUM_TRANSACTIONS no_user_config) demo_world = Raise ValueError
      /\ main no_user_config demo_world = Raise ValueError).
Proof.
  split; [|split].
  - apply (proj1 (configuration_errors small_config demo_world)). reflexivity.
  - apply (proj1 (proj2 (configuration_errors no_city_config demo_world))).
    + reflexivity.
    + reflexivity.
  - apply (proj2 (proj2 (configuration_errors no_user_config demo_world))).
    + simpl. lia.
    + reflexivity.
Defined.

(** C9, as stated, fails: a configuration whose three fraud targets are
    zero is not valid, yet the run completes and writes the legitimate
    record; nothing aborts. *)
Lemma zero_targets_do_not_abort :
  valid_config no_fraud_config = false
  /\ (FRAUD_IMPOSSIBLE_TRAVEL no_fraud_config <= 0)%Z
  /\ returns (main no_fraud_config) demo_world
             (fun r _ => List.length (fst r) = 1%nat
                         /\ List.length (snd r) = 1%nat).
Proof.
  split; [reflexivity|]. split; [simpl; lia|].
  vm_compute. split; reflexivity.
Qed.

(** ** Two runs from the same seeds *)

Lemma agree_ret {A} (R : A -> A -> Prop) a1 a2 : R a1 a2 -> agree R (ret a1) (ret a2).
Proof. intros H w1 w2 Hw. simpl. auto. Qed.

Lemma agree_raise {A} (R : A -> A -> Prop) e : agree R (raise e) (raise e).
Proof. intros w1 w2 Hw. reflexivity. Qed.

Lemma agree_bind {A B} (R : A -> A -> Prop) (S : B -> B -> Prop)
      (m1 m2 : M A) (f1 f2 : A -> M B) :
  agree R m1 m2 ->
  (forall a1 a2, R a1 a2 -> agree S (f1 a1) (f2 a2)) ->
  agree S (bind m1 f1) (bind m2 f2).
Proof.
  intros Hm Hf w1 w2 Hw. unfold bind. specialize (Hm w1 w2 Hw).
  destruct (m1 w1) as [[a1 w1']|e1], (m2 w2) as [[a2 w2']|e2]; try tauto.
  destruct Hm as [Ha Hw']. exact (Hf a1 a2 Ha w1' w2' Hw').
Qed.

Lemma agree_weaken {A} (R R' : A -> A -> Prop) (m1 m2 : M A) :
  agree R m1 m2 -> (forall a1 a2, R a1 a2 -> R' a1 a2) -> agree R' m1 m2.
Proof.
  intros Hm HR w1 w2 Hw. specialize (Hm w1 w2 Hw).
  destruct (m1 w1) as [[a1 w1']|e1], (m2 w2) as [[a2 w2']|e2]; try tauto.
  destruct Hm. auto.
Qed.

Lemma agree_for_each {A B} (R : list B -> list B -> Prop) (xs : list A)
      (body1 body2 : A -> M (list B)) :
  R [] [] ->
  (forall a b c d, R a b -> R c d -> R (a ++ c) (b ++ d)) ->
  (forall x, In x xs -> agree R (body1 x) (body2 x)) ->
  agree R (for_each xs body1) (for_each xs body2).
Proof.
  intros Hnil Happ. induction xs as [|x xs IH]; intros Hbody; simpl.
  - now apply agree_ret.
  - eapply agree_bind; [apply Hbody; now left|]. intros o1 o2 Ho.
    eapply agree_bind; [apply IH; intros; apply Hbody; now right|].
    intros r1 r2 Hr. apply agree_ret. now apply Happ.
Qed.

(** Bind where both runs computed the same value. *)
Tactic Notation "both" open_constr(L) "as" ident(x) :=
  eapply agree_bind; [ eapply L | intros x ? <- ].

Lemma agree_next_mt : agree eq next_mt next_mt.
Proof.
  intros w1 w2 (H1 & H2 & H3 & H4 & H5 & H6). unfold next_mt, same_seeds; simpl.
  rewrite H1, H2. auto 10.
Qed.

Lemma agree_next_np : agree eq next_np next_np.
Proof.
  intros w1 w2 (H1 & H2 & H3 & H4 & H5 & H6). unfold next_np, same_seeds; simpl.
  rewrite H3, H4. auto 10.
Qed.

Lemma agree_fake_company : agree eq fake_company fake_company.
Proof.
  intros w1 w2 (H1 & H2 & H3 & H4 & H5 & H6).
  unfold fake_company, same_seeds; simpl. rewrite H5, H6. auto 10.
Qed.

(** The identifier is the one value the seeds do not determine. *)
Lemma agree_uuid4 : agree (fun _ _ => True) uuid4 uuid4.
Proof.
  intros w1 w2 (H1 & H2 & H3 & H4 & H5 & H6). unfold uuid4, same_seeds; simpl.
  auto 10.
Qed.

Lemma agree_random_uniform a b : agree eq (random_uniform a b) (random_uniform a b).
Proof.
  unfold random_uniform, random_random.
  eapply agree_bind with (R := eq).
  - both agree_next_mt as r. now apply agree_ret.
  - intros u ? <-. now apply agree_ret.
Qed.

Lemma agree_randbelow n : agree eq (randbelow n) (randbelow n).
Proof. unfold randbelow. both agree_next_mt as r. now apply agree_ret. Qed.

Lemma agree_np_randbelow n : agree eq (np_randbelow n) (np_randbelow n).
Proof. unfold np_randbelow. both agree_next_np as q. now apply agree_ret. Qed.

Lemma agree_random_randint a b : agree eq (random_randint a b) (random_randint a b).
Proof.
  unfold random_randint. destruct (b <? a)%Z; [apply agree_raise|].
  both agree_next_mt as r. now apply agree_ret.
Qed.

Lemma agree_index {A} (x : list A) i : agree eq (index x i) (index x i).
Proof.
  unfold index. destruct (nth_error x i); [now apply agree_ret | apply agree_raise].
Qed.

Lemma agree_random_choice {A} (seq : list A) :
  agree eq (random_choice seq) (random_choice seq).
Proof.
  unfold random_choice. destruct seq; [apply agree_raise|].
  both agree_randbelow as i. apply agree_index.
Qed.

Lemma agree_np_random_normal loc scale :
  agree eq (np_random_normal loc scale) (np_random_normal loc scale).
Proof.
  unfold np_random_normal.
  destruct (Qcompare scale 0); try apply agree_raise;
    (both agree_next_np as z; now apply agree_ret).
Qed.

(** The Fisher-Yates loop moves positions, whatever the cells hold. *)
Lemma agree_fisher_yates {A B} (f : A -> B) (below : nat -> M nat) :
  (forall n, agree eq (below n) (below n)) ->
  forall i (x1 x2 : list A),
    map f x1 = map f x2 ->
    agree (fun y1 y2 => map f y1 = map f y2)
          (fisher_yates below i x1) (fisher_yates below i x2).
Proof.
  intros Hbelow. induction i as [|i IH]; intros x1 x2 Hx; simpl.
  - now apply agree_ret.
  - both Hbelow as j. apply IH. now rewrite !map_swap, Hx.
Qed.

Lemma agree_iloc {A} (frame : list A) idx : agree eq (iloc frame idx) (iloc frame idx).
Proof.
  unfold iloc. apply agree_for_each; [reflexivity | congruence |].
  intros j _. both agree_index as row. now apply agree_ret.
Qed.

Lemma agree_sample {A} (frame : list A) n replace :
  agree eq (sample frame n replace) (sample frame n replace).
Proof.
  unfold sample. destruct (n <? 0)%Z; [apply agree_raise|].
  destruct replace.
  - destruct ((len frame =? 0)%Z && (0 <? n)%Z)%bool; [apply agree_raise|].
    eapply agree_bind with (R := eq).
    + apply agree_for_each; [reflexivity | congruence |].
      intros i _. both agree_np_randbelow as j. now apply agree_ret.
    + intros idx ? <-. apply agree_iloc.
  - destruct (len frame <? n)%Z; [apply agree_raise|].
    eapply agree_bind with (R := eq).
    + eapply agree_weaken.
      * apply (agree_fisher_yates (fun j : nat => j));
          [apply agree_np_randbelow | reflexivity].
      * cbv beta. intros y1 y2 Hy. now rewrite !map_id in Hy.
    + intros perm ? <-. apply agree_iloc.
Qed.

Lemma same_rows_nil : same_rows [] [].
Proof. reflexivity. Qed.

Lemma same_rows_app a b c d :
  same_rows a b -> same_rows c d -> same_rows (a ++ c) (b ++ d).
Proof. unfold same_rows. intros H1 H2. now rewrite !map_app, H1, H2. Qed.

(** Bind of the identifier draw: the two runs may hold different values. *)
Ltac any_uuid4 :=
  eapply agree_bind; [ apply agree_uuid4 | intros ? ? _ ].

Lemma agree_generate_user_profiles cfg n :
  agree eq (generate_user_profiles cfg n) (generate_user_profiles cfg n).
Proof.
  unfold generate_user_profiles.
  apply agree_for_each; [reflexivity | congruence |]. intros i _.
  both agree_random_choice as home.
  both agree_random_uniform as u1.
  both agree_random_uniform as u2.
  now apply agree_ret.
Qed.

Lemma agree_generate_legitimate_transactions cfg users n :
  agree same_rows (generate_legitimate_transactions cfg users n)
        (generate_legitimate_transactions cfg users n).
Proof.
  unfold generate_legitimate_transactions.
  apply agree_for_each; [apply same_rows_nil | apply same_rows_app |].
  intros i _.
  both agree_sample as rows.
  both agree_index as user.
  both agree_random_uniform as j_lat.
  both agree_random_uniform as j_lon.
  both agree_np_random_normal as x.
  both agree_random_randint as s.
  any_uuid4.
  both agree_fake_company as merchant.
  both agree_random_choice as category.
  now apply agree_ret.
Qed.

Lemma agree_inject_impossible_travel cfg users n :
  agree same_rows (inject_impossible_travel cfg users n)
        (inject_impossible_travel cfg users n).
Proof.
  unfold inject_impossible_travel.
  both agree_sample as sampled_users.
  apply agree_for_each; [apply same_rows_nil | apply same_rows_app |].
  intros user _.
  both agree_random_choice as pair.
  both agree_index as city_a.
  both agree_index as city_b.
  both agree_random_randint as s.
  both agree_random_randint as gap_minutes.
  apply agree_for_each; [apply same_rows_nil | apply same_rows_app |].
  intros [idx city] _.
  any_uuid4.
  both agree_random_uniform as amt.
  both agree_fake_company as merchant.
  both agree_random_choice as category.
  both agree_random_uniform as d_lat.
  both agree_random_uniform as d_lon.
  now apply agree_ret.
Qed.

Lemma agree_inject_velocity_spikes cfg users n :
  agree same_rows (inject_velocity_spikes cfg users n)
        (inject_velocity_spikes cfg users n).
Proof.
  unfold inject_velocity_spikes.
  both agree_sample as sampled_users.
  apply agree_for_each; [apply same_rows_nil | apply same_rows_app |].
  intros user _.
  both agree_random_randint as s.
  both agree_random_randint as n_micro.
  both agree_random_choice as city_info.
  apply agree_for_each; [apply same_rows_nil | apply same_rows_app |].
  intros i _.
  both agree_random_randint as off.
  any_uuid4.
  both agree_random_uniform as amt.
  both agree_fake_company as merchant.
  both agree_random_uniform as d_lat.
  both agree_random_uniform as d_lon.
  now apply agree_ret.
Qed.

Lemma agree_inject_behavioral_drift cfg users n :
  agree same_rows (inject_behavioral_drift cfg users n)
        (inject_behavioral_drift cfg users n).
Proof.
  unfold inject_behavioral_drift.
  both agree_sample as sampled_users.
  apply agree_for_each; [apply same_rows_nil | apply same_rows_app |].
  intros user _.
  both agree_random_uniform as sigma_multiplier.
  both agree_random_randint as s.
  any_uuid4.
  both agree_fake_company as merchant.
  both agree_random_choice as category.
  both agree_random_uniform as d_lat.
  both agree_random_uniform as d_lon.
  now apply agree_ret.
Qed.

(** The sort looks at keys only, and blanking the identifier keeps them. *)
Lemma insert_row_anonymise r rows :
  map anonymise (insert_row r rows)
  = insert_row (anonymise r) (map anonymise rows).
Proof.
  induction rows as [|h t IH]; simpl; [reflexivity|].
  change (sort_key (anonymise r)) with (sort_key r).
  change (sort_key (anonymise h)) with (sort_key h).
  destruct (key_leb (sort_key r) (sort_key h)); simpl; [reflexivity|].
  now rewrite IH.
Qed.

Lemma sort_values_anonymise rows :
  map anonymise (sort_values rows) = sort_values (map anonymise rows).
Proof.
  induction rows as [|r rows IH]; simpl; [reflexivity|].
  now rewrite insert_row_anonymise, IH.
Qed.

Lemma agree_assemble l1 i1 v1 d1 l2 i2 v2 d2 :
  same_rows l1 l2 -> same_rows i1 i2 -> same_rows v1 v2 -> same_rows d1 d2 ->
  agree same_rows (assemble l1 i1 v1 d1) (assemble l2 i2 v2 d2).
Proof.
  intros Hl Hi Hv Hd. unfold assemble.
  assert (Hall : same_rows (l1 ++ i1 ++ v1 ++ d1) (l2 ++ i2 ++ v2 ++ d2))
    by (repeat apply same_rows_app; auto).
  eapply agree_bind with (R := same_rows).
  - unfold random_shuffle.
    replace (List.length (l2 ++ i2 ++ v2 ++ d2))
      with (List.length (l1 ++ i1 ++ v1 ++ d1))
      by (rewrite <- (length_map anonymise), Hall; apply length_map).
    apply (agree_fisher_yates anonymise); [apply agree_randbelow | exact Hall].
  - intros a1 a2 Ha. destruct a1 as [|r1 a1], a2 as [|r2 a2]; try discriminate.
    + apply agree_raise.
    + apply agree_ret. unfold same_rows in *.
      now rewrite !sort_values_anonymise, Ha.
Qed.

Lemma agree_main cfg :
  agree (fun r1 r2 => fst r1 = fst r2 /\ same_rows (snd r1) (snd r2))
        (main cfg) (main cfg).
Proof.
  unfold main.
  both agree_generate_user_profiles as users.
  eapply agree_bind; [apply agree_generate_legitimate_transactions|].
  intros l1 l2 Hl.
  eapply agree_bind; [apply agree_inject_impossible_travel|].
  intros i1 i2 Hi.
  eapply agree_bind; [apply agree_inject_velocity_spikes|].
  intros v1 v2 Hv.
  eapply agree_bind; [apply agree_inject_behavioral_drift|].
  intros d1 d2 Hd.
  eapply agree_bind; [apply agree_assemble; eauto|].
  intros df1 df2 Hdf. apply agree_ret. auto.
Qed.

Lemma same_rows_views df1 df2 :
  same_rows df1 df2 ->
  map tuple_of df1 = map tuple_of df2
  /\ List.length df1 = List.length df2
  /\ fraud_count df1 = fraud_count df2.
Proof.
  unfold same_rows, fraud_count. revert df2.
  induction df1 as [|a l1 IH]; intros [|b l2] H; try discriminate.
  - repeat split.
  - simpl in H. injection H as Hid Hts Hamt Hmn Hmc Hci Hco Hla Hlo Hfr Hty Hrest.
    destruct (IH _ Hrest) as (H1 & H2 & H3). simpl.
    unfold tuple_of at 1 3. rewrite Hid, Hts, Hamt, Hty, Hfr, H1, H2.
    repeat split. destruct (Txn.is_fraud b); simpl; congruence.
Qed.

(** C3: two runs with the same seeds and the same configuration end the
    same way; when they complete, the profiles are identical and the two
    frames are identical row by row, in order, once the transaction
    identifiers (the only values drawn from unseeded entropy) are set
    aside; hence the (user, timestamp, amount, archetype) tuples, the total
    count and the fraud count are identical. *)
Theorem same_seed_same_dataset
  (mersenne : Z -> nat -> Z) (legacy : Z -> nat -> Q) (faker : Z -> nat -> string)
  (seed : Z) (cfg : Config) (entropy1 entropy2 : nat -> string) :
  match main cfg (boot mersenne legacy faker seed entropy1),
        main cfg (boot mersenne legacy faker seed entropy2) with
  | Ok ((users1, df1), _), Ok ((users2, df2), _) =>
      users1 = users2
      /\ map anonymise df1 = map anonymise df2
      /\ map tuple_of df1 = map tuple_of df2
      /\ List.length df1 = List.length df2
      /\ fraud_count df1 = fraud_count df2
  | Raise e1, Raise e2 => e1 = e2
  | _, _ => False
  end.
Proof.
  assert (Hw : same_seeds (boot mersenne legacy faker seed entropy1)
                          (boot mersenne legacy faker seed entropy2))
    by (unfold same_seeds, boot; simpl; auto 10).
  pose proof (agree_main cfg _ _ Hw) as H.
  destruct (main cfg (boot mersenne legacy faker seed entropy1))
    as [[[users1 df1] w1]|e1],
     (main cfg (boot mersenne legacy faker seed entropy2))
    as [[[users2 df2] w2]|e2]; try tauto.
  destruct H as [[Hu Hdf] _]. cbn [fst snd] in Hu, Hdf.
  split; [exact Hu|]. split; [exact Hdf|]. now apply same_rows_views.
Qed.

(** The identifiers themselves follow the operating system's entropy: the
    same seeds with two different entropy tapes give two different
    identifiers for the same record. *)
Remark transaction_ids_follow_entropy :
  returns (main no_fraud_config)
          (boot (fun _ => mt demo_world) (fun _ => np demo_world)
                (fun _ => fk demo_world) 42 (fun _ => "a"))
          (fun r _ => map Txn.transaction_id (snd r) = ["a"])
  /\ returns (main no_fraud_config)
             (boot (fun _ => mt demo_world) (fun _ => np demo_world)
                   (fun _ => fk demo_world) 42 (fun _ => "b"))
             (fun r _ => map Txn.transaction_id (snd r) = ["b"]).
Proof. split; vm_compute; reflexivity. Qed.

(** * Further properties of the generator *)

(** ** Rounding to cents and to micro-degrees *)

Lemma py_round_6_near (x : Q) :
  (x - (1 # 2000000) <= py_round x 6 /\ py_round x 6 <= x + (1 # 2000000))%Q.
Proof.
  assert (E : (py_round x 6
               == inject_Z (round_half_even (x * 1000000)) * (1 # 1000000))%Q).
  { unfold py_round. change (Z.to_pos (10 ^ Z.of_nat 6)) with 1000000%positive.
    change (inject_Z (10 ^ Z.of_nat 6)) with 1000000%Q.
    unfold Qeq, inject_Z, Qmult; simpl. lia. }
  rewrite E. destruct (round_half_even_near (x * 1000000)) as [Hlo Hup].
  split; lra.
Qed.

Lemma whole_cents_py_round (x : Q) : whole_cents (py_round x 2).
Proof. eexists. apply py_round_2_eq. Qed.

Lemma whole_cents_py_max (a b : Q) :
  whole_cents a -> whole_cents b -> whole_cents (py_max a b).
Proof. unfold py_max. destruct (Qcompare a b); auto. Qed.

Lemma whole_cents_half : whole_cents 0.50.
Proof. exists 50%Z. reflexivity. Qed.

Lemma whole_cents_500 : whole_cents 500.0.
Proof. exists 50000%Z. reflexivity. Qed.

(** A coordinate jittered by a uniform draw from [-radius, radius] and
    rounded to six decimals. *)
Lemma jitter_near (c radius f : Q) :
  (0 <= radius)%Q -> (0 <= f)%Q -> (f < 1)%Q ->
  (c - radius - (1 # 2000000) <= py_round (c + (- radius + (radius - - radius) * f)) 6
   /\ py_round (c + (- radius + (radius - - radius) * f)) 6
      <= c + radius + (1 # 2000000))%Q.
Proof.
  intros Hr Hf0 Hf1.
  destruct (py_round_6_near (c + (- radius + (radius - - radius) * f))) as [Hlo Hup].
  split; nra.
Qed.

(** ** Where and how much: the records in detail *)

Lemma returns_for_each_Forall {A B} (P : B -> Prop) (body : A -> M (list B)) xs w :
  (forall x w', In x xs -> returns (body x) w' (fun out _ => Forall P out)) ->
  returns (for_each xs body) w (fun out _ => Forall P out).
Proof.
  intros Hbody. eapply returns_weaken.
  - apply (returns_for_each (fun (_ : A) out => Forall P out)). exact Hbody.
  - cbv beta. intros out _ (outs & -> & Hall). apply Forall_concat.
    eapply Forall2_Forall_r; [exact Hall|]. auto.
Qed.

Lemma located_near_jitter (lat lon radius f1 f2 : Q) (r : Txn.t) :
  (0 <= radius)%Q -> (0 <= f1)%Q -> (f1 < 1)%Q -> (0 <= f2)%Q -> (f2 < 1)%Q ->
  Txn.latitude r = py_round (lat + (- radius + (radius - - radius) * f1)) 6 ->
  Txn.longitude r = py_round (lon + (- radius + (radius - - radius) * f2)) 6 ->
  located_near lat lon radius r.
Proof.
  intros Hr H1 H1' H2 H2' Hlat Hlon. unfold located_near. rewrite Hlat, Hlon.
  destruct (jitter_near lat radius f1 Hr H1 H1').
  destruct (jitter_near lon radius f2 Hr H2 H2'). auto.
Qed.

Lemma py_max_le (a b c : Q) : (a <= c)%Q -> (b <= c)%Q -> (py_max a b <= c)%Q.
Proof. unfold py_max. destruct (Qcompare a b); auto. Qed.

(** X2: every record of the legitimate sampler belongs to a user of the
    population, carries that user's home city and country, lies within
    0.5 degrees of the home coordinates, has a category of the catalog and
    an amount of at least 0.50 in whole cents, and is not flagged. *)
Theorem legitimate_record_details
  (cfg : Config) (users : list User.t) (n_txns : Z) (w : World) :
  MERCHANT_CATEGORIES cfg <> [] ->
  users <> [] ->
  Forall (fun u => 0 <= User.std_amount u)%Q users ->
  exists out w',
    generate_legitimate_transactions cfg users n_txns w = Ok (out, w')
    /\ Forall (fun r =>
                 (exists user, In user users /\ placed_at_home user 0.5 r)
                 /\ In (Txn.merchant_category r) (MERCHANT_CATEGORIES cfg)
                 /\ (0.50 <= Txn.amount r)%Q
                 /\ whole_cents (Txn.amount r)
                 /\ Txn.is_fraud r = false /\ Txn.fraud_type r = None)
              out.
Proof.
  intros Hm Hu Hstd. apply returns_ex.
  unfold generate_legitimate_transactions.
  apply returns_for_each_Forall. intros i w0 _.
  apply returns_bind. eapply returns_weaken; [apply returns_sample_distinct|].
  { unfold len. destruct users; [congruence|simpl; lia]. }
  cbv beta. intros rows w1 (idx & Hlen & _ & Hp).
  pose proof (picks_length _ _ _ Hp) as Hl.
  pose proof (picks_In _ _ _ Hp) as Hin.
  destruct rows as [|row rows]; [simpl in Hl; rewrite Hlen in Hl; discriminate|].
  run_with (returns_index (row :: rows) 0); [simpl; lia|].
  intros user w2 [Huser _]. injection Huser as <-.
  assert (Hrow : In row users) by now inversion Hin.
  run_with returns_random_uniform. intros j_lat w3 (f1 & Hf1 & Hf1' & ->).
  run_with returns_random_uniform. intros j_lon w4 (f2 & Hf2 & Hf2' & ->).
  run_with returns_np_random_normal.
  { rewrite Forall_forall in Hstd. now apply Hstd. }
  intros x w5 _.
  pose proof window_bounds as (_ & _ & Hpos).
  run_with returns_random_randint; [exact Hpos|]. intros s w6 Hs.
  run_with returns_uuid4. intros tid w7 _.
  run_with returns_fake_company. intros merchant w8 _.
  run_with returns_random_choice; [exact Hm|]. intros category w9 Hcat.
  apply returns_ret. constructor; [|constructor]. txn_fields.
  split; [|split; [exact Hcat|split; [apply py_max_ge_l|split]]].
  - exists row. split; [exact Hrow|]. unfold placed_at_home. txn_fields.
    split; [reflexivity|]. split; [reflexivity|]. split; [reflexivity|].
    apply (located_near_jitter (User.home_lat row) (User.home_lon row) 0.5 f1 f2);
      auto; lra.
  - apply whole_cents_py_max; [apply whole_cents_half | apply whole_cents_py_round].
  - auto.
Qed.

Lemma legitimate_record_details_witness :
  exists out w',
    generate_legitimate_transactions shipped demo_users 4 (demo_world_at 9 0 0 0)
    = Ok (out, w')
    /\ Forall (fun r =>
                 (exists user, In user demo_users /\ placed_at_home user 0.5 r)
                 /\ In (Txn.merchant_category r) (MERCHANT_CATEGORIES shipped)
                 /\ (0.50 <= Txn.amount r)%Q
                 /\ whole_cents (Txn.amount r)
                 /\ Txn.is_fraud r = false /\ Txn.fraud_type r = None)
              out.
Proof.
  apply (legitimate_record_details shipped demo_users 4 (demo_world_at 9 0 0 0)).
  - discriminate.
  - discriminate.
  - repeat constructor; vm_compute; discriminate.
Defined.

(** X3: every record of the impossible-travel injector belongs to a user
    of the population, is stamped with a catalog city and lies within 0.01
    degrees of it, has a category of the catalog and an amount between 10
    and 2000 in whole cents, and a timestamp between 2025-01-01 00:00:00
    and 2025-12-31 00:10:00. *)
Theorem impossible_travel_record_details
  (cfg : Config) (users : list User.t) (n_pairs : Z) (w : World) :
  catalogs_ok cfg = true ->
  (0 <= n_pairs)%Z ->
  exists out w',
    inject_impossible_travel cfg users n_pairs w = Ok (out, w')
    /\ Forall (fun r =>
                 (exists user, In user users /\ Txn.user_id r = User.user_id user)
                 /\ (exists place, In place (CITIES cfg) /\ placed_in place 0.01 r)
                 /\ In (Txn.merchant_category r) (MERCHANT_CATEGORIES cfg)
                 /\ (10 <= Txn.amount r <= 2000)%Q
                 /\ whole_cents (Txn.amount r)
                 /\ (datetime 2025 1 1 <= Txn.timestamp r
                     <= datetime 2025 12 31 + timedelta_minutes 10)%Z)
              out.
Proof.
  intros Hok Hn. apply catalogs_ok_spec in Hok as (Hc & Hd & Hm & Hidx).
  apply returns_ex. unfold inject_impossible_travel.
  run_with returns_sample_replace.
  { unfold len. lia. }
  { unfold len. destruct users; [right; simpl; lia | left; discriminate]. }
  intros rows w1 (idx & _ & Hp). pose proof (picks_In _ _ _ Hp) as Hin.
  rewrite Forall_forall in Hin.
  apply returns_for_each_Forall. intros user w2 Huser. apply Hin in Huser.
  run_with returns_random_choice; [exact Hd|]. intros pair w3 Hpair.
  rewrite Forall_forall in Hidx. destruct (Hidx pair Hpair) as [Ha Hb].
  run_with (returns_index (CITIES cfg)); [exact Ha|]. intros city_a w4 [Hca _].
  run_with (returns_index (CITIES cfg)); [exact Hb|]. intros city_b w5 [Hcb _].
  run_with returns_random_randint; [vm_compute; discriminate|]. intros s w6 Hs.
  run_with returns_random_randint; [lia|]. intros gap w7 Hgap.
  apply returns_for_each_Forall. intros [i city] w8 Hic.
  assert (Hi : (0 <= i <= 1)%Z /\ In city (CITIES cfg)).
  { unfold enumerate in Hic. cbn [List.length seq map combine] in Hic.
    destruct Hic as [E|[E|[]]]; injection E as <- <-;
      (split; [simpl; lia | eapply nth_error_In; eauto]). }
  destruct Hi as [Hi Hcity].
  run_with returns_uuid4. intros tid w9 _.
  run_with returns_random_uniform. intros amt w10 (f & Hf0 & Hf1 & ->).
  run_with returns_fake_company. intros merchant w11 _.
  run_with returns_random_choice; [exact Hm|]. intros category w12 Hcat.
  run_with returns_random_uniform. intros d_lat w13 (f1 & Hf1a & Hf1b & ->).
  run_with returns_random_uniform. intros d_lon w14 (f2 & Hf2a & Hf2b & ->).
  apply returns_ret. constructor; [|constructor]. txn_fields.
  split; [exists user; auto|]. split.
  { exists city. split; [exact Hcity|]. unfold placed_in. txn_fields.
    split; [reflexivity|]. split; [reflexivity|].
    apply (located_near_jitter (City.lat city) (City.lon city) 0.01 f1 f2);
      auto; lra. }
  split; [exact Hcat|]. split.
  { split.
    - apply (Qle_trans _ (1000 # 100)); [lra|]. apply py_round_2_ge_q. nra.
    - apply (Qle_trans _ (200000 # 100)); [|lra]. apply py_round_2_le_q. nra. }
  split; [apply whole_cents_py_round|].
  pose proof window_bounds as (_ & Hdelta & _). unfold start_date, end_date in *.
  unfold timedelta_seconds, timedelta_minutes, timedelta_days in *.
  assert (Hig : (0 <= i * gap <= 10)%Z) by nia. lia.
Qed.

Lemma impossible_travel_record_details_witness :
  exists out w',
    inject_impossible_travel shipped demo_users 2 (demo_world_at 9 0 0 0)
    = Ok (out, w')
    /\ Forall (fun r =>
                 (exists user, In user demo_users
                               /\ Txn.user_id r = User.user_id user)
                 /\ (exists place, In place (CITIES shipped)
                                   /\ placed_in place 0.01 r)
                 /\ In (Txn.merchant_category r) (MERCHANT_CATEGORIES shipped)
                 /\ (10 <= Txn.amount r <= 2000)%Q
                 /\ whole_cents (Txn.amount r)
                 /\ (datetime 2025 1 1 <= Txn.timestamp r
                     <= datetime 2025 12 31 + timedelta_minutes 10)%Z)
              out.
Proof.
  apply (impossible_travel_record_details shipped demo_users 2
           (demo_world_at 9 0 0 0)).
  - reflexivity.
  - lia.
Defined.

(** X5: for a population built by the profile generator, every record of
    the drift injector is stamped with the home of the user it was emitted
    for and lies within 0.3 degrees of it, has one of the four drift
    categories, an amount between 500 and 2100 in whole cents, and a
    timestamp between 2025-01-01 and 2025-12-31 (00:00:00). *)
Theorem behavioral_drift_record_details
  (cfg : Config) (n_users n_txns : Z) (w0 w1 w : World) (users : list User.t) :
  generate_user_profiles cfg n_users w0 = Ok (users, w1) ->
  (0 <= n_txns)%Z ->
  exists out w',
    inject_behavioral_drift cfg users n_txns w = Ok (out, w')
    /\ Forall (fun r =>
                 (exists user, In user users /\ placed_at_home user 0.3 r)
                 /\ In (Txn.merchant_category r) drift_categories
                 /\ (500 <= Txn.amount r <= 2100)%Q
                 /\ whole_cents (Txn.amount r)
                 /\ (datetime 2025 1 1 <= Txn.timestamp r <= datetime 2025 12 31)%Z)
              out.
Proof.
  intros Hgen Hn. apply generate_user_profiles_inv in Hgen.
  apply returns_ex. unfold inject_behavioral_drift.
  run_with returns_sample_replace.
  { unfold len. lia. }
  { unfold len. destruct users; [right; simpl; lia | left; discriminate]. }
  intros rows w2 (idx & _ & Hp). pose proof (picks_In _ _ _ Hp) as Hin.
  rewrite Forall_forall in Hin.
  apply returns_for_each_Forall. intros user w3 Huser. apply Hin in Huser.
  destruct (generated_profile_bounds _ _ _ _ Hgen Huser) as [Havg Hstd].
  run_with returns_random_uniform. intros m w4 (f & Hf0 & Hf1 & ->).
  run_with returns_random_randint; [vm_compute; discriminate|]. intros s w5 Hs.
  run_with returns_uuid4. intros tid w6 _.
  run_with returns_fake_company. intros merchant w7 _.
  run_with returns_random_choice; [discriminate|]. intros category w8 Hcat.
  run_with returns_random_uniform. intros d_lat w9 (f1 & Hf1a & Hf1b & ->).
  run_with returns_random_uniform. intros d_lon w10 (f2 & Hf2a & Hf2b & ->).
  apply returns_ret. constructor; [|constructor]. txn_fields.
  split.
  { exists user. split; [exact Huser|]. unfold placed_at_home. txn_fields.
    split; [reflexivity|]. split; [reflexivity|]. split; [reflexivity|].
    apply (located_near_jitter (User.home_lat user) (User.home_lon user)
                               0.3 f1 f2); auto; lra. }
  split; [exact Hcat|]. split.
  { split.
    - apply (Qle_trans _ 500.0); [lra | apply py_max_ge_r].
    - apply py_max_le; [|lra].
      apply (Qle_trans _ (210000 # 100)); [|lra]. apply py_round_2_le_q. nra. }
  split.
  { apply whole_cents_py_max; [apply whole_cents_py_round | apply whole_cents_500]. }
  pose proof window_bounds as (_ & Hdelta & _). unfold start_date, end_date in *.
  unfold timedelta_seconds, timedelta_days in *. lia.
Qed.

Lemma behavioral_drift_record_details_witness :
  exists out w',
    inject_behavioral_drift shipped demo_users 2 (demo_world_at 9 0 0 0)
    = Ok (out, w')
    /\ Forall (fun r =>
                 (exists user, In user demo_users /\ placed_at_home user 0.3 r)
                 /\ In (Txn.merchant_category r) drift_categories
                 /\ (500 <= Txn.amount r <= 2100)%Q
                 /\ whole_cents (Txn.amount r)
                 /\ (datetime 2025 1 1 <= Txn.timestamp r <= datetime 2025 12 31)%Z)
              out.
Proof.
  apply (behavioral_drift_record_details
           shipped 3 2 demo_world (demo_world_at 9 0 0 0)).
  - reflexivity.
  - lia.
Defined.

(** X1: every profile's home city, country and coordinates are those of
    one city of the catalog, its average spend lies between 20 and 500 and
    its standard deviation between 3 and 200. *)
Theorem profile_home_and_spend (cfg : Config) (n : Z) (w : World) :
  CITIES cfg <> [] ->
  exists users w',
    generate_user_profiles cfg n w = Ok (users, w')
    /\ Forall (fun u =>
                 (exists place, In place (CITIES cfg)
                                /\ User.home_city u = City.city place
                                /\ User.home_country u = City.country place
                                /\ User.home_lat u = City.lat place
                                /\ User.home_lon u = City.lon place)
                 /\ (20 <= User.avg_amount u <= 500)%Q
                 /\ (3 <= User.std_amount u <= 200)%Q)
              users.
Proof.
  intros Hc.
  destruct (proj1 (returns_ex _ _ _) (returns_generate_user_profiles cfg n w Hc))
    as (users & w' & Hrun & Hall).
  exists users, w'. split; [exact Hrun|].
  eapply Forall2_Forall_r; [exact Hall|]. cbv beta.
  intros i u (_ & Hhome & Havg & Hstd & _).
  split; [|split; assumption].
  eexists. split; [exact Hhome|]. repeat split.
Qed.

Lemma profile_home_and_spend_witness :
  exists users w',
    generate_user_profiles shipped 3 demo_world = Ok (users, w')
    /\ Forall (fun u =>
                 (exists place, In place (CITIES shipped)
                                /\ User.home_city u = City.city place
                                /\ User.home_country u = City.country place
                                /\ User.home_lat u = City.lat place
                                /\ User.home_lon u = City.lon place)
                 /\ (20 <= User.avg_amount u <= 500)%Q
                 /\ (3 <= User.std_amount u <= 200)%Q)
              users.
Proof.
  apply (profile_home_and_spend shipped 3 demo_world). discriminate.
Defined.

Lemma Forall2_Forall_l' {A B} (P : A -> B -> Prop) (Q : A -> Prop) xs ys :
  Forall2 P xs ys -> (forall x y, P x y -> Q x) -> Forall Q xs.
Proof. induction 1; intros HPQ; constructor; eauto. Qed.

Lemma Forall2_flip_map {A B C} (P : A -> B -> Prop) (R : C -> B -> Prop)
      (f : A -> C) xs ys :
  Forall2 P xs ys -> (forall x y, P x y -> R (f x) y) -> Forall2 R (map f xs) ys.
Proof. induction 1; intros HPR; simpl; constructor; eauto. Qed.

(** X6: over a population built by the profile generator, no user
    receives two velocity bursts: the bursts are emitted for pairwise
    distinct user identifiers, and there are min(U, N) of them. *)
Theorem velocity_bursts_distinct_users
  (cfg : Config) (n_users n_spikes : Z) (w0 w1 w : World) (users : list User.t) :
  CITIES cfg <> [] ->
  generate_user_profiles cfg n_users w0 = Ok (users, w1) ->
  (0 <= n_spikes)%Z ->
  exists out w',
    inject_velocity_spikes cfg users n_spikes w = Ok (out, w')
    /\ exists ids bursts,
         out = List.concat bursts
         /\ NoDup ids
         /\ List.length ids = Z.to_nat (Z.min n_spikes (len users))
         /\ Forall2 (fun id burst =>
                       burst <> []
                       /\ Forall (fun r => Txn.user_id r = id) burst)
                    ids bursts.
Proof.
  intros Hc Hgen Hn. apply generate_user_profiles_inv in Hgen.
  pose proof (profile_ids_NoDup _ _ _ Hgen) as Hids.
  destruct (proj1 (returns_ex _ _ _)
              (returns_inject_velocity_spikes cfg users n_spikes w Hc Hn))
    as (out & w' & Hrun & idx & bursts & Hlen & Hnd & -> & Hall).
  exists (List.concat bursts), w'. split; [exact Hrun|].
  exists (map (fun j => match nth_error users j with
                        | Some u => User.user_id u
                        | None => ""
                        end) idx), bursts.
  split; [reflexivity|]. split; [|split; [now rewrite length_map|]].
  - (* distinct positions of distinct identifiers *)
    assert (Hin : Forall (fun j => j < List.length users)%nat idx).
    { eapply Forall2_Forall_l'; [exact Hall|]. cbv beta.
      intros j burst (user & Hj & _). apply nth_error_Some. congruence. }
    clear Hall Hlen. induction Hnd as [|j idx Hj Hnd IH]; simpl; [constructor|].
    inversion Hin as [|? ? Hjl Hin']; subst. constructor; [|auto].
    intros Hmem. apply in_map_iff in Hmem as (k & Hk & Hkin).
    rewrite Forall_forall in Hin'. pose proof (Hin' k Hkin) as Hkl.
    destruct (nth_error users j) as [uj|] eqn:Ej;
      [|apply nth_error_None in Ej; lia].
    destruct (nth_error users k) as [uk|] eqn:Ek;
      [|apply nth_error_None in Ek; lia].
    assert (E : nth_error (map User.user_id users) j
                = nth_error (map User.user_id users) k)
      by (rewrite !nth_error_map, Ej, Ek; simpl; congruence).
    apply (proj1 (NoDup_nth_error _) Hids) in E;
      [subst; contradiction | rewrite length_map; lia].
  - eapply Forall2_flip_map; [exact Hall|]. cbv beta.
    intros j burst (user & Hj & base & place & _ & _ & Hsize & Hrec).
    rewrite Hj. split.
    + intros ->. simpl in Hsize. lia.
    + eapply Forall_impl; [|exact Hrec]. intros r (Hid & _). exact Hid.
Qed.

Lemma velocity_bursts_distinct_users_witness :
  exists out w',
    inject_velocity_spikes shipped demo_users 2 (demo_world_at 9 0 0 0)
    = Ok (out, w')
    /\ exists ids bursts,
         out = List.concat bursts
         /\ NoDup ids
         /\ List.length ids = Z.to_nat (Z.min 2 (len demo_users))
         /\ Forall2 (fun id burst =>
                       burst <> []
                       /\ Forall (fun r => Txn.user_id r = id) burst)
                    ids bursts.
Proof.
  apply (velocity_bursts_distinct_users
           shipped 3 2 demo_world (demo_world_at 9 0 0 0)).
  - discriminate.
  - reflexivity.
  - lia.
Defined.

(** Identifiers at pairwise distinct positions of a population whose
    identifiers are pairwise distinct. *)
Lemma sampled_ids_NoDup (users : list User.t) (idx : list nat) :
  NoDup (map User.user_id users) ->
  NoDup idx ->
  Forall (fun j => j < List.length users)%nat idx ->
  NoDup (map (user_id_at users) idx).
Proof.
  intros Hids Hnd Hin.
  induction Hnd as [|j idx Hj Hnd IH]; simpl; [constructor|].
  inversion Hin as [|? ? Hjl Hin']; subst. constructor; [|auto].
  intros Hmem. apply in_map_iff in Hmem as (k & Hk & Hkin).
  rewrite Forall_forall in Hin'. pose proof (Hin' k Hkin) as Hkl.
  unfold user_id_at in Hk.
  destruct (nth_error users j) as [uj|] eqn:Ej;
    [|apply nth_error_None in Ej; lia].
  destruct (nth_error users k) as [uk|] eqn:Ek;
    [|apply nth_error_None in Ek; lia].
  assert (E : nth_error (map User.user_id users) j
              = nth_error (map User.user_id users) k)
    by (rewrite !nth_error_map, Ej, Ek; simpl; congruence).
  apply (proj1 (NoDup_nth_error _) Hids) in E;
    [subst; contradiction | rewrite length_map; lia].
Qed.

(** The velocity-spike injector, burst by burst: one burst per sampled
    position, with the records of each burst in detail. *)
Lemma returns_velocity_bursts_in_detail cfg users n w :
  CITIES cfg <> [] ->
  (0 <= n)%Z ->
  returns (inject_velocity_spikes cfg users n) w
          (fun out _ =>
             exists idx bursts,
               List.length idx = Z.to_nat (Z.min n (len users))
               /\ NoDup idx
               /\ out = List.concat bursts
               /\ per_row (fun user burst =>
                             burst_in_detail cfg (User.user_id user) burst)
                          users idx bursts).
Proof.
  intros Hc Hn. unfold inject_velocity_spikes.
  run_with returns_sample_distinct; [unfold len; lia|].
  intros rows w1 (idx & Hlen & Hnd & Hp).
  eapply returns_weaken.
  - apply (returns_for_each
             (fun user burst => burst_in_detail cfg (User.user_id user) burst)).
    intros user w2 _.
    run_with returns_random_randint; [vm_compute; discriminate|]. intros s w3 Hs.
    run_with returns_random_randint; [lia|]. intros n_micro w4 Hmicro.
    run_with returns_random_choice; [exact Hc|]. intros city_info w5 Hcity.
    eapply returns_weaken.
    + apply (returns_for_each
               (fun (_ : nat) out =>
                  exists r, out = [r]
                    /\ Txn.user_id r = User.user_id user
                    /\ placed_in city_info 0.01 r
                    /\ Txn.merchant_category r = "Online Shopping"
                    /\ (0.01 <= Txn.amount r <= 2.00)%Q
                    /\ whole_cents (Txn.amount r)
                    /\ (datetime 2025 1 1 <= Txn.timestamp r
                        <= datetime 2025 12 31 + 55)%Z)).
      intros i w6 _.
      run_with returns_random_randint; [lia|]. intros off w7 Hoff.
      run_with returns_uuid4. intros tid w8 _.
      run_with returns_random_uniform. intros amt w9 (f & Hf0 & Hf1 & ->).
      run_with returns_fake_company. intros merchant w10 _.
      run_with returns_random_uniform. intros d_lat w11 (f1 & Hf1a & Hf1b & ->).
      run_with returns_random_uniform. intros d_lon w12 (f2 & Hf2a & Hf2b & ->).
      apply returns_ret. eexists; split; [reflexivity|]. txn_fields.
      split; [reflexivity|]. split.
      { unfold placed_in. txn_fields. split; [reflexivity|]. split; [reflexivity|].
        apply (located_near_jitter (City.lat city_info) (City.lon city_info)
                                   0.01 f1 f2); auto; lra. }
      split; [reflexivity|]. split.
      { split.
        - apply (py_round_2_ge_q _ 1). nra.
        - apply (Qle_trans _ (200 # 100)); [|lra]. apply py_round_2_le_q. nra. }
      split; [apply whole_cents_py_round|].
      pose proof window_bounds as (_ & Hdelta & _). unfold start_date, end_date in *.
      unfold timedelta_seconds, timedelta_days in *. lia.
    + cbv beta. intros out _ (outs & -> & Hall).
      apply Forall2_concat_singletons in Hall. split.
      * apply Forall2_length in Hall. rewrite <- Hall. unfold range.
        rewrite length_seq. lia.
      * exists city_info. split; [exact Hcity|].
        eapply Forall2_Forall_r; [exact Hall|]. auto.
  - cbv beta. intros out _ (bursts & -> & Hall). exists idx, bursts.
    repeat split; auto. eapply picks_per_row; eauto.
Qed.

(** X4: over a population whose identifiers are pairwise distinct, the
    velocity-spike injector emits exactly min(U, N) bursts, each for one
    user, no two for the same user; a burst has 10 to 20 records, all
    stamped with one and the same catalog city and within 0.01 degrees of
    it, each with the category Online Shopping, an amount between 0.01 and
    2.00 in whole cents and a timestamp between 2025-01-01 00:00:00 and 55
    seconds past 2025-12-31 00:00:00. *)
Theorem velocity_burst_details
  (cfg : Config) (users : list User.t) (n_users : Z) (w : World) :
  CITIES cfg <> [] ->
  NoDup (map User.user_id users) ->
  (0 <= n_users)%Z ->
  exists out w',
    inject_velocity_spikes cfg users n_users w = Ok (out, w')
    /\ exists ids bursts,
         out = List.concat bursts
         /\ NoDup ids
         /\ List.length ids = Z.to_nat (Z.min n_users (len users))
         /\ Forall2 (burst_in_detail cfg) ids bursts.
Proof.
  intros Hc Hids Hn.
  destruct (proj1 (returns_ex _ _ _)
              (returns_velocity_bursts_in_detail cfg users n_users w Hc Hn))
    as (out & w' & Hrun & idx & bursts & Hlen & Hnd & -> & Hall).
  exists (List.concat bursts), w'. split; [exact Hrun|].
  exists (map (user_id_at users) idx), bursts.
  split; [reflexivity|]. split; [|split; [now rewrite length_map|]].
  - apply sampled_ids_NoDup; [exact Hids | exact Hnd |].
    eapply Forall2_Forall_l'; [exact Hall|]. cbv beta.
    intros j burst (user & Hj & _). apply nth_error_Some. congruence.
  - eapply Forall2_flip_map; [exact Hall|]. cbv beta.
    intros j burst (user & Hj & Hb). unfold user_id_at. rewrite Hj. exact Hb.
Qed.

Lemma velocity_burst_details_witness :
  exists out w',
    inject_velocity_spikes shipped demo_users 2 (demo_world_at 9 0 0 0)
    = Ok (out, w')
    /\ exists ids bursts,
         out = List.concat bursts
         /\ NoDup ids
         /\ List.length ids = Z.to_nat (Z.min 2 (len demo_users))
         /\ Forall2 (burst_in_detail shipped) ids bursts.
Proof.
  apply (velocity_burst_details shipped demo_users 2 (demo_world_at 9 0 0 0)).
  - discriminate.
  - repeat constructor; simpl; intuition discriminate.
  - lia.
Defined.

(** ** Edge and error behaviour of the components *)

(** X7: over an empty population the three injectors emit nothing, draw
    nothing and do not fail, whatever non-negative target they are given;
    the legitimate sampler, which draws one user per record, raises
    ValueError as soon as one record is asked for. *)
Theorem components_on_empty_population (cfg : Config) (n : Z) (w : World) :
  (0 <= n)%Z ->
  inject_impossible_travel cfg [] n w = Ok ([], w)
  /\ inject_velocity_spikes cfg [] n w = Ok ([], w)
  /\ inject_behavioral_drift cfg [] n w = Ok ([], w)
  /\ generate_legitimate_transactions cfg [] 0 w = Ok ([], w)
  /\ ((0 < n)%Z ->
      generate_legitimate_transactions cfg [] n w = Raise ValueError).
Proof.
  intros Hn.
  assert (E : Z.min n (len (@nil User.t)) = 0%Z) by (unfold len; simpl; lia).
  unfold inject_impossible_travel, inject_velocity_spikes,
    inject_behavioral_drift. rewrite E.
  repeat split.
  intros Hpos. unfold generate_legitimate_transactions, range.
  destruct (Z.to_nat n) eqn:En; [lia|]. reflexivity.
Qed.

Lemma components_on_empty_population_witness :
  inject_impossible_travel shipped [] 5 demo_world = Ok ([], demo_world)
  /\ inject_velocity_spikes shipped [] 5 demo_world = Ok ([], demo_world)
  /\ inject_behavioral_drift shipped [] 5 demo_world = Ok ([], demo_world)
  /\ generate_legitimate_transactions shipped [] 0 demo_world = Ok ([], demo_world)
  /\ ((0 < 5)%Z ->
      generate_legitimate_transactions shipped [] 5 demo_world = Raise ValueError).
Proof.
  apply (components_on_empty_population shipped 5 demo_world). lia.
Defined.

(** X8: a negative target makes each of the three injectors raise
    ValueError (pandas refuses a negative sample size) before anything is
    drawn, whatever the population; the legitimate sampler, which loops
    over [range(n)], returns no record instead. *)
Theorem components_on_negative_target
  (cfg : Config) (users : list User.t) (n : Z) (w : World) :
  (n < 0)%Z ->
  inject_impossible_travel cfg users n w = Raise ValueError
  /\ inject_velocity_spikes cfg users n w = Raise ValueError
  /\ inject_behavioral_drift cfg users n w = Raise ValueError
  /\ generate_legitimate_transactions cfg users n w = Ok ([], w).
Proof.
  intros Hn.
  assert (E : (Z.min n (len users) <? 0)%Z = true)
    by (apply Z.ltb_lt; unfold len; lia).
  unfold inject_impossible_travel, inject_velocity_spikes,
    inject_behavioral_drift, sample, bind. rewrite E.
  repeat split.
  unfold generate_legitimate_transactions, range.
  replace (Z.to_nat n) with 0%nat by lia. reflexivity.
Qed.

Lemma components_on_negative_target_witness :
  inject_impossible_travel shipped demo_users (-1) demo_world = Raise ValueError
  /\ inject_velocity_spikes shipped demo_users (-1) demo_world = Raise ValueError
  /\ inject_behavioral_drift shipped demo_users (-1) demo_world = Raise ValueError
  /\ generate_legitimate_transactions shipped demo_users (-1) demo_world
     = Ok ([], demo_world).
Proof.
  apply (components_on_negative_target shipped demo_users (-1) demo_world). lia.
Defined.

(** A program that returns and whose continuation then raises. *)
Lemma returns_then_raise {A B} (m : M A) (f : A -> M B) w e :
  returns m w (fun a w' => f a w' = Raise e) -> bind m f w = Raise e.
Proof.
  unfold returns, bind. destruct (m w) as [[a w']|e']; [auto | contradiction].
Qed.

Lemma for_each_raise_first {A B} (x : A) xs (body : A -> M (list B)) w e :
  body x w = Raise e -> for_each (x :: xs) body w = Raise e.
Proof. intros H. simpl. unfold bind at 1. now rewrite H. Qed.

Tactic Notation "pass" open_constr(L) :=
  apply returns_then_raise; eapply returns_weaken; [ eapply L | cbv beta ].

(** X9: an empty catalog is noticed only when the first record needs it.
    With at least one user and a positive target, the impossible-travel
    injector raises IndexError on an empty pair catalog and the
    velocity-spike injector on an empty city catalog.  The legitimate
    sampler reaches its category choice only after the amount draw: on an
    empty category catalog it raises IndexError provided no user has a
    negative standard deviation, and when every user has a negative
    standard deviation the amount draw raises ValueError first, whatever
    the catalogs. *)
Theorem empty_catalog_raises_at_first_record
  (cfg : Config) (users : list User.t) (n : Z) (w : World) :
  users <> [] ->
  (0 < n)%Z ->
  (MERCHANT_CATEGORIES cfg = [] ->
   Forall (fun u => 0 <= User.std_amount u)%Q users ->
   generate_legitimate_transactions cfg users n w = Raise IndexError)
  /\ (Forall (fun u => User.std_amount u < 0)%Q users ->
      generate_legitimate_transactions cfg users n w = Raise ValueError)
  /\ (DISTANT_PAIRS cfg = [] ->
      inject_impossible_travel cfg users n w = Raise IndexError)
  /\ (CITIES cfg = [] ->
      inject_velocity_spikes cfg users n w = Raise IndexError).
Proof.
  intros Hu Hn.
  assert (Hlen : (0 < len users)%Z)
    by (unfold len; destruct users; [congruence | simpl; lia]).
  split; [|split; [|split]].
  - intros Hm Hstd. unfold generate_legitimate_transactions, range.
    destruct (Z.to_nat n) as [|k] eqn:En; [lia|]. cbn [seq].
    apply for_each_raise_first.
    apply returns_then_raise. eapply returns_weaken;
      [apply returns_sample_distinct; lia|].
    cbv beta. intros rows w1 (idx & Hidx & _ & Hp).
    pose proof (picks_length _ _ _ Hp) as Hl.
    pose proof (picks_In _ _ _ Hp) as Hin.
    destruct rows as [|row rows]; [simpl in Hl; rewrite Hidx in Hl; discriminate|].
    pass (returns_index (row :: rows) 0); [simpl; lia|].
    intros user w2 [Huser _]. injection Huser as <-.
    pass returns_random_uniform. intros j_lat w3 _.
    pass returns_random_uniform. intros j_lon w4 _.
    pass returns_np_random_normal.
    { rewrite Forall_forall in Hstd. apply Hstd. now inversion Hin. }
    intros x w5 _.
    pose proof window_bounds as (_ & _ & Hpos).
    pass returns_random_randint; [exact Hpos|]. intros s w6 _.
    pass returns_uuid4. intros tid w7 _.
    pass returns_fake_company. intros merchant w8 _.
    rewrite Hm. reflexivity.
  - intros Hstd. unfold generate_legitimate_transactions, range.
    destruct (Z.to_nat n) as [|k] eqn:En; [lia|]. cbn [seq].
    apply for_each_raise_first.
    apply returns_then_raise. eapply returns_weaken;
      [apply returns_sample_distinct; lia|].
    cbv beta. intros rows w1 (idx & Hidx & _ & Hp).
    pose proof (picks_length _ _ _ Hp) as Hl.
    pose proof (picks_In _ _ _ Hp) as Hin.
    destruct rows as [|row rows]; [simpl in Hl; rewrite Hidx in Hl; discriminate|].
    pass (returns_index (row :: rows) 0); [simpl; lia|].
    intros user w2 [Huser _]. injection Huser as <-.
    pass returns_random_uniform. intros j_lat w3 _.
    pass returns_random_uniform. intros j_lon w4 _.
    assert (Hneg : (User.std_amount row ?= 0)%Q = Lt).
    { apply Qlt_alt. rewrite Forall_forall in Hstd. apply Hstd.
      now inversion Hin. }
    unfold bind at 1, np_random_normal. rewrite Hneg. reflexivity.
  - intros Hd. unfold inject_impossible_travel.
    pass returns_sample_replace; [lia | now left |].
    intros rows w1 (idx & Hidx & Hp). pose proof (picks_length _ _ _ Hp) as Hl.
    destruct rows as [|row rows]; [simpl in Hl; lia|].
    apply for_each_raise_first. rewrite Hd. reflexivity.
  - intros Hc. unfold inject_velocity_spikes.
    pass returns_sample_distinct; [lia|].
    intros rows w1 (idx & Hidx & _ & Hp). pose proof (picks_length _ _ _ Hp) as Hl.
    destruct rows as [|row rows]; [simpl in Hl; lia|].
    apply for_each_raise_first.
    pass returns_random_randint; [vm_compute; discriminate|]. intros s w2 _.
    pass returns_random_randint; [lia|]. intros n_micro w3 _.
    rewrite Hc. reflexivity.
Qed.

Lemma empty_catalog_raises_at_first_record_witness :
  generate_legitimate_transactions no_category_config demo_users 2 demo_world
  = Raise IndexError
  /\ generate_legitimate_transactions shipped negative_std_users 2 demo_world
     = Raise ValueError
  /\ inject_impossible_travel no_pair_config demo_users 2 demo_world
     = Raise IndexError
  /\ inject_velocity_spikes no_city_config demo_users 2 demo_world
     = Raise IndexError.
Proof.
  assert (Hu : demo_users <> []) by discriminate.
  assert (Hu' : negative_std_users <> []) by discriminate.
  assert (Hstd : Forall (fun u => 0 <= User.std_amount u)%Q demo_users)
    by (repeat constructor; vm_compute; discriminate).
  assert (Hneg : Forall (fun u => User.std_amount u < 0)%Q negative_std_users)
    by (repeat constructor).
  assert (Hn : (0 < 2)%Z) by lia.
  split; [|split; [|split]].
  - apply (proj1 (empty_catalog_raises_at_first_record
                    no_category_config demo_users 2 demo_world Hu Hn));
      [reflexivity | exact Hstd].
  - apply (proj1 (proj2 (empty_catalog_raises_at_first_record
                           shipped negative_std_users 2 demo_world Hu' Hn))).
    exact Hneg.
  - apply (proj1 (proj2 (proj2 (empty_catalog_raises_at_first_record
                                  no_pair_config demo_users 2 demo_world Hu Hn)))).
    reflexivity.
  - apply (proj2 (proj2 (proj2 (empty_catalog_raises_at_first_record
                                  no_city_config demo_users 2 demo_world Hu Hn)))).
    reflexivity.
Defined.

(** ** The assembled frame *)

Lemma Permutation_filter_length {A} (f : A -> bool) (l l' : list A) :
  Permutation l l' -> List.length (filter f l) = List.length (filter f l').
Proof.
  induction 1 as [| x l l' _ IH | x y l | l l' l'' _ IH1 _ IH2]; simpl.
  - reflexivity.
  - destruct (f x); simpl; congruence.
  - destruct (f x), (f y); reflexivity.
  - congruence.
Qed.

Lemma count_tag_app tag (l1 l2 : list Txn.t) :
  count_tag tag (l1 ++ l2) = (count_tag tag l1 + count_tag tag l2)%nat.
Proof. unfold count_tag. now rewrite filter_app, length_app. Qed.

Lemma count_tag_uniform tag tag' (l : list Txn.t) :
  Forall (fun r => Txn.fraud_type r = tag) l ->
  count_tag tag' l = if tag_eqb tag tag' then List.length l else 0%nat.
Proof.
  unfold count_tag. induction 1 as [|r l Hr _ IH]; simpl.
  - now destruct (tag_eqb tag tag').
  - rewrite Hr. destruct (tag_eqb tag tag'); simpl; auto.
Qed.

Lemma fraud_count_app (l1 l2 : list Txn.t) :
  fraud_count (l1 ++ l2) = (fraud_count l1 + fraud_count l2)%nat.
Proof. unfold fraud_count. now rewrite filter_app, length_app. Qed.

Lemma fraud_count_uniform (b : bool) (l : list Txn.t) :
  Forall (fun r => Txn.is_fraud r = b) l ->
  fraud_count l = if b then List.length l else 0%nat.
Proof.
  unfold fraud_count. induction 1 as [|r l Hr _ IH]; simpl.
  - now destruct b.
  - rewrite Hr. destruct b; simpl; auto.
Qed.

Lemma per_row_Forall_In {A B} (P : A -> list B -> Prop) (Q : B -> Prop)
      frame idx outs :
  per_row P frame idx outs ->
  (forall row out, In row frame -> P row out -> Forall Q out) ->
  Forall Q (List.concat outs).
Proof.
  intros H HPQ. apply Forall_concat.
  eapply Forall2_Forall_r; [exact H|]. cbv beta.
  intros j out (row & Hrow & Hout). apply nth_error_In in Hrow. eauto.
Qed.

(** The tag, the flag, the owner and the time range of each stream of a
    run. *)
Lemma run_of_streams cfg users df legit impossible velocity drift :
  run_of cfg users df legit impossible velocity drift ->
  forall tagged : option string -> bool -> Txn.t -> Prop,
    (forall tag flag r,
        Txn.fraud_type r = tag -> Txn.is_fraud r = flag ->
        (exists user, In user users /\ Txn.user_id r = User.user_id user) ->
        (datetime 2025 1 1 <= Txn.timestamp r
         <= datetime 2025 12 31 + timedelta_minutes 10)%Z ->
        tagged tag flag r) ->
    Forall (tagged None false) legit
    /\ Forall (tagged (Some "impossible_travel") true) impossible
    /\ Forall (tagged (Some "velocity_spike") true) velocity
    /\ Forall (tagged (Some "behavioral_drift") true) drift.
Proof.
  intros (_ & (_ & Hlegit) & (ii & trials & _ & -> & Htr)
          & (vi & bursts & _ & _ & -> & Hbu) & (di & _ & Hdr) & _) tagged Htag.
  pose proof window_bounds as (_ & Hdelta & _).
  unfold start_date, end_date, timedelta_days in Hdelta.
  unfold timedelta_minutes in Htag.
  split; [|split; [|split]].
  - eapply Forall_impl; [|exact Hlegit]. cbv beta.
    intros r (user & Hu & Hid & _ & Hts & _ & _ & _ & Hf & Hty).
    unfold start_date, end_date in Hts. apply Htag; eauto. lia.
  - eapply per_row_Forall_In; [exact Htr|]. cbv beta.
    intros user trial Huser (pair & ca & cb & base & gap & r1 & r2
                             & -> & _ & _ & _ & Hgap & Hbase & H1 & H2).
    unfold timedelta_days in Hbase.
    destruct H1 as (Hid1 & Hts1 & _ & _ & _ & Hf1 & Hty1).
    destruct H2 as (Hid2 & Hts2 & _ & _ & _ & Hf2 & Hty2).
    repeat constructor; apply Htag; eauto; lia.
  - eapply per_row_Forall_In; [exact Hbu|]. cbv beta.
    intros user burst Huser (base & place & _ & Hbase & _ & Hrec).
    unfold timedelta_days in Hbase.
    eapply Forall_impl; [|exact Hrec]. cbv beta.
    intros r (Hid & Hoff & _ & _ & _ & Hf & Hty). apply Htag; eauto. lia.
  - eapply Forall2_Forall_r; [exact Hdr|]. cbv beta.
    intros j r (user & Huser & m & _ & Hid & _ & Hts & _ & _ & Hf & Hty).
    apply nth_error_In in Huser. unfold timedelta_days in Hts.
    apply Htag; eauto. lia.
Qed.

(** X10: in the frame written by a valid run the archetype tags partition
    the rows exactly: M rows without a tag, 2 * min(P, N) tagged
    impossible_travel, the sum of the burst sizes tagged velocity_spike,
    min(D, N) tagged behavioral_drift; and row by row the fraud flag is
    set exactly on the tagged rows: every row is either unflagged and
    untagged, or flagged and tagged with one of the three archetypes. *)
Theorem output_partition_by_archetype (cfg : Config) (w : World) :
  valid_config cfg = true ->
  exists users df w' burst_sizes,
    main cfg w = Ok ((users, df), w')
    /\ List.length burst_sizes
       = Z.to_nat (Z.min (FRAUD_VELOCITY_SPIKE_USERS cfg) (NUM_USERS cfg))
    /\ Forall (fun b => 10 <= b <= 20)%nat burst_sizes
    /\ count_tag None df = Z.to_nat (NUM_TRANSACTIONS cfg)
    /\ count_tag (Some "impossible_travel") df
       = (2 * Z.to_nat (Z.min (FRAUD_IMPOSSIBLE_TRAVEL cfg) (NUM_USERS cfg)))%nat
    /\ count_tag (Some "velocity_spike") df = list_sum burst_sizes
    /\ count_tag (Some "behavioral_drift") df
       = Z.to_nat (Z.min (FRAUD_BEHAVIORAL_DRIFT cfg) (NUM_USERS cfg))
    /\ fraud_count df
       = (count_tag (Some "impossible_travel") df
          + count_tag (Some "velocity_spike") df
          + count_tag (Some "behavioral_drift") df)%nat
    /\ List.length df = (count_tag None df + fraud_count df)%nat
    /\ Forall (fun r =>
                 (Txn.is_fraud r = false /\ Txn.fraud_type r = None)
                 \/ (Txn.is_fraud r = true
                     /\ exists tag, Txn.fraud_type r = Some tag
                                    /\ In tag archetypes))
              df.
Proof.
  intros Hv. destruct (valid_config_spec _ Hv) as (_ & Hn & _).
  destruct (proj1 (returns_ex _ _ _) (returns_main cfg w Hv))
    as ([users df] & w' & Hrun & legit & impossible & velocity & drift & Hof).
  cbn [fst snd] in Hof.
  destruct (run_of_counts _ _ _ _ _ _ _ Hn Hof)
    as (_ & Himp & Hdr & sizes & Hs1 & Hs2 & Hvel & Hdf).
  destruct (run_of_streams _ _ _ _ _ _ _ Hof
              (fun tag flag r => Txn.fraud_type r = tag /\ Txn.is_fraud r = flag))
    as (Tl & Ti & Tv & Td); [auto|].
  destruct Hof as (_ & (Hlegit & _) & _ & _ & _ & Hperm & _).
  assert (Hcount : forall tag,
             count_tag tag df
             = (count_tag tag legit + count_tag tag impossible
                + count_tag tag velocity + count_tag tag drift)%nat).
  { intros tag. unfold count_tag at 1.
    rewrite <- (Permutation_filter_length _ _ _ Hperm).
    fold (count_tag tag (legit ++ impossible ++ velocity ++ drift)).
    rewrite !count_tag_app. lia. }
  assert (Hfraud : fraud_count df
                   = (List.length impossible + List.length velocity
                      + List.length drift)%nat).
  { unfold fraud_count at 1.
    rewrite <- (Permutation_filter_length _ _ _ Hperm).
    fold (fraud_count (legit ++ impossible ++ velocity ++ drift)).
    rewrite !fraud_count_app.
    rewrite (fraud_count_uniform false legit), (fraud_count_uniform true impossible),
      (fraud_count_uniform true velocity), (fraud_count_uniform true drift);
      try (eapply Forall_impl; [|eassumption]; cbv beta; tauto).
    lia. }
  assert (Hc : forall tag,
             count_tag tag df
             = ((if tag_eqb None tag then List.length legit else 0)
                + (if tag_eqb (Some "impossible_travel") tag
                   then List.length impossible else 0)
                + (if tag_eqb (Some "velocity_spike") tag
                   then List.length velocity else 0)
                + (if tag_eqb (Some "behavioral_drift") tag
                   then List.length drift else 0))%nat).
  { intros tag. rewrite Hcount.
    rewrite (count_tag_uniform None tag legit),
      (count_tag_uniform (Some "impossible_travel") tag impossible),
      (count_tag_uniform (Some "velocity_spike") tag velocity),
      (count_tag_uniform (Some "behavioral_drift") tag drift);
      try (eapply Forall_impl; [|eassumption]; cbv beta; tauto).
    reflexivity. }
  assert (Hrows : Forall (fun r =>
                            (Txn.is_fraud r = false /\ Txn.fraud_type r = None)
                            \/ (Txn.is_fraud r = true
                                /\ exists tag, Txn.fraud_type r = Some tag
                                               /\ In tag archetypes))
                         df).
  { eapply Permutation_Forall; [exact Hperm|].
    repeat (apply Forall_app; split);
      (eapply Forall_impl; [|eassumption]); cbv beta;
      intros r [Hty Hf]; [left; auto | right ..];
      (split; [exact Hf|]; eexists; split; [exact Hty|]);
      unfold archetypes; simpl; auto. }
  exists users, df, w', sizes. split; [exact Hrun|].
  split; [exact Hs1|]. split; [exact Hs2|].
  rewrite !Hc, Hfraud. cbn [tag_eqb String.eqb Ascii.eqb Bool.eqb].
  repeat split; try lia. exact Hrows.
Qed.

Lemma output_partition_by_archetype_witness :
  exists users df w' burst_sizes,
    main small_config demo_world = Ok ((users, df), w')
    /\ List.length burst_sizes
       = Z.to_nat (Z.min (FRAUD_VELOCITY_SPIKE_USERS small_config)
                         (NUM_USERS small_config))
    /\ Forall (fun b => 10 <= b <= 20)%nat burst_sizes
    /\ count_tag None df = Z.to_nat (NUM_TRANSACTIONS small_config)
    /\ count_tag (Some "impossible_travel") df
       = (2 * Z.to_nat (Z.min (FRAUD_IMPOSSIBLE_TRAVEL small_config)
                              (NUM_USERS small_config)))%nat
    /\ count_tag (Some "velocity_spike") df = list_sum burst_sizes
    /\ count_tag (Some "behavioral_drift") df
       = Z.to_nat (Z.min (FRAUD_BEHAVIORAL_DRIFT small_config)
                         (NUM_USERS small_config))
    /\ fraud_count df
       = (count_tag (Some "impossible_travel") df
          + count_tag (Some "velocity_spike") df
          + count_tag (Some "behavioral_drift") df)%nat
    /\ List.length df = (count_tag None df + fraud_count df)%nat
    /\ Forall (fun r =>
                 (Txn.is_fraud r = false /\ Txn.fraud_type r = None)
                 \/ (Txn.is_fraud r = true
                     /\ exists tag, Txn.fraud_type r = Some tag
                                    /\ In tag archetypes))
              df.
Proof.
  apply (output_partition_by_archetype small_config demo_world). reflexivity.
Defined.

(** X11: the frame written by a valid run is sorted by (user_id,
    timestamp); every row references a profile of the population written
    beside it, whose identifiers are pairwise distinct; and every
    timestamp lies between 2025-01-01 00:00:00 and 2025-12-31 00:10:00. *)
Theorem output_frame_integrity (cfg : Config) (w : World) :
  valid_config cfg = true ->
  exists users df w',
    main cfg w = Ok ((users, df), w')
    /\ NoDup (map User.user_id users)
    /\ StronglySorted row_le df
    /\ Forall (fun r =>
                 (exists user, In user users
                               /\ Txn.user_id r = User.user_id user)
                 /\ (datetime 2025 1 1 <= Txn.timestamp r
                     <= datetime 2025 12 31 + timedelta_minutes 10)%Z)
              df.
Proof.
  intros Hv.
  destruct (proj1 (returns_ex _ _ _) (returns_main cfg w Hv))
    as ([users df] & w' & Hrun & legit & impossible & velocity & drift & Hof).
  cbn [fst snd] in Hof.
  destruct (run_of_streams _ _ _ _ _ _ _ Hof
              (fun _ _ r =>
                 (exists user, In user users
                               /\ Txn.user_id r = User.user_id user)
                 /\ (datetime 2025 1 1 <= Txn.timestamp r
                     <= datetime 2025 12 31 + timedelta_minutes 10)%Z))
    as (Tl & Ti & Tv & Td); [auto|].
  destruct Hof as (Husers & _ & _ & _ & _ & Hperm & Hsorted).
  exists users, df, w'. split; [exact Hrun|].
  split; [eapply profile_ids_NoDup; eauto|]. split; [exact Hsorted|].
  apply (Permutation_Forall Hperm). repeat (apply Forall_app; split); auto.
Qed.

Lemma output_frame_integrity_witness :
  exists users df w',
    main small_config demo_world = Ok ((users, df), w')
    /\ NoDup (map User.user_id users)
    /\ StronglySorted row_le df
    /\ Forall (fun r =>
                 (exists user, In user users
                               /\ Txn.user_id r = User.user_id user)
                 /\ (datetime 2025 1 1 <= Txn.timestamp r
                     <= datetime 2025 12 31 + timedelta_minutes 10)%Z)
              df.
Proof.
  apply (output_frame_integrity small_config demo_world). reflexivity.
Defined.
(** ** Transaction identifiers *)

Lemma ensures_ret {A} (a : A) w (P : A -> World -> Prop) :
  P a w -> ensures (ret a) w P.
Proof. exact (fun H => H). Qed.

Lemma ensures_bind {A B} (m : M A) (f : A -> M B) w
      (Q : A -> World -> Prop) (P : B -> World -> Prop) :
  ensures m w Q ->
  (forall a w', Q a w' -> ensures (f a) w' P) ->
  ensures (bind m f) w P.
Proof.
  unfold ensures, bind. destruct (m w) as [[a w']|e]; intros H1 H2.
  - exact (H2 _ _ H1).
  - exact I.
Qed.

Lemma ensures_weaken {A} (m : M A) w (P Q : A -> World -> Prop) :
  ensures m w P -> (forall a w', P a w' -> Q a w') -> ensures m w Q.
Proof.
  unfold ensures. destruct (m w) as [[a w']|e]; auto.
Qed.

Lemma ensures_ok {A} (m : M A) w (P : A -> World -> Prop) a w' :
  ensures m w P -> m w = Ok (a, w') -> P a w'.
Proof. unfold ensures. intros H E. now rewrite E in H. Qed.

(** *** Everything but [uuid4] leaves the operating system's entropy alone *)

Lemma keeps_ret {A} (a : A) : keeps_os (ret a).
Proof. intros w. now apply ensures_ret. Qed.

Lemma keeps_raise {A} (e : Exn) : keeps_os (@raise A e).
Proof. intros w. exact I. Qed.

Lemma keeps_bind {A B} (m : M A) (f : A -> M B) :
  keeps_os m -> (forall a, keeps_os (f a)) -> keeps_os (bind m f).
Proof.
  intros Hm Hf w. eapply ensures_bind; [apply Hm|]. cbv beta.
  intros a w1 (H1 & H2). eapply ensures_weaken; [apply Hf|]. cbv beta.
  intros b w2 (H3 & H4). split; congruence.
Qed.

Lemma keeps_next_mt : keeps_os next_mt.
Proof. intros w. split; reflexivity. Qed.

Lemma keeps_next_np : keeps_os next_np.
Proof. intros w. split; reflexivity. Qed.

Lemma keeps_fake_company : keeps_os fake_company.
Proof. intros w. split; reflexivity. Qed.

Lemma keeps_index {A} (x : list A) i : keeps_os (index x i).
Proof.
  unfold index. destruct (nth_error x i); [apply keeps_ret | apply keeps_raise].
Qed.

Create HintDb keeps.

#[local] Hint Resolve keeps_ret keeps_raise keeps_next_mt keeps_next_np
  keeps_fake_company keeps_index : keeps.

Ltac keeps :=
  repeat first [ apply keeps_bind; [|intro] | solve [auto with keeps] ].

Lemma keeps_random_random : keeps_os random_random.
Proof. unfold random_random. keeps. Qed.

#[local] Hint Resolve keeps_random_random : keeps.

Lemma keeps_random_uniform a b : keeps_os (random_uniform a b).
Proof. unfold random_uniform. keeps. Qed.

Lemma keeps_randbelow n : keeps_os (randbelow n).
Proof. unfold randbelow. keeps. Qed.

Lemma keeps_random_randint a b : keeps_os (random_randint a b).
Proof. unfold random_randint. destruct (b <? a)%Z; keeps. Qed.

Lemma keeps_np_randbelow n : keeps_os (np_randbelow n).
Proof. unfold np_randbelow. keeps. Qed.

Lemma keeps_np_random_normal loc scale : keeps_os (np_random_normal loc scale).
Proof. unfold np_random_normal. destruct (Qcompare scale 0); keeps. Qed.

#[local] Hint Resolve keeps_random_uniform keeps_randbelow keeps_random_randint
  keeps_np_randbelow keeps_np_random_normal : keeps.

Lemma keeps_random_choice {A} (x : list A) : keeps_os (random_choice x).
Proof. unfold random_choice. destruct x; keeps. Qed.

Lemma keeps_for_each {A B} (xs : list A) (body : A -> M (list B)) :
  (forall x, keeps_os (body x)) -> keeps_os (for_each xs body).
Proof.
  intros H. induction xs as [|x xs IH]; simpl; keeps.
Qed.

Lemma keeps_fisher_yates {A} (below : nat -> M nat) i (x : list A) :
  (forall n, keeps_os (below n)) -> keeps_os (fisher_yates below i x).
Proof.
  intros H. revert x. induction i as [|i IH]; intros x; simpl; keeps.
Qed.

Lemma keeps_random_shuffle {A} (x : list A) : keeps_os (random_shuffle x).
Proof. apply keeps_fisher_yates. auto with keeps. Qed.

Lemma keeps_iloc {A} (frame : list A) idx : keeps_os (iloc frame idx).
Proof. apply keeps_for_each. intros j. keeps. Qed.

#[local] Hint Resolve keeps_random_choice keeps_random_shuffle keeps_iloc
  : keeps.

Lemma keeps_sample {A} (frame : list A) n replace :
  keeps_os (sample frame n replace).
Proof.
  unfold sample. destruct (n <? 0)%Z; [keeps|]. destruct replace.
  - destruct ((len frame =? 0)%Z && (0 <? n)%Z)%bool; [keeps|].
    apply keeps_bind; [|intro; keeps]. apply keeps_for_each. intros _. keeps.
  - destruct (len frame <? n)%Z; [keeps|].
    apply keeps_bind; [|intro; keeps]. apply keeps_fisher_yates.
    auto with keeps.
Qed.

#[local] Hint Resolve keeps_sample : keeps.

Lemma keeps_generate_user_profiles cfg n :
  keeps_os (generate_user_profiles cfg n).
Proof. apply keeps_for_each. intros i. keeps. Qed.

(** *** One identifier per record *)

Lemma builds_ret tid (r : Txn.t) :
  Txn.transaction_id r = tid -> builds tid (ret [r]).
Proof. intros H w. apply ensures_ret. eauto. Qed.

Lemma builds_bind {A} tid (m : M A) (f : A -> M (list Txn.t)) :
  keeps_os m -> (forall a, builds tid (f a)) -> builds tid (bind m f).
Proof.
  intros Hm Hf w. eapply ensures_bind; [apply Hm|]. cbv beta.
  intros a w1 (H1 & H2). eapply ensures_weaken; [apply Hf|]. cbv beta.
  intros out w2 (H3 & H4 & Hr). split; [congruence|]. split; [congruence|]. exact Hr.
Qed.

Ltac builds :=
  repeat (apply builds_bind; [solve [auto with keeps] | intro]);
  apply builds_ret; reflexivity.

Lemma draws_ret_nil : draws_ids (ret []).
Proof.
  intros w. apply ensures_ret. unfold ids_drawn. simpl.
  repeat split. now rewrite Nat.add_0_r.
Qed.

Lemma draws_raise e : draws_ids (raise e).
Proof. intros w. exact I. Qed.

Lemma draws_uuid4 (f : string -> M (list Txn.t)) :
  (forall tid, builds tid (f tid)) -> draws_ids (bind uuid4 f).
Proof.
  intros H w. eapply ensures_bind with
    (Q := fun tid w1 => tid = os w (os_pos w) /\ os w1 = os w
                        /\ os_pos w1 = S (os_pos w)).
  - unfold ensures, uuid4. simpl. auto.
  - intros tid w1 (-> & H1 & H2).
    eapply ensures_weaken; [apply H|]. cbv beta.
    intros out w2 (H3 & H4 & r & -> & Hr). unfold ids_drawn. simpl.
    rewrite Hr. repeat split; try congruence. rewrite H4, H2. lia.
Qed.

Lemma draws_bind {A} (m : M A) (f : A -> M (list Txn.t)) :
  keeps_os m -> (forall a, draws_ids (f a)) -> draws_ids (bind m f).
Proof.
  intros Hm Hf w. eapply ensures_bind; [apply Hm|]. cbv beta.
  intros a w1 (H1 & H2). rewrite <- H1, <- H2. apply Hf.
Qed.

Lemma draws_for_each {A} (xs : list A) (body : A -> M (list Txn.t)) :
  (forall x, draws_ids (body x)) -> draws_ids (for_each xs body).
Proof.
  intros H. induction xs as [|x xs IH]; simpl; [apply draws_ret_nil|].
  intros w. eapply ensures_bind; [apply H|].
  intros out w1 (H1 & H2 & H3).
  eapply ensures_bind; [apply IH|].
  intros rest w2 (H4 & H5 & H6). apply ensures_ret.
  unfold ids_drawn. rewrite length_app, map_app, seq_app, map_app.
  split; [congruence|]. split; [lia|].
  rewrite H3, H6, H1, H2. reflexivity.
Qed.

Ltac draws :=
  repeat (apply draws_bind; [solve [auto with keeps] | intro]);
  apply draws_uuid4; intro; builds.

Lemma draws_generate_legitimate_transactions cfg users n :
  draws_ids (generate_legitimate_transactions cfg users n).
Proof.
  unfold generate_legitimate_transactions. apply draws_for_each. intros _.
  draws.
Qed.

Lemma draws_inject_impossible_travel cfg users n :
  draws_ids (inject_impossible_travel cfg users n).
Proof.
  unfold inject_impossible_travel.
  apply draws_bind; [auto with keeps|]. intros sampled_users.
  apply draws_for_each. intros user.
  repeat (apply draws_bind; [solve [auto with keeps] | intro]).
  apply draws_for_each. intros [idx city]. draws.
Qed.

Lemma draws_inject_velocity_spikes cfg users n :
  draws_ids (inject_velocity_spikes cfg users n).
Proof.
  unfold inject_velocity_spikes.
  apply draws_bind; [auto with keeps|]. intros sampled_users.
  apply draws_for_each. intros user.
  repeat (apply draws_bind; [solve [auto with keeps] | intro]).
  apply draws_for_each. intros i. draws.
Qed.

Lemma draws_inject_behavioral_drift cfg users n :
  draws_ids (inject_behavioral_drift cfg users n).
Proof.
  unfold inject_behavioral_drift.
  apply draws_bind; [auto with keeps|]. intros sampled_users.
  apply draws_for_each. intros user. draws.
Qed.

(** The identifiers of the frame are the cells the run has consumed, up
    to the order the shuffle and the sort leave them in. *)
Lemma ensures_main_ids cfg w :
  ensures (main cfg) w (fun r w' =>
    Permutation (map Txn.transaction_id (snd r))
                (map (os w) (seq (os_pos w) (List.length (snd r))))
    /\ os w' = os w
    /\ os_pos w' = (os_pos w + List.length (snd r))%nat).
Proof.
  unfold main.
  eapply ensures_bind; [apply keeps_generate_user_profiles|]. cbv beta.
  intros users w1 (U1 & U2).
  eapply ensures_bind; [apply draws_generate_legitimate_transactions|].
  intros legit w2 (L1 & L2 & L3).
  eapply ensures_bind; [apply draws_inject_impossible_travel|].
  intros impossible w3 (I1 & I2 & I3).
  eapply ensures_bind; [apply draws_inject_velocity_spikes|].
  intros velocity w4 (V1 & V2 & V3).
  eapply ensures_bind; [apply draws_inject_behavioral_drift|].
  intros drift w5 (D1 & D2 & D3).
  assert (Hall : map Txn.transaction_id (legit ++ impossible ++ velocity ++ drift)
                 = map (os w) (seq (os_pos w)
                     (List.length (legit ++ impossible ++ velocity ++ drift)))).
  { rewrite !length_app, !map_app, !seq_app, !map_app.
    rewrite L3, I3, V3, D3, V1, V2, I1, I2, L1, L2, U1, U2. reflexivity. }
  assert (Hpos : os_pos w5
                 = (os_pos w
                    + List.length (legit ++ impossible ++ velocity ++ drift))%nat).
  { rewrite !length_app. lia. }
  assert (Hos : os w5 = os w) by congruence.
  unfold assemble.
  remember (legit ++ impossible ++ velocity ++ drift) as all eqn:Eall.
  clear Eall L3 I3 V3 D3.
  eapply ensures_bind with
    (Q := fun df w6 => Permutation all df /\ os w6 = os w5 /\ os_pos w6 = os_pos w5).
  { eapply ensures_bind with
      (Q := fun y w6 => Permutation all y /\ os w6 = os w5 /\ os_pos w6 = os_pos w5).
    - pose proof (returns_random_shuffle all w5) as Hp.
      pose proof (keeps_random_shuffle all w5) as Hk.
      unfold returns in Hp. unfold ensures in *.
      destruct (random_shuffle all w5) as [[y w6]|e]; tauto.
    - intros y w6 (Hp & S1 & S2).
      destruct y as [|r rest]; [exact I|]. apply ensures_ret.
      split; [|auto]. rewrite Hp at 1. apply Permutation_sort_values. }
  intros df w6 (Hp & S1 & S2). apply ensures_ret. cbn [snd].
  rewrite <- (Permutation_length Hp), <- Hall.
  split; [|split; congruence].
  apply Permutation_map, Permutation_sym, Hp.
Qed.

Lemma decimal_inj (i j : nat) : decimal i = decimal j -> i = j.
Proof.
  rewrite !decimal_spec. intros H.
  apply (f_equal NilEmpty.uint_of_string) in H. rewrite !NilEmpty.usu in H.
  injection H as H. now apply DecimalNat.Unsigned.to_uint_inj.
Qed.

(** X12: whenever one of the four record-producing components returns,
    the k-th record it emitted carries the k-th identifier read from the
    operating system's entropy during the call: one [uuid4] per record, in
    emission order, and nothing else reads that source. *)
Theorem component_identifiers_follow_entropy
  (cfg : Config) (users : list User.t) (n : Z) (m : M (list Txn.t))
  (w w' : World) (out : list Txn.t) :
  In m [ generate_legitimate_transactions cfg users n;
         inject_impossible_travel cfg users n;
         inject_velocity_spikes cfg users n;
         inject_behavioral_drift cfg users n ] ->
  m w = Ok (out, w') ->
  map Txn.transaction_id out
  = map (os w) (seq (os_pos w) (List.length out))
  /\ os w' = os w
  /\ os_pos w' = (os_pos w + List.length out)%nat.
Proof.
  intros Hm Hrun.
  assert (Hd : draws_ids m).
  { simpl in Hm. destruct Hm as [<-|[<-|[<-|[<-|[]]]]].
    - apply draws_generate_legitimate_transactions.
    - apply draws_inject_impossible_travel.
    - apply draws_inject_velocity_spikes.
    - apply draws_inject_behavioral_drift. }
  destruct (ensures_ok _ _ _ _ _ (Hd w) Hrun) as (H1 & H2 & H3). auto.
Qed.

Lemma component_identifiers_follow_entropy_witness :
  map Txn.transaction_id demo_burst
  = map (os (demo_world_at 9 0 0 0))
        (seq (os_pos (demo_world_at 9 0 0 0)) (List.length demo_burst))
  /\ os (demo_world_at 64 2 13 13) = os (demo_world_at 9 0 0 0)
  /\ os_pos (demo_world_at 64 2 13 13)
     = (os_pos (demo_world_at 9 0 0 0) + List.length demo_burst)%nat.
Proof.
  apply (component_identifiers_follow_entropy
           shipped demo_users 1 (inject_velocity_spikes shipped demo_users 1)
           (demo_world_at 9 0 0 0) (demo_world_at 64 2 13 13) demo_burst).
  - right; right; left; reflexivity.
  - reflexivity.
Defined.

(** X13: a valid run reads exactly one identifier per row of the frame
    and nothing else from the operating system's entropy: the identifier
    column is a rearrangement of the cells consumed, whatever that tape
    holds; and when the tape never repeats a value the transaction
    identifiers are pairwise distinct. *)
Theorem transaction_identifiers_distinct (cfg : Config) (w : World) :
  valid_config cfg = true ->
  exists users df w',
    main cfg w = Ok ((users, df), w')
    /\ Permutation (map Txn.transaction_id df)
                   (map (os w) (seq (os_pos w) (List.length df)))
    /\ os w' = os w
    /\ os_pos w' = (os_pos w + List.length df)%nat
    /\ ((forall i j, os w i = os w j -> i = j) ->
        NoDup (map Txn.transaction_id df)).
Proof.
  intros Hv.
  destruct (proj1 (returns_ex _ _ _) (returns_main cfg w Hv))
    as ([users df] & w' & Hrun & _).
  pose proof (ensures_ok _ _ _ _ _ (ensures_main_ids cfg w) Hrun)
    as (Hp & Hos & Hpos).
  cbn [snd] in Hp, Hpos.
  exists users, df, w'. split; [exact Hrun|]. split; [exact Hp|].
  split; [exact Hos|]. split; [exact Hpos|].
  intros Hinj.
  eapply Permutation_NoDup; [apply Permutation_sym, Hp|].
  apply Finite.Injective_map_NoDup; [exact Hinj | apply seq_NoDup].
Qed.

Lemma transaction_identifiers_distinct_witness :
  exists users df w',
    main small_config demo_world = Ok ((users, df), w')
    /\ Permutation (map Txn.transaction_id df)
                   (map (os demo_world)
                        (seq (os_pos demo_world) (List.length df)))
    /\ os w' = os demo_world
    /\ os_pos w' = (os_pos demo_world + List.length df)%nat
    /\ NoDup (map Txn.transaction_id df).
Proof.
  destruct (transaction_identifiers_distinct small_config demo_world)
    as (users & df & w' & Hrun & Hp & Hos & Hpos & Hnd); [reflexivity|].
  exists users, df, w'. split; [exact Hrun|]. split; [exact Hp|].
  split; [exact Hos|]. split; [exact Hpos|].
  apply Hnd. exact decimal_inj.
Defined.
